(** * Archipel virtual machine agent: a shallow embedding of
      [archipelVirtualMachine.py] (class [TNArchipelVirtualMachine]).

    The agent is a Python object whose methods mutate its attributes, call
    into the libvirt binding and into the XMPP entity layer, and raise and
    catch exceptions.  The embedding keeps that shape: the attributes are a
    record [VM], a method is a computation in a state-and-exception monad
    [M], the calls that leave the class (driver calls, presence, change
    notifications, hooks, timers, log lines) are appended in order to the
    [trace] attribute of the state, and what the driver answers is given by
    an oracle [Driver] that sees the trace so far. *)

From Stdlib Require Import ZArith Lia.
From stdpp Require Import base option list strings pretty gmap.

Local Open Scope Z_scope.

(** ** Constants *)

(** The libvirt binding is an external library.  The values are those of
    libvirt's public headers; the domain states are also the indices of the
    tuple [states] in [message_info]. *)
Module libvirt.
Definition VIR_DOMAIN_NOSTATE : Z := 0.
Definition VIR_DOMAIN_RUNNING : Z := 1.
Definition VIR_DOMAIN_BLOCKED : Z := 2.
Definition VIR_DOMAIN_PAUSED : Z := 3.
Definition VIR_DOMAIN_SHUTDOWN : Z := 4.
Definition VIR_DOMAIN_SHUTOFF : Z := 5.
Definition VIR_DOMAIN_CRASHED : Z := 6.

Definition VIR_DOMAIN_EVENT_DEFINED : Z := 0.
Definition VIR_DOMAIN_EVENT_UNDEFINED : Z := 1.
Definition VIR_DOMAIN_EVENT_STARTED : Z := 2.
Definition VIR_DOMAIN_EVENT_SUSPENDED : Z := 3.
Definition VIR_DOMAIN_EVENT_RESUMED : Z := 4.
Definition VIR_DOMAIN_EVENT_STOPPED : Z := 5.

Definition VIR_DOMAIN_EVENT_STARTED_BOOTED : Z := 0.
Definition VIR_DOMAIN_EVENT_STARTED_MIGRATED : Z := 1.
Definition VIR_DOMAIN_EVENT_SUSPENDED_PAUSED : Z := 0.
Definition VIR_DOMAIN_EVENT_SUSPENDED_MIGRATED : Z := 1.
Definition VIR_DOMAIN_EVENT_RESUMED_UNPAUSED : Z := 0.
Definition VIR_DOMAIN_EVENT_RESUMED_MIGRATED : Z := 1.
Definition VIR_DOMAIN_EVENT_STOPPED_SHUTDOWN : Z := 0.
Definition VIR_DOMAIN_EVENT_STOPPED_DESTROYED : Z := 1.
Definition VIR_DOMAIN_EVENT_STOPPED_MIGRATED : Z := 3.

Definition VIR_DOMAIN_EVENT_ID_LIFECYCLE : Z := 0.
Definition VIR_DOMAIN_XML_SECURE : Z := 1.
Definition VIR_ERR_NO_DOMAIN : Z := 42.
End libvirt.

Definition ARCHIPEL_ERROR_CODE_VM_CREATE : Z := -1001.
Definition ARCHIPEL_ERROR_CODE_VM_SUSPEND : Z := -1002.
Definition ARCHIPEL_ERROR_CODE_VM_RESUME : Z := -1003.
Definition ARCHIPEL_ERROR_CODE_VM_DESTROY : Z := -1004.
Definition ARCHIPEL_ERROR_CODE_VM_SHUTDOWN : Z := -1005.
Definition ARCHIPEL_ERROR_CODE_VM_REBOOT : Z := -1006.
Definition ARCHIPEL_ERROR_CODE_VM_DEFINE : Z := -1007.
Definition ARCHIPEL_ERROR_CODE_VM_UNDEFINE : Z := -1008.
Definition ARCHIPEL_ERROR_CODE_VM_INFO : Z := -1009.
Definition ARCHIPEL_ERROR_CODE_VM_XMLDESC : Z := -1011.
Definition ARCHIPEL_ERROR_CODE_VM_LOCKED : Z := -1012.
Definition ARCHIPEL_ERROR_CODE_VM_MIGRATE : Z := -1013.
Definition ARCHIPEL_ERROR_CODE_VM_IS_MIGRATING : Z := -1014.
Definition ARCHIPEL_ERROR_CODE_VM_AUTOSTART : Z := -1015.
Definition ARCHIPEL_ERROR_CODE_VM_MEMORY : Z := -1016.
Definition ARCHIPEL_ERROR_CODE_VM_NETWORKINFO : Z := -1017.
Definition ARCHIPEL_ERROR_CODE_VM_HYPERVISOR_CAPABILITIES : Z := -1019.
Definition ARCHIPEL_ERROR_CODE_VM_FREE : Z := -1020.
Definition ARCHIPEL_ERROR_CODE_VM_MIGRATING : Z := -43.

Definition ARCHIPEL_XMPP_SHOW_RUNNING : string := "Running".
Definition ARCHIPEL_XMPP_SHOW_PAUSED : string := "Paused".
Definition ARCHIPEL_XMPP_SHOW_SHUTDOWNED : string := "Off".
Definition ARCHIPEL_XMPP_SHOW_SHUTDOWNING : string := "Shutdowning...".
Definition ARCHIPEL_XMPP_SHOW_BLOCKED : string := "Blocked".
Definition ARCHIPEL_XMPP_SHOW_SHUTOFF : string := "Shutted off".
Definition ARCHIPEL_XMPP_SHOW_ERROR : string := "Error".
Definition ARCHIPEL_XMPP_SHOW_NOT_DEFINED : string := "Not defined".
Definition ARCHIPEL_XMPP_SHOW_CRASHED : string := "Crashed".

(** Imported from [archipelLibvirtEntity]; only the fact that a namespace is
    passed matters here. *)
Definition ARCHIPEL_NS_LIBVIRT_GENERIC_ERROR : string := "libvirt:error:generic".

(** ** XML nodes ([xmpp.simplexml.Node]) *)

#[warnings="-register-all"]
Inductive Node : Type :=
  mkNode (tag : string) (attrs : list (string * string)) (data : string)
         (kids : list Node).

Definition getName (n : Node) : string := let 'mkNode t _ _ _ := n in t.
Definition getAttrs (n : Node) : list (string * string) := let 'mkNode _ a _ _ := n in a.
Definition getData (n : Node) : string := let 'mkNode _ _ d _ := n in d.
Definition getChildren (n : Node) : list Node := let 'mkNode _ _ _ k := n in k.

Definition setData (d : string) (n : Node) : Node :=
  let 'mkNode t a _ k := n in mkNode t a d k.

Definition has_name (t : string) (n : Node) : bool := String.eqb (getName n) t.

(** [getTag] returns the first child of that name, or [None]. *)
Definition getTag (t : string) (n : Node) : option Node :=
  List.find (has_name t) (getChildren n).

(** [addChild(name=t)] appends a fresh empty child. *)
Definition addChild (t : string) (n : Node) : Node :=
  let 'mkNode t0 a d k := n in mkNode t0 a d (k ++ [mkNode t [] "" []]).

Fixpoint remove_first (t : string) (k : list Node) : list Node :=
  match k with
  | [] => []
  | c :: k' => if has_name t c then k' else c :: remove_first t k'
  end.

(** [delChild(t)] looks the child up with [getTag] and removes it. *)
Definition delChild (t : string) (n : Node) : Node :=
  let 'mkNode t0 a d k := n in mkNode t0 a d (remove_first t k).

Fixpoint update_first (t : string) (f : Node → Node) (k : list Node) : list Node :=
  match k with
  | [] => []
  | c :: k' => if has_name t c then f c :: k' else c :: update_first t f k'
  end.

(** [n.getTag(t).setData(d)]: the child is mutated in place, inside [n]. *)
Definition setTagData (t d : string) (n : Node) : Node :=
  let 'mkNode t0 a c k := n in mkNode t0 a c (update_first t (setData d) k).

(** ** Exceptions, effects and the driver *)

(** All of these are subclasses of Python's [Exception]; [libvirtError] is
    the one the handlers tell apart. *)
Inductive exn : Type :=
| libvirtError (code : Z)
| Exception (args : list string)
| AttributeError
| KeyError (key : string)
| ValueError
| TypeError
| ZeroDivisionError.

Inductive call : Type :=
| domain_create
| domain_shutdown
| domain_destroy
| domain_reboot (flags : Z)
| domain_suspend
| domain_resume
| domain_ID
| domain_info
| domain_autostart
| domain_setMemory (value : Z)
| domain_maxVcpus
| domain_setVcpus (value : Z)
| domain_setAutostart (flag : Z)
| domain_undefine
| domain_XMLDesc (flags : Z)
| conn_defineXML (xml : Node)
| conn_lookupByUUIDString (uuid : string)
| conn_domainEventRegisterAny (eventID : Z)
| conn_domainEventDeregisterAny (callbackID : Z).

Inductive timer : Type :=
| lock_timer_unlock
| memory_timer (requestedMemory retry : Z).

Inductive effect : Type :=
| Log (level format : string)
| ChangePresence (show status : string)
| PushChange (channel label : string)
| PerformHooks (hook : string)
| DriverCall (c : call)
| TimerStart (t : timer)
| TimerCancel (t : timer).

Definition is_driver_call (e : effect) : bool :=
  match e with DriverCall _ => true | _ => false end.

Inductive outcome (A : Type) : Type :=
| Returns (a : A)
| Throws (e : exn).
Arguments Returns {A} a.
Arguments Throws {A} e.

(** [domain.info()] returns the list [state, maxMem, memory, nrVirtCpu,
    cpuTime]. *)
Record dominfo : Type := mkDominfo {
  di_state : Z;
  di_maxMem : Z;
  di_memory : Z;
  di_nrVirtCpu : Z;
  di_cpuTime : Z
}.

Inductive hvtype : Type := QEMU | XEN | OTHER_HYPERVISOR.
#[global] Instance hvtype_eq_dec : EqDecision hvtype.
Proof. solve_decision. Defined.

(** What the hypervisor driver answers, as a function of everything the
    agent has done so far. *)
Record Driver : Type := mkDriver {
  drv_int : list effect → call → outcome Z;
  drv_info : list effect → outcome dominfo;
  drv_xmldesc : list effect → outcome Node;
  drv_type : hvtype
}.

(** ** The agent's attributes *)

Inductive trigger_state : Type :=
| ARCHIPEL_TRIGGER_STATE_ON
| ARCHIPEL_TRIGGER_STATE_OFF.

Inductive timer_state : Type := timer_pending | timer_cancelled.

Record JID : Type := mkJID { jid_node : string; jid_host : string }.

Definition getNode (j : JID) : string := jid_node j.
Definition getStripped (j : JID) : string := jid_node j +:+ "@" +:+ jid_host j.

(** [virDomain]: the handle returned by [lookupByUUIDString]. *)
Inductive virDomain : Type := VirDomain (uuid : string).

Record VM : Type := mkVM {
  jid : JID;
  password : string;
  name : string;
  libvirt_connection : bool;
  libvirt_status : Z;
  domain : option virDomain;
  definition : option Node;
  description : option Node;
  locked : bool;
  lock_timer : option timer_state;
  is_migrating : bool;
  libvirt_event_callback_id : option Z;
  triggers : gmap string trigger_state;
  xmppstatusshow : string;
  xmppstatus : string;
  trace : list effect
}.

(** [self.uuid = self.jid.getNode()], assigned once by the constructor. *)
Definition uuid (st : VM) : string := getNode (jid st).

Definition set_libvirt_status (v : Z) (st : VM) : VM :=
  mkVM (jid st) (password st) (name st) (libvirt_connection st) v (domain st)
       (definition st) (description st) (locked st) (lock_timer st)
       (is_migrating st) (libvirt_event_callback_id st) (triggers st)
       (xmppstatusshow st) (xmppstatus st) (trace st).

Definition set_domain (v : option virDomain) (st : VM) : VM :=
  mkVM (jid st) (password st) (name st) (libvirt_connection st)
       (libvirt_status st) v (definition st) (description st) (locked st)
       (lock_timer st) (is_migrating st) (libvirt_event_callback_id st)
       (triggers st) (xmppstatusshow st) (xmppstatus st) (trace st).

Definition set_definition (v : option Node) (st : VM) : VM :=
  mkVM (jid st) (password st) (name st) (libvirt_connection st)
       (libvirt_status st) (domain st) v (description st) (locked st)
       (lock_timer st) (is_migrating st) (libvirt_event_callback_id st)
       (triggers st) (xmppstatusshow st) (xmppstatus st) (trace st).

Definition set_description (v : option Node) (st : VM) : VM :=
  mkVM (jid st) (password st) (name st) (libvirt_connection st)
       (libvirt_status st) (domain st) (definition st) v (locked st)
       (lock_timer st) (is_migrating st) (libvirt_event_callback_id st)
       (triggers st) (xmppstatusshow st) (xmppstatus st) (trace st).

Definition set_locked (v : bool) (st : VM) : VM :=
  mkVM (jid st) (password st) (name st) (libvirt_connection st)
       (libvirt_status st) (domain st) (definition st) (description st) v
       (lock_timer st) (is_migrating st) (libvirt_event_callback_id st)
       (triggers st) (xmppstatusshow st) (xmppstatus st) (trace st).

Definition set_lock_timer (v : option timer_state) (st : VM) : VM :=
  mkVM (jid st) (password st) (name st) (libvirt_connection st)
       (libvirt_status st) (domain st) (definition st) (description st)
       (locked st) v (is_migrating st) (libvirt_event_callback_id st)
       (triggers st) (xmppstatusshow st) (xmppstatus st) (trace st).

Definition set_libvirt_event_callback_id (v : option Z) (st : VM) : VM :=
  mkVM (jid st) (password st) (name st) (libvirt_connection st)
       (libvirt_status st) (domain st) (definition st) (description st)
       (locked st) (lock_timer st) (is_migrating st) v (triggers st)
       (xmppstatusshow st) (xmppstatus st) (trace st).

Definition set_triggers (v : gmap string trigger_state) (st : VM) : VM :=
  mkVM (jid st) (password st) (name st) (libvirt_connection st)
       (libvirt_status st) (domain st) (definition st) (description st)
       (locked st) (lock_timer st) (is_migrating st)
       (libvirt_event_callback_id st) v (xmppstatusshow st) (xmppstatus st)
       (trace st).

Definition set_xmpp_presence (show status : string) (st : VM) : VM :=
  mkVM (jid st) (password st) (name st) (libvirt_connection st)
       (libvirt_status st) (domain st) (definition st) (description st)
       (locked st) (lock_timer st) (is_migrating st)
       (libvirt_event_callback_id st) (triggers st) show status (trace st).

Definition set_trace (v : list effect) (st : VM) : VM :=
  mkVM (jid st) (password st) (name st) (libvirt_connection st)
       (libvirt_status st) (domain st) (definition st) (description st)
       (locked st) (lock_timer st) (is_migrating st)
       (libvirt_event_callback_id st) (triggers st) (xmppstatusshow st)
       (xmppstatus st) v.

(** ** The monad of methods *)

Inductive res (A : Type) : Type :=
| Val (a : A)
| Raise (e : exn).
Arguments Val {A} a.
Arguments Raise {A} e.

Definition M (A : Type) : Type := VM → res A * VM.

#[global] Instance M_ret : MRet M := λ A a st, (Val a, st).

#[global] Instance M_bind : MBind M := λ A B f m st,
  match m st with
  | (Val a, st') => f a st'
  | (Raise e, st') => (Raise e, st')
  end.

Definition raise {A : Type} (e : exn) : M A := λ st, (Raise e, st).
Definition get : M VM := λ st, (Val st, st).
Definition modify (f : VM → VM) : M unit := λ st, (Val tt, f st).
Definition emit (e : effect) : M unit := modify (λ st, set_trace (trace st ++ [e]) st).

(** [try: body except Exception as ex: handler ex].  Every exception of
    [exn] is an [Exception]; the handler itself tells [libvirtError] from
    the rest, as the chained [except] clauses do. *)
Definition try_except {A : Type} (body : M A) (handler : exn → M A) : M A :=
  λ st, match body st with
        | (Val a, st') => (Val a, st')
        | (Raise e, st') => handler e st'
        end.

(** [try: body finally: final]. *)
Definition try_finally {A : Type} (body : M A) (final : M unit) : M A :=
  λ st, match body st with
        | (r, st') =>
            match final st' with
            | (Val _, st'') => (r, st'')
            | (Raise e, st'') => (Raise e, st'')
            end
        end.

Definition log_info (fmt : string) : M unit := emit (Log "info" fmt).
Definition log_error (fmt : string) : M unit := emit (Log "error" fmt).
Definition log_warning (fmt : string) : M unit := emit (Log "warning" fmt).
Definition log_debug (fmt : string) : M unit := emit (Log "debug" fmt).

(** ** The entity layer ([archipelcore], outside this module) *)

(** Modelled from the spec: [TNArchipelEntity.change_presence] is not part of
    this module.  It publishes the presence (show, status-text) on the bus
    and remembers it in [xmppstatusshow] and [xmppstatus]. *)
Definition change_presence (show status : string) : M unit :=
  modify (set_xmpp_presence show status);;
  emit (ChangePresence show status).

(** Modelled from the spec: [push_change] of the entity layer publishes a
    change notification (channel, label). *)
Definition push_change (channel label : string) : M unit :=
  emit (PushChange channel label).

(** Modelled from the spec: [TNHookableEntity.perform_hooks] fires the
    subscribers of a hook in registration order; a failing subscriber is
    logged and does not stop the others, so nothing is raised here. *)
Definition perform_hooks (hook : string) : M unit :=
  emit (PerformHooks hook).

(** Modelled from the spec: a trigger is an observable with a state in
    {on, off}; [self.triggers[name].set_state(s)] fails with [KeyError]
    when the dictionary has no such trigger. *)
Definition trigger_set_state (name : string) (s : trigger_state) : M unit :=
  st ← get;
  match triggers st !! name with
  | None => raise (KeyError name)
  | Some _ => modify (λ st, set_triggers (<[name := s]> (triggers st)) st)
  end.

(** ** Replies *)

Inductive payload : Type :=
| no_payload
| domain_payload (id : Z).

(** [iq.buildReply(typ)] and [build_error_iq(self, ex, iq, code, ns)]; the
    namespace is [None] where the call leaves it to its default. *)
Inductive reply : Type :=
| Result (p : payload)
| Ignore
| Error (ex : exn) (code : Z) (ns : option string).

(** What [getAttr("value")] gives on the [archipel] element, as [int()] and
    [long()] take it: [None] when the attribute is missing, a text that is
    not a number, or the text of a number. *)
Inductive value_attr : Type :=
| no_value
| not_a_number
| number (v : Z).

(** The parts of a request the handlers read: the [value] attribute of the
    [archipel] element and the [domain] child. *)
Record Iq : Type := mkIq {
  iq_value : value_attr;
  iq_domain : option Node
}.

Section Agent.

Variable drv : Driver.

(** ** Driver calls *)

(** One call into the binding: it is recorded in the trace, and the driver
    answers from what it has seen so far. *)
Definition oracle_call {A : Type} (c : call) (answer : list effect → outcome A) : M A :=
  λ st, let st' := set_trace (trace st ++ [DriverCall c]) st in
        match answer (trace st) with
        | Returns a => (Val a, st')
        | Throws e => (Raise e, st')
        end.

Definition driver_call (c : call) : M Z :=
  oracle_call c (λ tr, drv_int drv tr c).

(** A method of [self.domain]; on [None] the attribute lookup fails. *)
Definition domain_call (c : call) : M Z :=
  st ← get;
  match domain st with
  | None => raise AttributeError
  | Some _ => driver_call c
  end.

Definition domain_info_call : M dominfo :=
  st ← get;
  match domain st with
  | None => raise AttributeError
  | Some _ => oracle_call domain_info (drv_info drv)
  end.

Definition domain_XMLDesc_call (flags : Z) : M Node :=
  st ← get;
  match domain st with
  | None => raise AttributeError
  | Some _ => oracle_call (domain_XMLDesc flags) (drv_xmldesc drv)
  end.

(** A method of [self.libvirt_connection]. *)
Definition conn_call (c : call) : M Z :=
  st ← get;
  if libvirt_connection st then driver_call c else raise AttributeError.

(** Modelled from the spec: [is_hypervisor] of [archipelLibvirtEntity] tells
    whether the driver is one of the given classes. *)
Definition is_hypervisor (types : list hvtype) : bool :=
  bool_decide (drv_type drv ∈ types).

(** ** Utilities *)

Definition lock : M unit :=
  log_info "acquiring lock";;
  modify (set_locked true);;
  modify (set_lock_timer (Some timer_pending));;
  emit (TimerStart lock_timer_unlock).

Definition unlock : M unit :=
  log_info "releasing lock";;
  modify (set_locked false);;
  st ← get;
  match lock_timer st with
  | Some _ =>
      modify (set_lock_timer (Some timer_cancelled));;
      emit (TimerCancel lock_timer_unlock)
  | None => mret tt
  end.

Definition set_automatic_libvirt_description (xmldesc : Node) : M Node :=
  st ← get;
  let x1 := match getTag "description" xmldesc with
            | None => addChild "description" xmldesc
            | Some _ => addChild "description" (delChild "description" xmldesc)
            end in
  let x2 := setTagData "description"
              (getStripped (jid st) +:+ "::::" +:+ password st) x1 in
  let x3 := match getTag "name" x2 with
            | None => addChild "name" x2
            | Some _ => x2
            end in
  let x4 := setTagData "name" (name st) x3 in
  log_debug "generated XML desc is : %s";;
  mret x4.

Definition info : M dominfo :=
  dominfo ← domain_info_call;
  _ ← try_except (domain_call domain_autostart) (λ _, mret 0);
  mret dominfo.

Definition set_presence_according_to_libvirt_info : M unit :=
  try_except
    (dominfo ← domain_info_call;
     modify (set_libvirt_status (di_state dominfo));;
     log_info "virtual machine state is %d";;
     (if (di_state dominfo =? libvirt.VIR_DOMAIN_RUNNING)
         || (di_state dominfo =? libvirt.VIR_DOMAIN_BLOCKED) then
        change_presence "" ARCHIPEL_XMPP_SHOW_RUNNING;;
        trigger_set_state "libvirt_run" ARCHIPEL_TRIGGER_STATE_ON
      else if di_state dominfo =? libvirt.VIR_DOMAIN_PAUSED then
        change_presence "away" ARCHIPEL_XMPP_SHOW_PAUSED;;
        trigger_set_state "libvirt_run" ARCHIPEL_TRIGGER_STATE_OFF
      else if di_state dominfo =? libvirt.VIR_DOMAIN_SHUTOFF then
        change_presence "xa" ARCHIPEL_XMPP_SHOW_SHUTDOWNED
      else if di_state dominfo =? libvirt.VIR_DOMAIN_SHUTDOWN then
        change_presence "" ARCHIPEL_XMPP_SHOW_SHUTDOWNING
      else mret tt);;
     perform_hooks "HOOK_VM_INITIALIZE")
    (λ ex,
       match ex with
       | libvirtError code =>
           if code =? 42 then
             log_info "Exception raised %s : %s";;
             modify (set_domain None);;
             change_presence "xa" ARCHIPEL_XMPP_SHOW_NOT_DEFINED;;
             trigger_set_state "libvirt_run" ARCHIPEL_TRIGGER_STATE_OFF
           else log_error "Exception raised %s : %s"
       | _ => raise ex
       end).

Definition remove_libvirt_handler : M unit :=
  st ← get;
  match libvirt_event_callback_id st with
  | Some id =>
      log_info "removing the libvirt event listener for %s";;
      _ ← conn_call (conn_domainEventDeregisterAny id);
      modify (set_libvirt_event_callback_id None)
  | None => mret tt
  end.

(** The [try] block of [on_domain_event]. *)
Definition on_domain_event_try (event detail : Z) : M unit :=
  if (event =? libvirt.VIR_DOMAIN_EVENT_STARTED)
     && negb (detail =? libvirt.VIR_DOMAIN_EVENT_STARTED_MIGRATED) then
    change_presence "" ARCHIPEL_XMPP_SHOW_RUNNING;;
    push_change "virtualmachine:control" "created";;
    trigger_set_state "libvirt_run" ARCHIPEL_TRIGGER_STATE_ON;;
    perform_hooks "HOOK_VM_CREATE"
  else if (event =? libvirt.VIR_DOMAIN_EVENT_SUSPENDED)
          && negb (detail =? libvirt.VIR_DOMAIN_EVENT_SUSPENDED_MIGRATED) then
    change_presence "away" ARCHIPEL_XMPP_SHOW_PAUSED;;
    push_change "virtualmachine:control" "suspended";;
    trigger_set_state "libvirt_run" ARCHIPEL_TRIGGER_STATE_OFF;;
    perform_hooks "HOOK_VM_SUSPEND"
  else if (event =? libvirt.VIR_DOMAIN_EVENT_RESUMED)
          && negb (detail =? libvirt.VIR_DOMAIN_EVENT_RESUMED_MIGRATED) then
    change_presence "" ARCHIPEL_XMPP_SHOW_RUNNING;;
    push_change "virtualmachine:control" "resumed";;
    trigger_set_state "libvirt_run" ARCHIPEL_TRIGGER_STATE_OFF;;
    perform_hooks "HOOK_VM_RESUME"
  else if (event =? libvirt.VIR_DOMAIN_EVENT_STOPPED)
          && negb (detail =? libvirt.VIR_DOMAIN_EVENT_STOPPED_MIGRATED) then
    change_presence "xa" ARCHIPEL_XMPP_SHOW_SHUTDOWNED;;
    push_change "virtualmachine:control" "shutdowned";;
    trigger_set_state "libvirt_run" ARCHIPEL_TRIGGER_STATE_OFF;;
    perform_hooks "HOOK_VM_STOP"
  else if event =? libvirt.VIR_DOMAIN_CRASHED then
    change_presence "xa" ARCHIPEL_XMPP_SHOW_CRASHED;;
    push_change "virtualmachine:control" "crashed";;
    trigger_set_state "libvirt_run" ARCHIPEL_TRIGGER_STATE_OFF;;
    perform_hooks "HOOK_VM_CRASH"
  else if event =? libvirt.VIR_DOMAIN_SHUTOFF then
    change_presence "" ARCHIPEL_XMPP_SHOW_SHUTOFF;;
    push_change "virtualmachine:control" "shutoff";;
    trigger_set_state "libvirt_run" ARCHIPEL_TRIGGER_STATE_OFF;;
    perform_hooks "HOOK_VM_SHUTOFF"
  else if event =? libvirt.VIR_DOMAIN_EVENT_UNDEFINED then
    change_presence "xa" ARCHIPEL_XMPP_SHOW_NOT_DEFINED;;
    push_change "virtualmachine:definition" "undefined";;
    trigger_set_state "libvirt_run" ARCHIPEL_TRIGGER_STATE_OFF;;
    perform_hooks "HOOK_VM_UNDEFINE";;
    modify (set_domain None);;
    modify (set_description None);;
    remove_libvirt_handler
  else if event =? libvirt.VIR_DOMAIN_EVENT_DEFINED then
    change_presence "xa" ARCHIPEL_XMPP_SHOW_SHUTDOWNED;;
    push_change "virtualmachine:definition" "defined";;
    trigger_set_state "libvirt_run" ARCHIPEL_TRIGGER_STATE_OFF;;
    perform_hooks "HOOK_VM_DEFINE"
  else mret tt.

(** The [finally] block of [on_domain_event]. *)
Definition on_domain_event_finally (event : Z) : M unit :=
  (if negb (event =? libvirt.VIR_DOMAIN_EVENT_UNDEFINED)
      && negb (event =? libvirt.VIR_DOMAIN_EVENT_DEFINED) then
     try_except
       (i ← info; modify (set_libvirt_status (di_state i)))
       (λ _, mret tt)
   else mret tt);;
  unlock.

Definition on_domain_event (event detail : Z) : M unit :=
  log_info "libvirt event received: %d with detail %s";;
  st ← get;
  if is_migrating st then
    log_info "event received but virtual machine is migrating. ignoring"
  else
    try_finally
      (try_except
         (on_domain_event_try event detail)
         (λ ex, log_error "%s: Unable to change state %d:%d : %s"))
      (on_domain_event_finally event).

(** ** libvirt controls *)

Definition connect_domain : M unit :=
  st ← get;
  match domain st with
  | Some _ => log_info "already connected to domain. ignoring."
  | None =>
      found ← try_except
                (_ ← conn_call (conn_lookupByUUIDString (uuid st));
                 modify (set_domain (Some (VirDomain (uuid st))));;
                 mret true)
                (λ _,
                   log_warning "Can't connect to domain with UUID %s";;
                   change_presence "xa" ARCHIPEL_XMPP_SHOW_NOT_DEFINED;;
                   perform_hooks "HOOK_VM_INITIALIZE";;
                   mret false);
      if found : bool then
        try_except
          (desc ← domain_XMLDesc_call 0;
           modify (set_definition (Some desc));;
           log_info "sucessfully connect to domain uuid %s";;
           id ← conn_call (conn_domainEventRegisterAny libvirt.VIR_DOMAIN_EVENT_ID_LIFECYCLE);
           modify (set_libvirt_event_callback_id (Some id));;
           set_presence_according_to_libvirt_info)
          (λ _, log_error "Exception while connecting to domain : %s")
      else mret tt
  end.

Definition create : M Z :=
  lock;;
  ret ← domain_call domain_create;
  log_info "virtual machine created";;
  (if (ret =? 0) && negb (is_hypervisor [QEMU; XEN]) then
     on_domain_event libvirt.VIR_DOMAIN_EVENT_STARTED
                     libvirt.VIR_DOMAIN_EVENT_STARTED_BOOTED
   else mret tt);;
  domain_call domain_ID.

Definition state_is_running_or_blocked : M bool :=
  i ← info;
  if di_state i =? libvirt.VIR_DOMAIN_RUNNING then mret true
  else (j ← info; mret (di_state j =? libvirt.VIR_DOMAIN_BLOCKED)).

Definition shutdown : M unit :=
  lock;;
  ret ← domain_call domain_shutdown;
  b ← state_is_running_or_blocked;
  (if b : bool then
     st ← get; change_presence (xmppstatus st) ARCHIPEL_XMPP_SHOW_SHUTDOWNING
   else mret tt);;
  (if (ret =? 0) && negb (is_hypervisor [QEMU; XEN]) then
     on_domain_event libvirt.VIR_DOMAIN_EVENT_STOPPED
                     libvirt.VIR_DOMAIN_EVENT_STOPPED_SHUTDOWN
   else mret tt);;
  log_info "virtual machine shutdowned".

Definition destroy : M unit :=
  lock;;
  ret ← domain_call domain_destroy;
  (if (ret =? 0) && negb (is_hypervisor [QEMU; XEN]) then
     on_domain_event libvirt.VIR_DOMAIN_EVENT_STOPPED
                     libvirt.VIR_DOMAIN_EVENT_STOPPED_DESTROYED
   else mret tt);;
  log_info "virtual machine destroyed".

Definition reboot : M unit :=
  lock;;
  _ ← domain_call (domain_reboot 0);
  log_info "virtual machine rebooted".

Definition suspend : M unit :=
  lock;;
  ret ← domain_call domain_suspend;
  log_info "virtual machine suspended";;
  if (ret =? 0) && negb (is_hypervisor [QEMU]) then
    on_domain_event libvirt.VIR_DOMAIN_EVENT_SUSPENDED
                    libvirt.VIR_DOMAIN_EVENT_SUSPENDED_PAUSED
  else mret tt.

Definition resume : M unit :=
  lock;;
  ret ← domain_call domain_resume;
  log_info "virtual machine resumed";;
  if (ret =? 0) && negb (is_hypervisor [QEMU]) then
    on_domain_event libvirt.VIR_DOMAIN_EVENT_RESUMED
                    libvirt.VIR_DOMAIN_EVENT_RESUMED_UNPAUSED
  else mret tt.

Definition setMemory (value : Z) : M unit :=
  let value := if value <? 10 then 10 else value in
  _ ← domain_call (domain_setMemory value);
  emit (TimerStart (memory_timer value 3)).

(** One run of the timer callback.  [/] is Python 2 integer division, which
    rounds to the floor as [Z.div] does, and raises on a zero divisor. *)
Definition memoryTimer (requestedMemory retry : Z) : M unit :=
  i ← info;
  q ← (if di_memory i =? 0 then raise ZeroDivisionError
       else mret (requestedMemory / di_memory i));
  if (q =? 0) || (q =? 1) then
    push_change "virtualmachine:control" "memory"
  else if 0 <? retry then
    emit (TimerStart (memory_timer requestedMemory (retry - 1)))
  else
    push_change "virtualmachine:control" "memory".

(** The timer executor: it runs the callback and, when the callback ended by
    starting a new timer, runs that one in turn, at most [fuel] times.  The
    result is the number of runs of the callback. *)
Fixpoint fire_memory_timers (fuel : nat) (requestedMemory retry : Z) : M nat :=
  match fuel with
  | O => mret 0%nat
  | S fuel' =>
      memoryTimer requestedMemory retry;;
      st ← get;
      match last (trace st) with
      | Some (TimerStart (memory_timer r k)) =>
          n ← fire_memory_timers fuel' r k; mret (S n)
      | _ => mret 1%nat
      end
  end.

Definition setVCPUs (value : Z) : M unit :=
  lock;;
  m ← domain_call domain_maxVcpus;
  (if m <? value then
     m' ← domain_call domain_maxVcpus;
     raise (Exception ["Maximum vCPU is " +:+ pretty m'])
   else mret tt);;
  _ ← domain_call (domain_setVcpus value);
  unlock.

Definition setAutostart (flag : Z) : M unit :=
  _ ← domain_call (domain_setAutostart flag); mret tt.

(** [set_automatic_libvirt_description] mutates the node it is given, so the
    node stored in [definition] and returned is the rewritten one.  The
    object [defineXML] returns is a domain handle, which is true. *)
Definition define (xmldesc : Node) : M Node :=
  st ← get;
  if libvirt_connection st then
    xml ← set_automatic_libvirt_description xmldesc;
    _ ← driver_call (conn_defineXML xml);
    st ← get;
    (match domain st with
     | None => connect_domain
     | Some _ => mret tt
     end);;
    modify (set_definition (Some xml));;
    (if negb (is_hypervisor [QEMU; XEN]) then
       on_domain_event libvirt.VIR_DOMAIN_EVENT_DEFINED 0
     else mret tt);;
    mret xml
  else raise AttributeError.

Definition undefine : M unit :=
  st ← get;
  match domain st with
  | None => log_warning "virtual machine is already undefined"
  | Some _ =>
      ret ← domain_call domain_undefine;
      (if (ret =? 0) && negb (is_hypervisor [QEMU; XEN]) then
         on_domain_event libvirt.VIR_DOMAIN_EVENT_UNDEFINED 0
       else mret tt);;
      log_info "virtual machine undefined"
  end.

(** ** XMPP controls *)

Definition locked_message : string := "Virtual machine is locked, can't do anything".

Definition iq_create (iq : Iq) : M reply :=
  st ← get;
  if locked st then
    log_error locked_message;;
    mret (Error (Exception [locked_message]) ARCHIPEL_ERROR_CODE_VM_LOCKED None)
  else
    try_except
      (domid ← create; mret (Result (domain_payload domid)))
      (λ ex,
         match ex with
         | libvirtError code =>
             unlock;; mret (Error ex code (Some ARCHIPEL_NS_LIBVIRT_GENERIC_ERROR))
         | _ => unlock;; mret (Error ex ARCHIPEL_ERROR_CODE_VM_CREATE None)
         end).

Definition iq_shutdown (iq : Iq) : M reply :=
  st ← get;
  if locked st then
    log_error locked_message;;
    mret (Error (Exception [locked_message]) ARCHIPEL_ERROR_CODE_VM_LOCKED None)
  else
    try_except
      (shutdown;; mret (Result no_payload))
      (λ ex,
         match ex with
         | libvirtError code =>
             unlock;; mret (Error ex code (Some ARCHIPEL_NS_LIBVIRT_GENERIC_ERROR))
         | _ => unlock;; mret (Error ex ARCHIPEL_ERROR_CODE_VM_SHUTDOWN None)
         end).

Definition iq_destroy (iq : Iq) : M reply :=
  st ← get;
  if locked st then
    log_error locked_message;;
    mret (Error (Exception [locked_message]) ARCHIPEL_ERROR_CODE_VM_LOCKED None)
  else
    try_except
      (destroy;; mret (Result no_payload))
      (λ ex,
         match ex with
         | libvirtError code =>
             unlock;; mret (Error ex code (Some ARCHIPEL_NS_LIBVIRT_GENERIC_ERROR))
         | _ => unlock;; mret (Error ex ARCHIPEL_ERROR_CODE_VM_DESTROY None)
         end).

Definition iq_reboot (iq : Iq) : M reply :=
  st ← get;
  if locked st then
    log_error locked_message;;
    mret (Error (Exception [locked_message]) ARCHIPEL_ERROR_CODE_VM_LOCKED None)
  else
    try_except
      (reboot;; mret (Result no_payload))
      (λ ex,
         match ex with
         | libvirtError code => unlock;; mret (Error ex code None)
         | _ => unlock;; mret (Error ex ARCHIPEL_ERROR_CODE_VM_REBOOT None)
         end).

Definition iq_suspend (iq : Iq) : M reply :=
  st ← get;
  if locked st then
    log_error locked_message;;
    mret (Error (Exception [locked_message]) ARCHIPEL_ERROR_CODE_VM_LOCKED None)
  else
    try_except
      (suspend;; mret (Result no_payload))
      (λ ex,
         match ex with
         | libvirtError code =>
             unlock;; mret (Error ex code (Some ARCHIPEL_NS_LIBVIRT_GENERIC_ERROR))
         | _ => unlock;; mret (Error ex ARCHIPEL_ERROR_CODE_VM_SUSPEND None)
         end).

Definition iq_resume (iq : Iq) : M reply :=
  st ← get;
  if locked st then
    log_error locked_message;;
    mret (Error (Exception [locked_message]) ARCHIPEL_ERROR_CODE_VM_LOCKED None)
  else
    try_except
      (resume;; mret (Result no_payload))
      (λ ex,
         match ex with
         | libvirtError code =>
             unlock;; mret (Error ex code (Some ARCHIPEL_NS_LIBVIRT_GENERIC_ERROR))
         | _ => unlock;; mret (Error ex ARCHIPEL_ERROR_CODE_VM_RESUME None)
         end).

(** [int(...getAttr("value"))] and [long(...)]: [int(None)] raises
    [TypeError], and a text that is not a number [ValueError]. *)
Definition value_of (iq : Iq) : M Z :=
  match iq_value iq with
  | number v => mret v
  | not_a_number => raise ValueError
  | no_value => raise TypeError
  end.

Definition iq_define (iq : Iq) : M reply :=
  try_except
    (st ← get;
     match iq_domain iq with
     | None => raise AttributeError
     | Some domain_node =>
         match getTag "uuid" domain_node with
         | None => raise AttributeError
         | Some u =>
             let domain_uuid := getData u in
             if negb (String.eqb domain_uuid (getNode (jid st))) then
               raise (Exception ["IncorrectUUID";
                                 "given UUID " +:+ domain_uuid
                                 +:+ " doesn't match JID " +:+ getNode (jid st)])
             else
               _ ← define domain_node;
               log_info "virtual machine XML is defined";;
               mret (Result no_payload)
         end
     end)
    (λ ex,
       match ex with
       | libvirtError code =>
           mret (Error ex code (Some ARCHIPEL_NS_LIBVIRT_GENERIC_ERROR))
       | _ => mret (Error ex ARCHIPEL_ERROR_CODE_VM_DEFINE None)
       end).

Definition iq_undefine (iq : Iq) : M reply :=
  try_except
    (undefine;;
     log_info "virtual machine is undefined";;
     mret (Result no_payload))
    (λ ex,
       match ex with
       | libvirtError code =>
           mret (Error ex code (Some ARCHIPEL_NS_LIBVIRT_GENERIC_ERROR))
       | _ => mret (Error ex ARCHIPEL_ERROR_CODE_VM_DESTROY None)
       end).

Definition iq_autostart (iq : Iq) : M reply :=
  try_except
    (autostart ← value_of iq;
     setAutostart autostart;;
     log_info "virtual autostart is set to %d";;
     mret (Result no_payload))
    (λ ex,
       match ex with
       | libvirtError code =>
           mret (Error ex code (Some ARCHIPEL_NS_LIBVIRT_GENERIC_ERROR))
       | _ => mret (Error ex ARCHIPEL_ERROR_CODE_VM_AUTOSTART None)
       end).

Definition iq_memory (iq : Iq) : M reply :=
  try_except
    (memory ← value_of iq;
     setMemory memory;;
     log_info "virtual machine memory is set to %d";;
     mret (Result no_payload))
    (λ ex,
       match ex with
       | libvirtError code =>
           mret (Error ex code (Some ARCHIPEL_NS_LIBVIRT_GENERIC_ERROR))
       | _ => mret (Error ex ARCHIPEL_ERROR_CODE_VM_MEMORY None)
       end).

Definition iq_setvcpus (iq : Iq) : M reply :=
  try_except
    (cpus ← value_of iq;
     setVCPUs cpus;;
     log_info "virtual machine number of cpus is set to %d";;
     push_change "virtualmachine:control" "nvcpu";;
     push_change "virtualmachine:definition" "nvcpu";;
     mret (Result no_payload))
    (λ ex,
       match ex with
       | libvirtError code =>
           mret (Error ex code (Some ARCHIPEL_NS_LIBVIRT_GENERIC_ERROR))
       | _ => mret (Error ex ARCHIPEL_ERROR_CODE_VM_MEMORY None)
       end).

End Agent.


(** ** The rest of the request layer *)

Definition set_is_migrating (v : bool) (st : VM) : VM :=
  mkVM (jid st) (password st) (name st) (libvirt_connection st)
       (libvirt_status st) (domain st) (definition st) (description st)
       (locked st) (lock_timer st) v (libvirt_event_callback_id st)
       (triggers st) (xmppstatusshow st) (xmppstatus st) (trace st).

(** What a handler hands back to its router: a reply of one of the shapes
    above, the error built from a plain text, or a result that carries the
    [info] attributes, the domain XML or the capabilities document. *)
Inductive response : Type :=
| reply_of (r : reply)
| error_text (text : string) (code : Z)
| info_result (i : dominfo) (autostart : Z) (hypervisor : JID)
| xmldesc_result (xml : Node)
| capabilities_result (doc : Node).

(** How a router ends: by raising [NodeProcessed], after sending a reply or
    without one, or by returning. *)
Inductive routed : Type :=
| NodeProcessed (sent : option response)
| returned.

(** What a chat handler returns: its text, or [build_error_message(self, ex)]. *)
Inductive message_reply : Type :=
| text_reply (text : string)
| error_message (ex : exn).

(** A request as the routers see it: the action [check_acp] resolved, the
    parts the handlers read, and the [hypervisorjid] attribute ([None] when
    it is missing, so that [xmpp.JID()] raises [ValueError]). *)
Record Envelope : Type := mkEnvelope {
  env_action : string;
  env_iq : Iq;
  env_hypervisorjid : option JID
}.

(** [a in b] on two Python strings: [a] occurs in [b]. *)
Fixpoint occurs_in (a b : string) : bool :=
  String.prefix a b
  || match b with
     | EmptyString => false
     | String _ b' => occurs_in a b'
     end.

(** [a in (b1, b2, ...)] on a tuple of strings. *)
Definition member_of (a : string) (bs : list string) : bool :=
  existsb (String.eqb a) bs.

(** A call to a collaborator outside the agent that does not come back into
    it: it returns or raises, and the agent's attributes are as before. *)
Definition external {A : Type} (o : outcome A) : M A :=
  λ st, match o with
        | Returns a => (Val a, st)
        | Throws e => (Raise e, st)
        end.

#[global] Instance M_fmap : FMap M := λ A B f m, a ← m; mret (f a).

Section Requests.

Variable drv : Driver.

(** [self.hypervisor.jid] and the read of [self.hypervisor.capabilities]. *)
Variable hypervisor_jid : JID.
Variable hypervisor_capabilities : outcome Node.

(** [self.xmppclient.SendAndCallForResponse(iq, self.migrate_step2)] for the
    uri request addressed to the given hypervisor. *)
Variable send_uri_request : JID → outcome unit.

(** [info] with the whole dictionary it returns: the five entries of
    [domain.info()], [autostart] (0 when [domain.autostart()] fails) and the
    hypervisor's address. *)
Definition info_dict : M (dominfo * Z * JID) :=
  dominfo ← domain_info_call drv;
  autostart ← try_except (domain_call drv domain_autostart) (λ _, mret 0);
  mret (dominfo, autostart, hypervisor_jid).

Definition xmldesc : M Node :=
  descnode ← domain_XMLDesc_call drv libvirt.VIR_DOMAIN_XML_SECURE;
  match getTag "description" descnode with
  | Some _ => mret (delChild "description" descnode)
  | None => mret descnode
  end.

Definition migrate_step1 (destination_jid : JID) : M unit :=
  if negb (is_hypervisor drv [QEMU]) then
    raise (Exception ["Archipel only supports Live migration for QEMU/KVM domains at the moment"])
  else
    st ← get;
    if is_migrating st then
      raise (Exception ["Virtual machine is already migrating"])
    else
      match definition st with
      | None => raise (Exception ["Virtual machine must be defined"])
      | Some _ =>
          i ← domain_info_call drv;
          stopped ← (if negb (di_state i =? libvirt.VIR_DOMAIN_RUNNING) then
                       j ← domain_info_call drv;
                       mret (negb (di_state j =? libvirt.VIR_DOMAIN_BLOCKED))
                     else mret false);
          if stopped : bool then
            raise (Exception ["Virtual machine must be running"])
          else if String.eqb (getStripped hypervisor_jid) (getStripped destination_jid) then
            raise (Exception ["Virtual machine is already running on "
                              +:+ getStripped destination_jid])
          else
            modify (set_is_migrating true);;
            external (send_uri_request destination_jid)
      end.

(** ** More XMPP controls *)

Definition iq_migrate (hypervisorjid : option JID) : M response :=
  try_except
    (hyp_jid ← match hypervisorjid with
               | Some j => mret j
               | None => raise ValueError
               end;
     migrate_step1 hyp_jid;;
     mret (reply_of (Result no_payload)))
    (λ ex, mret (reply_of (Error ex ARCHIPEL_ERROR_CODE_VM_MIGRATE None))).

Definition message_create (msg : string) : M message_reply :=
  try_except (_ ← create drv; mret (text_reply "I'm starting"))
             (λ ex, mret (error_message ex)).

Definition message_shutdown (msg : string) : M message_reply :=
  try_except (shutdown drv;; mret (text_reply "I'm shutdowning"))
             (λ ex, mret (error_message ex)).

Definition message_destroy (msg : string) : M message_reply :=
  try_except (destroy drv;; mret (text_reply "I've destroyed myself"))
             (λ ex, mret (error_message ex)).

Definition message_reboot (msg : string) : M message_reply :=
  try_except (reboot drv;; mret (text_reply "I try to reboot"))
             (λ ex, mret (error_message ex)).

Definition message_suspend (msg : string) : M message_reply :=
  try_except (suspend drv;; mret (text_reply "I'm suspended"))
             (λ ex, mret (error_message ex)).

Definition message_resume (msg : string) : M message_reply :=
  try_except (resume drv;; mret (text_reply "I'm resumed"))
             (λ ex, mret (error_message ex)).

Definition iq_info (iq : Iq) : M response :=
  try_except
    (st ← get;
     match domain st with
     | None => mret (reply_of Ignore)
     | Some _ =>
         infos ← info_dict;
         mret (info_result infos.1.1 infos.1.2 infos.2)
     end)
    (λ ex,
       match ex with
       | libvirtError code =>
           if code =? libvirt.VIR_ERR_NO_DOMAIN then
             mret (reply_of (Result no_payload))
           else
             mret (reply_of (Error ex code (Some ARCHIPEL_NS_LIBVIRT_GENERIC_ERROR)))
       | _ => mret (reply_of (Error ex ARCHIPEL_ERROR_CODE_VM_INFO None))
       end).

Definition iq_xmldesc (iq : Iq) : M response :=
  try_except
    (st ← get;
     match domain st with
     | None => raise (Exception ["not-defined"])
     | Some _ =>
         xmldescnode ← xmldesc;
         mret (xmldesc_result xmldescnode)
     end)
    (λ ex,
       match ex with
       | libvirtError code =>
           mret (reply_of (Error ex code (Some ARCHIPEL_NS_LIBVIRT_GENERIC_ERROR)))
       | _ => mret (reply_of (Error ex ARCHIPEL_ERROR_CODE_VM_XMLDESC None))
       end).

Definition iq_capabilities (iq : Iq) : M response :=
  try_except
    (doc ← external hypervisor_capabilities;
     mret (capabilities_result doc))
    (λ ex,
       mret (reply_of (Error ex ARCHIPEL_ERROR_CODE_VM_HYPERVISOR_CAPABILITIES None))).

(** ** Process IQ *)

(** [iq_networkinfo] and [iq_free] are not embedded: the routers are given
    for whatever these two handlers do. *)
Variable iq_networkinfo : Iq → M response.
Variable iq_free : Iq → M response.

Definition migrating_message : string :=
  "virtual machine is migrating. Can't perform this control operation".

(** The router of [archipel:vm:control], from the point where [check_acp]
    has resolved the action and [check_perm] has let the request through.
    A reply object is true, so every branch that assigns [reply] ends in
    [NodeProcessed]. *)
Definition process_iq_archipel_control (env : Envelope) : M routed :=
  let action := env_action env in
  let iq := env_iq env in
  st ← get;
  if negb (libvirt_connection st) then
    log_info "control action required but no libvirt connection";;
    mret (NodeProcessed None)
  else if is_migrating st
          && negb (member_of action ["info"; "xmldesc"; "networkinfo"]) then
    mret (NodeProcessed
            (Some (error_text migrating_message ARCHIPEL_ERROR_CODE_VM_MIGRATING)))
  else
    reply ← (if String.eqb action "info" then Some <$> iq_info iq
             else if String.eqb action "create" then
               Some ∘ reply_of <$> iq_create drv iq
             else if String.eqb action "shutdown" then
               Some ∘ reply_of <$> iq_shutdown drv iq
             else if String.eqb action "destroy" then
               Some ∘ reply_of <$> iq_destroy drv iq
             else if String.eqb action "reboot" then
               Some ∘ reply_of <$> iq_reboot drv iq
             else if String.eqb action "suspend" then
               Some ∘ reply_of <$> iq_suspend drv iq
             else if String.eqb action "resume" then
               Some ∘ reply_of <$> iq_resume drv iq
             else if String.eqb action "xmldesc" then Some <$> iq_xmldesc iq
             else if String.eqb action "migrate" then
               Some <$> iq_migrate (env_hypervisorjid env)
             else if String.eqb action "autostart" then
               Some ∘ reply_of <$> iq_autostart drv iq
             else if String.eqb action "memory" then
               Some ∘ reply_of <$> iq_memory drv iq
             else if String.eqb action "setvcpus" then
               Some ∘ reply_of <$> iq_setvcpus drv iq
             else if String.eqb action "networkinfo" then Some <$> iq_networkinfo iq
             else if String.eqb action "free" then Some <$> iq_free iq
             else mret None);
    match reply with
    | Some r => mret (NodeProcessed (Some r))
    | None => mret returned
    end.

(** The router of [archipel:vm:definition].  Its migration guard tests the
    action against the string ["capabilities"], not against a tuple. *)
Definition process_iq_archipel_definition (env : Envelope) : M routed :=
  let action := env_action env in
  let iq := env_iq env in
  st ← get;
  if is_migrating st && negb (occurs_in action "capabilities") then
    mret (NodeProcessed
            (Some (error_text migrating_message ARCHIPEL_ERROR_CODE_VM_MIGRATING)))
  else
    reply ← (if String.eqb action "define" then
               Some ∘ reply_of <$> iq_define drv iq
             else if String.eqb action "undefine" then
               Some ∘ reply_of <$> iq_undefine drv iq
             else if String.eqb action "capabilities" then
               Some <$> iq_capabilities iq
             else mret None);
    match reply with
    | Some r => mret (NodeProcessed (Some r))
    | None => mret returned
    end.

End Requests.
(** * Properties *)

(** ** Vocabulary *)

(** What the agent published on the bus or fired in process. *)
Definition is_published (e : effect) : bool :=
  match e with
  | ChangePresence _ _ | PushChange _ _ | PerformHooks _ => true
  | _ => false
  end.

Definition published (tr : list effect) : list effect := List.filter is_published tr.
Definition driver_calls (tr : list effect) : list effect := List.filter is_driver_call tr.

(** [respects R m]: whatever [m] does, and whether it returns or raises, the
    state it leaves is related by [R] to the state it started from.  For a
    preorder [R] this is closed under the control structure of the
    methods, which reduces a frame property of a method to the attribute
    updates and the effects it is built from. *)
Definition respects {A : Type} (R : relation VM) (m : M A) : Prop :=
  ∀ st, R st (snd (m st)).

(** [same view]: the two states agree on what [view] shows of them. *)
Definition same {X : Type} (view : VM → X) : relation VM :=
  λ st st', view st' = view st.

(** [extends]: the trace only grew. *)
Definition extends : relation VM :=
  λ st st', ∃ tr, trace st' = trace st ++ tr.

(** Everything the bus and the hooks can see of the agent, and every
    attribute but the cached status and the lock. *)
Definition bus_view (st : VM) :=
  (jid st, password st, name st, libvirt_connection st, domain st,
   definition st, description st, is_migrating st,
   libvirt_event_callback_id st, triggers st, xmppstatusshow st,
   xmppstatus st, published (trace st)).

(** What no lifecycle event touches. *)
Definition fixed_view (st : VM) :=
  (jid st, password st, name st, libvirt_connection st, is_migrating st,
   definition st).

(** The presence, the triggers and what went out on the bus. *)
Definition row_view (st : VM) :=
  (published (trace st), triggers st, xmppstatusshow st, xmppstatus st).

(** The state after the first three calls of a branch of
    [on_domain_event_try]: the presence is published and remembered, the
    change is pushed, and the [libvirt_run] trigger is set. *)
Definition announced (show status channel label : string) (ts : trigger_state)
    (st : VM) : VM :=
  set_triggers (<["libvirt_run" := ts]> (triggers st))
    (set_trace (trace st ++ [ChangePresence show status; PushChange channel label])
       (set_xmpp_presence show status st)).

(** The state when [on_domain_event] enters its [try] block, and the state
    after a hook is fired. *)
Definition entered (st : VM) : VM :=
  set_trace (trace st ++ [Log "info" "libvirt event received: %d with detail %s"]) st.

Definition hooked (hook : string) (st : VM) : VM :=
  set_trace (trace st ++ [PerformHooks hook]) st.

(** The description element holds the credentials and the name element the
    display name. *)
Definition carries_credentials (st : VM) (xml : Node) : Prop :=
  getData <$> getTag "description" xml
  = Some (getStripped (jid st) +:+ "::::" +:+ password st)
  ∧ getData <$> getTag "name" xml = Some (name st).

(** *** The presence table of the specification (section 4.5)

    Keyed by the libvirt status; [None] stands for the row of the undefined
    domain (the no-domain error).  The show "available" is the empty string
    on the wire and "extended-away" is "xa". *)
Definition presence_table_spec (status : option Z)
  : option (string * string * trigger_state) :=
  match status with
  | None => Some ("xa", "Not defined", ARCHIPEL_TRIGGER_STATE_OFF)
  | Some s =>
      if (s =? libvirt.VIR_DOMAIN_RUNNING) || (s =? libvirt.VIR_DOMAIN_BLOCKED) then
        Some ("", "Running", ARCHIPEL_TRIGGER_STATE_ON)
      else if s =? libvirt.VIR_DOMAIN_PAUSED then
        Some ("away", "Paused", ARCHIPEL_TRIGGER_STATE_OFF)
      else if s =? libvirt.VIR_DOMAIN_SHUTOFF then
        Some ("xa", "Shutted off", ARCHIPEL_TRIGGER_STATE_OFF)
      else if s =? libvirt.VIR_DOMAIN_SHUTDOWN then
        Some ("", "Shutdowning...", ARCHIPEL_TRIGGER_STATE_OFF)
      else if s =? libvirt.VIR_DOMAIN_CRASHED then
        Some ("xa", "Crashed", ARCHIPEL_TRIGGER_STATE_OFF)
      else None
  end.

(** *** The table the presence refresh follows

    What [set_presence_according_to_libvirt_info] publishes for the answer
    of [domain.info()], and the state it leaves the [libvirt_run] trigger
    in, given the state [old] the trigger had. *)
Definition refresh_presence (o : outcome dominfo) : list effect :=
  match o with
  | Returns i =>
      let s := di_state i in
      (if (s =? libvirt.VIR_DOMAIN_RUNNING) || (s =? libvirt.VIR_DOMAIN_BLOCKED) then
         [ChangePresence "" "Running"]
       else if s =? libvirt.VIR_DOMAIN_PAUSED then
         [ChangePresence "away" "Paused"]
       else if s =? libvirt.VIR_DOMAIN_SHUTOFF then
         [ChangePresence "xa" "Off"]
       else if s =? libvirt.VIR_DOMAIN_SHUTDOWN then
         [ChangePresence "" "Shutdowning..."]
       else [])
      ++ [PerformHooks "HOOK_VM_INITIALIZE"]
  | Throws _ => [ChangePresence "xa" "Not defined"]
  end.

Definition refresh_trigger (o : outcome dominfo) (old : trigger_state) : trigger_state :=
  match o with
  | Returns i =>
      let s := di_state i in
      if (s =? libvirt.VIR_DOMAIN_RUNNING) || (s =? libvirt.VIR_DOMAIN_BLOCKED) then
        ARCHIPEL_TRIGGER_STATE_ON
      else if s =? libvirt.VIR_DOMAIN_PAUSED then
        ARCHIPEL_TRIGGER_STATE_OFF
      else old
  | Throws _ => ARCHIPEL_TRIGGER_STATE_OFF
  end.

(** *** The rows of the presence refresh

    For the answer of [domain.info()], the presence
    [set_presence_according_to_libvirt_info] publishes and, in the rows
    where it sets the [libvirt_run] trigger, the state it sets it to; and
    the key of that answer in the table: the status, or [None] for the
    no-domain error. *)
Definition refresh_row (o : outcome dominfo)
  : option (string * string * option trigger_state) :=
  match o with
  | Returns i =>
      let s := di_state i in
      if (s =? libvirt.VIR_DOMAIN_RUNNING) || (s =? libvirt.VIR_DOMAIN_BLOCKED) then
        Some ("", ARCHIPEL_XMPP_SHOW_RUNNING, Some ARCHIPEL_TRIGGER_STATE_ON)
      else if s =? libvirt.VIR_DOMAIN_PAUSED then
        Some ("away", ARCHIPEL_XMPP_SHOW_PAUSED, Some ARCHIPEL_TRIGGER_STATE_OFF)
      else if s =? libvirt.VIR_DOMAIN_SHUTOFF then
        Some ("xa", ARCHIPEL_XMPP_SHOW_SHUTDOWNED, None)
      else if s =? libvirt.VIR_DOMAIN_SHUTDOWN then
        Some ("", ARCHIPEL_XMPP_SHOW_SHUTDOWNING, None)
      else None
  | Throws (libvirtError code) =>
      if code =? libvirt.VIR_ERR_NO_DOMAIN then
        Some ("xa", ARCHIPEL_XMPP_SHOW_NOT_DEFINED, Some ARCHIPEL_TRIGGER_STATE_OFF)
      else None
  | Throws _ => None
  end.

Definition reported_status (o : outcome dominfo) : option Z :=
  match o with
  | Returns i => Some (di_state i)
  | Throws _ => None
  end.

(** How a run of [memoryTimer] ends when the driver reports the nonzero
    memory [memory]: the effect it appends to the trace. *)
Definition memoryTimer_outcome (requestedMemory retry memory : Z) : effect :=
  let q := requestedMemory / memory in
  if (q =? 0) || (q =? 1) then PushChange "virtualmachine:control" "memory"
  else if 0 <? retry then TimerStart (memory_timer requestedMemory (retry - 1))
  else PushChange "virtualmachine:control" "memory".

(** The presence and the trigger state an agent shows. *)
Definition shown (st : VM) : string * string * option trigger_state :=
  (xmppstatusshow st, xmppstatus st, triggers st !! "libvirt_run").

(** *** Concrete agents and drivers, for the examples *)

Definition running_info : dominfo := mkDominfo libvirt.VIR_DOMAIN_RUNNING 2048 1024 1 0.
Definition shutoff_info : dominfo := mkDominfo libvirt.VIR_DOMAIN_SHUTOFF 2048 1024 1 0.
Definition no_memory_info : dominfo := mkDominfo libvirt.VIR_DOMAIN_RUNNING 2048 0 1 0.

Definition sample_xml : Node :=
  mkNode "domain" []
    ""
    [mkNode "name" [] "somebody-else" [];
     mkNode "uuid" [] "aaaa" [];
     mkNode "description" [] "free text" []].

(** A QEMU driver on which every call succeeds with 0, except that
    [maxVcpus] answers 8. *)
Definition driver_with (i : outcome dominfo) : Driver :=
  mkDriver
    (λ _ c, match c with domain_maxVcpus => Returns 8 | _ => Returns 0 end)
    (λ _, i)
    (λ _, Returns sample_xml)
    QEMU.

Definition running_driver : Driver := driver_with (Returns running_info).

(** The agent of uuid "aaaa", defined, connected to its domain, with the
    [libvirt_run] trigger on and the lock free. *)
Definition sample_vm : VM :=
  mkVM (mkJID "aaaa" "hypervisor.example") "secret" "vm-one" true
       libvirt.VIR_DOMAIN_RUNNING (Some (VirDomain "aaaa")) (Some sample_xml)
       (Some sample_xml) false None false (Some 7)
       {["libvirt_run" := ARCHIPEL_TRIGGER_STATE_ON]} "" "Running" [].

Definition sample_iq (value : Z) : Iq := mkIq (number value) None.

(** The same agent in the middle of a migration, and holding the lock. *)
Definition migrating_vm : VM :=
  mkVM (mkJID "aaaa" "hypervisor.example") "secret" "vm-one" true
       libvirt.VIR_DOMAIN_RUNNING (Some (VirDomain "aaaa")) (Some sample_xml)
       (Some sample_xml) false None true (Some 7)
       {["libvirt_run" := ARCHIPEL_TRIGGER_STATE_ON]} "" "Migrating..." [].

Definition locked_vm : VM :=
  set_lock_timer (Some timer_pending) (set_locked true sample_vm).

(** A driver in whose binding [undefine] fails with something that is not a
    libvirt error. *)
Definition broken_binding_driver : Driver :=
  mkDriver
    (λ _ c, match c with
            | domain_undefine => Throws (Exception ["wrong argument"])
            | _ => Returns 0
            end)
    (λ _, Returns running_info)
    (λ _, Returns sample_xml)
    QEMU.

(** A define request with the agent's uuid, and one with another uuid. *)
Definition define_iq : Iq := mkIq no_value (Some sample_xml).

Definition foreign_xml : Node :=
  mkNode "domain" [] "" [mkNode "uuid" [] "bbbb" []].

Definition foreign_define_iq : Iq := mkIq no_value (Some foreign_xml).

(** *** Vocabulary for the rest of the request layer *)

(** The data-model invariant of the lock: while the lock is held, its safety
    timer is pending. *)
Definition lock_invariant (st : VM) : Prop :=
  locked st = true → lock_timer st = Some timer_pending.

(** [keeps P]: if [P] held before, it holds after. *)
Definition keeps (P : VM → Prop) : relation VM :=
  λ st st', P st → P st'.

(** The identity of the agent. *)
Definition identity_view (st : VM) := (jid st, password st, name st).

(** How many children of that name a node has, and its other children. *)
Definition count_tag (t : string) (n : Node) : nat :=
  length (List.filter (has_name t) (getChildren n)).

Definition children_but (ts : list string) (n : Node) : list Node :=
  List.filter (λ c, negb (existsb (λ t, has_name t c) ts)) (getChildren n).

(** The children [set_automatic_libvirt_description] leaves in the node, for
    the credentials and the display name it writes. *)
Definition rewritten_children (creds display : string) (k : list Node) : list Node :=
  let k1 := match List.find (has_name "description") k with
            | None => k
            | Some _ => remove_first "description" k
            end ++ [mkNode "description" [] "" []] in
  let k2 := update_first "description" (setData creds) k1 in
  let k3 := match List.find (has_name "name") k2 with
            | None => k2 ++ [mkNode "name" [] "" []]
            | Some _ => k2
            end in
  update_first "name" (setData display) k3.

(** The entry points through which the bus, the driver's event thread and
    the timers come into the agent, apart from the two handlers that are
    not embedded. *)
Inductive operation : Type :=
| call_iq_info (iq : Iq)
| call_iq_create (iq : Iq)
| call_iq_shutdown (iq : Iq)
| call_iq_destroy (iq : Iq)
| call_iq_reboot (iq : Iq)
| call_iq_suspend (iq : Iq)
| call_iq_resume (iq : Iq)
| call_iq_xmldesc (iq : Iq)
| call_iq_migrate (hypervisorjid : option JID)
| call_iq_autostart (iq : Iq)
| call_iq_memory (iq : Iq)
| call_iq_setvcpus (iq : Iq)
| call_iq_define (iq : Iq)
| call_iq_undefine (iq : Iq)
| call_iq_capabilities (iq : Iq)
| call_message_create (msg : string)
| call_message_shutdown (msg : string)
| call_message_destroy (msg : string)
| call_message_reboot (msg : string)
| call_message_suspend (msg : string)
| call_message_resume (msg : string)
| call_on_domain_event (event detail : Z)
| call_memoryTimer (requestedMemory retry : Z)
| call_lock_timer
| call_connect_domain.

Definition is_migrate (op : operation) : bool :=
  match op with call_iq_migrate _ => true | _ => false end.

Section Operations.

Variable drv : Driver.
Variable hypervisor_jid : JID.
Variable hypervisor_capabilities : outcome Node.
Variable send_uri_request : JID → outcome unit.

(** The state an operation leaves; what it returned or raised is dropped. *)
Definition run_operation (op : operation) (st : VM) : VM :=
  match op with
  | call_iq_info iq => snd (iq_info drv hypervisor_jid iq st)
  | call_iq_create iq => snd (iq_create drv iq st)
  | call_iq_shutdown iq => snd (iq_shutdown drv iq st)
  | call_iq_destroy iq => snd (iq_destroy drv iq st)
  | call_iq_reboot iq => snd (iq_reboot drv iq st)
  | call_iq_suspend iq => snd (iq_suspend drv iq st)
  | call_iq_resume iq => snd (iq_resume drv iq st)
  | call_iq_xmldesc iq => snd (iq_xmldesc drv iq st)
  | call_iq_migrate j => snd (iq_migrate drv hypervisor_jid send_uri_request j st)
  | call_iq_autostart iq => snd (iq_autostart drv iq st)
  | call_iq_memory iq => snd (iq_memory drv iq st)
  | call_iq_setvcpus iq => snd (iq_setvcpus drv iq st)
  | call_iq_define iq => snd (iq_define drv iq st)
  | call_iq_undefine iq => snd (iq_undefine drv iq st)
  | call_iq_capabilities iq => snd (iq_capabilities hypervisor_capabilities iq st)
  | call_message_create msg => snd (message_create drv msg st)
  | call_message_shutdown msg => snd (message_shutdown drv msg st)
  | call_message_destroy msg => snd (message_destroy drv msg st)
  | call_message_reboot msg => snd (message_reboot drv msg st)
  | call_message_suspend msg => snd (message_suspend drv msg st)
  | call_message_resume msg => snd (message_resume drv msg st)
  | call_on_domain_event event detail => snd (on_domain_event drv event detail st)
  | call_memoryTimer requestedMemory retry =>
      snd (memoryTimer drv requestedMemory retry st)
  | call_lock_timer => snd (unlock st)
  | call_connect_domain => snd (connect_domain drv st)
  end.

(** The call into the driver each chat order makes. *)
Definition chat_orders : list ((string → M message_reply) * call) :=
  [(message_create drv, domain_create);
   (message_shutdown drv, domain_shutdown);
   (message_destroy drv, domain_destroy);
   (message_reboot drv, domain_reboot 0);
   (message_suspend drv, domain_suspend);
   (message_resume drv, domain_resume)].

Definition run_operations (ops : list operation) (st : VM) : VM :=
  fold_left (λ s op, run_operation op s) ops st.

End Operations.

(** *** More concrete drivers and requests *)

(** A QEMU driver on which [create] fails with a libvirt error. *)
Definition failing_create_driver : Driver :=
  mkDriver
    (λ _ c, match c with
            | domain_create => Throws (libvirtError 1)
            | _ => Returns 0
            end)
    (λ _, Returns running_info)
    (λ _, Returns sample_xml)
    QEMU.

(** A driver of a class that delivers no lifecycle events. *)
Definition eventless_driver : Driver :=
  mkDriver (λ _ _, Returns 0) (λ _, Returns running_info)
           (λ _, Returns sample_xml) OTHER_HYPERVISOR.

(** A driver that knows no domain of that uuid. *)
Definition empty_driver : Driver :=
  mkDriver
    (λ _ c, match c with
            | conn_lookupByUUIDString _ => Throws (libvirtError 42)
            | _ => Returns 0
            end)
    (λ _, Throws (libvirtError 42))
    (λ _, Throws (libvirtError 42))
    QEMU.

(** The agent before its domain is defined. *)
Definition undefined_vm : VM :=
  mkVM (mkJID "aaaa" "hypervisor.example") "secret" "vm-one" true
       libvirt.VIR_DOMAIN_SHUTDOWN None None None false None false None
       {["libvirt_run" := ARCHIPEL_TRIGGER_STATE_OFF]} "xa" "Not defined" [].

Definition own_hypervisor : JID := mkJID "hyp-one" "example".
Definition other_hypervisor : JID := mkJID "hyp-two" "example".

Definition sample_envelope (action : string) : Envelope :=
  mkEnvelope action (sample_iq 0) (Some other_hypervisor).

Definition no_value_iq : Iq := mkIq no_value None.
Definition bad_value_iq : Iq := mkIq not_a_number None.

(** Stand-ins for the two handlers that are not embedded, and an XMPP
    client on which every send succeeds. *)
Definition unembedded_handler : Iq → M response := λ _, mret (reply_of Ignore).
Definition send_succeeds : JID → outcome unit := λ _, Returns tt.

(** The node define hands to the driver for the sample request, and a
    driver that gives it back as the domain XML. *)
Definition rewritten_sample_xml : Node :=
  match fst (set_automatic_libvirt_description sample_xml sample_vm) with
  | Val xml => xml
  | Raise _ => sample_xml
  end.

Definition defined_driver : Driver :=
  mkDriver (λ _ _, Returns 0) (λ _, Returns running_info)
           (λ _, Returns rewritten_sample_xml) QEMU.

(** A define request for the agent's uuid whose name element has an
    attribute and a child element, and which has two descriptions. *)
Definition marked_up_xml : Node :=
  mkNode "domain" []
    ""
    [mkNode "name" [("lang", "en")] "somebody-else" [mkNode "b" [] "bold" []];
     mkNode "uuid" [] "aaaa" [];
     mkNode "description" [] "one" [];
     mkNode "description" [("kind", "note")] "two" [mkNode "i" [] "more" []]].

Definition marked_up_define_iq : Iq := mkIq no_value (Some marked_up_xml).

(** A domain XML with two descriptions, and a driver that answers with it. *)
Definition annotated_xml : Node :=
  mkNode "domain" []
    ""
    [mkNode "name" [] "vm-one" [];
     mkNode "description" [] "first" [];
     mkNode "uuid" [] "aaaa" [];
     mkNode "description" [] "second" []].

Definition annotated_driver : Driver :=
  mkDriver (λ _ _, Returns 0) (λ _, Returns running_info)
           (λ _, Returns annotated_xml) QEMU.

(** ** Reasoning about the monad *)

Lemma bind_val {A B : Type} (m : M A) (f : A → M B) (st st' : VM) (a : A) :
  m st = (Val a, st') → (m ≫= f) st = f a st'.
Proof. intros H. unfold mbind, M_bind. now rewrite H. Qed.

Lemma bind_raise {A B : Type} (m : M A) (f : A → M B) (st st' : VM) (e : exn) :
  m st = (Raise e, st') → (m ≫= f) st = (Raise e, st').
Proof. intros H. unfold mbind, M_bind. now rewrite H. Qed.

Lemma emit_eq (e : effect) (st : VM) :
  emit e st = (Val tt, set_trace (trace st ++ [e]) st).
Proof. reflexivity. Qed.

Lemma published_snoc (tr : list effect) (e : effect) :
  published (tr ++ [e]) = published tr ++ (if is_published e then [e] else []).
Proof. unfold published. now rewrite List.filter_app. Qed.

Lemma published_app (tr1 tr2 : list effect) :
  published (tr1 ++ tr2) = published tr1 ++ published tr2.
Proof. unfold published. now rewrite List.filter_app. Qed.

Lemma driver_calls_app (tr1 tr2 : list effect) :
  driver_calls (tr1 ++ tr2) = driver_calls tr1 ++ driver_calls tr2.
Proof. unfold driver_calls. now rewrite List.filter_app. Qed.

#[global] Instance same_preorder {X : Type} (view : VM → X) : PreOrder (same view).
Proof.
  split.
  - intros st. reflexivity.
  - intros s1 s2 s3 H12 H23. unfold same in *. congruence.
Qed.

#[global] Instance extends_preorder : PreOrder extends.
Proof.
  split.
  - intros st. exists []. now rewrite app_nil_r.
  - intros s1 s2 s3 [t1 H1] [t2 H2]. exists (t1 ++ t2).
    now rewrite H2, H1, app_assoc.
Qed.

(** *** Frame rules *)

Section Frame.

Context (R : relation VM) `{!PreOrder R}.

Lemma respects_ret {A : Type} (a : A) : respects R (mret a).
Proof. intros st. simpl. reflexivity. Qed.

Lemma respects_raise {A : Type} (e : exn) : respects R (@raise A e).
Proof. intros st. simpl. reflexivity. Qed.

Lemma respects_get : respects R get.
Proof. intros st. simpl. reflexivity. Qed.

Lemma respects_modify (f : VM → VM) : (∀ st, R st (f st)) → respects R (modify f).
Proof. intros H st. apply H. Qed.

Lemma respects_bind {A B : Type} (m : M A) (f : A → M B) :
  respects R m → (∀ a, respects R (f a)) → respects R (m ≫= f).
Proof.
  intros Hm Hf st. unfold mbind, M_bind.
  specialize (Hm st). destruct (m st) as [[a | e] st1]; simpl in *.
  - etransitivity; [exact Hm | apply Hf].
  - exact Hm.
Qed.

Lemma respects_try_except {A : Type} (body : M A) (handler : exn → M A) :
  respects R body → (∀ e, respects R (handler e)) →
  respects R (try_except body handler).
Proof.
  intros Hb Hh st. unfold try_except.
  specialize (Hb st). destruct (body st) as [[a | e] st1]; simpl in *.
  - exact Hb.
  - etransitivity; [exact Hb | apply Hh].
Qed.

Lemma respects_try_finally {A : Type} (body : M A) (final : M unit) :
  respects R body → respects R final → respects R (try_finally body final).
Proof.
  intros Hb Hf st. unfold try_finally.
  specialize (Hb st). destruct (body st) as [r st1]; simpl in *.
  specialize (Hf st1). destruct (final st1) as [[[] | e] st2]; simpl in *;
    (etransitivity; [exact Hb | exact Hf]).
Qed.

Lemma respects_oracle_call {A : Type} (c : call) (answer : list effect → outcome A) :
  (∀ st, R st (set_trace (trace st ++ [DriverCall c]) st)) →
  respects R (oracle_call c answer).
Proof.
  intros H st. unfold oracle_call.
  destruct (answer (trace st)); simpl; apply H.
Qed.

End Frame.

Create HintDb agent discriminated.

#[global] Hint Unfold log_info log_error log_warning log_debug emit
  change_presence push_change perform_hooks trigger_set_state
  driver_call domain_call conn_call domain_info_call domain_XMLDesc_call
  : agent.

Ltac frame_leaf :=
  intros; unfold same, extends, bus_view, fixed_view, row_view; simpl;
  rewrite ?published_snoc; simpl; rewrite ?app_nil_r;
  first [ reflexivity | eexists; reflexivity
        | exists []; symmetry; apply app_nil_r ].

Ltac frame_rule lem :=
  apply lem;
  try lazymatch goal with |- PreOrder _ => typeclasses eauto end.

Ltac frame_step :=
  lazymatch goal with
  | |- respects _ (_ ≫= _) => frame_rule @respects_bind; [| intros ?]
  | |- respects _ (try_except _ _) => frame_rule @respects_try_except; [| intros ?]
  | |- respects _ (try_finally _ _) => frame_rule @respects_try_finally
  | |- respects _ (mret _) => frame_rule @respects_ret
  | |- respects _ (raise _) => frame_rule @respects_raise
  | |- respects _ get => frame_rule @respects_get
  | |- respects _ (modify _) => frame_rule @respects_modify; frame_leaf
  | |- respects _ (oracle_call _ _) => frame_rule @respects_oracle_call; frame_leaf
  | |- respects _ (match ?x with _ => _ end) => destruct x
  end.

Ltac frame := repeat first [ frame_step | progress autounfold with agent ].

(** ** The event ingress *)

Section EventIngress.

Variable drv : Driver.

Lemma on_domain_event_fixed_view (event detail : Z) :
  respects (same fixed_view) (on_domain_event drv event detail).
Proof.
  unfold on_domain_event, on_domain_event_try, on_domain_event_finally,
    remove_libvirt_handler, info, unlock.
  frame.
Qed.

Lemma on_domain_event_extends (event detail : Z) :
  respects extends (on_domain_event drv event detail).
Proof.
  unfold on_domain_event, on_domain_event_try, on_domain_event_finally,
    remove_libvirt_handler, info, unlock.
  frame.
Qed.

Lemma announce_run {A : Type} (show status channel label : string)
    (ts t0 : trigger_state) (k : M A) (st : VM) :
  triggers st !! "libvirt_run" = Some t0 →
  (change_presence show status;; push_change channel label;;
   trigger_set_state "libvirt_run" ts;; k) st
  = k (announced show status channel label ts st).
Proof.
  intros Ht.
  unfold change_presence, push_change, trigger_set_state, emit, modify, get,
    mbind, M_bind.
  simpl. rewrite Ht. unfold announced, set_triggers, set_trace, set_xmpp_presence.
  simpl. now rewrite <- app_assoc.
Qed.

Lemma unlock_run (st : VM) :
  ∃ st', unlock st = (Val tt, st') ∧ locked st' = false
         ∧ libvirt_status st' = libvirt_status st.
Proof.
  unfold unlock, log_info, emit, modify, get, mbind, M_bind. simpl.
  destruct (lock_timer st); simpl; eauto.
Qed.

(** [info] returns what [domain.info()] answered; the failure of
    [domain.autostart()] is swallowed. *)
Lemma info_run (st : VM) (d : virDomain) (i : dominfo) :
  domain st = Some d →
  drv_info drv (trace st) = Returns i →
  ∃ st', info drv st = (Val i, st')
         ∧ trace st' = trace st ++ [DriverCall domain_info; DriverCall domain_autostart]
         ∧ bus_view st' = bus_view st.
Proof.
  intros Hd Hi.
  pose proof (respects_bind (same bus_view) _ _
                (ltac:(unfold domain_info_call; frame) :
                   respects (same bus_view) (domain_info_call drv))
                (λ i, ltac:(frame) :
                   respects (same bus_view)
                     (_ ← try_except (domain_call drv domain_autostart) (λ _, mret 0);
                      mret i)) st) as Hv.
  unfold same in Hv. fold (info drv) in Hv.
  unfold info, domain_info_call, domain_call, driver_call, oracle_call,
    try_except, get, mbind, M_bind in *.
  simpl in *. rewrite Hd, Hi in *. simpl in *. rewrite Hd in *.
  destruct (drv_int drv _ domain_autostart); simpl in *;
    (eexists; split; [reflexivity |]); simpl;
    (split; [now rewrite <- app_assoc | exact Hv]).
Qed.

Lemma on_domain_event_finally_run (event : Z) (st : VM) :
  ∃ st', on_domain_event_finally drv event st = (Val tt, st')
         ∧ bus_view st' = bus_view st ∧ locked st' = false.
Proof.
  assert (Hframe : respects (same bus_view) (on_domain_event_finally drv event)).
  { unfold on_domain_event_finally, info, unlock. frame. }
  specialize (Hframe st). unfold same in Hframe.
  unfold on_domain_event_finally in *.
  set (refresh := if negb (event =? libvirt.VIR_DOMAIN_EVENT_UNDEFINED)
                     && negb (event =? libvirt.VIR_DOMAIN_EVENT_DEFINED)
                  then try_except
                         (i ← info drv; modify (set_libvirt_status (di_state i)))
                         (λ _, mret tt)
                  else mret tt) in *.
  assert (Hr : ∃ st1, refresh st = (Val tt, st1)).
  { unfold refresh.
    destruct (negb (event =? libvirt.VIR_DOMAIN_EVENT_UNDEFINED)
              && negb (event =? libvirt.VIR_DOMAIN_EVENT_DEFINED)); [| now eexists].
    unfold try_except, mbind, M_bind, modify.
    destruct (info drv st) as [[i | e] st1]; now eexists. }
  destruct Hr as [st1 Hr].
  destruct (unlock_run st1) as (st2 & Hu & Hl & _).
  exists st2. rewrite (bind_val _ _ _ _ _ Hr) in *. rewrite Hu in *.
  now repeat split.
Qed.

(** When the event is neither defined nor undefined, the [finally] block
    caches the state [domain.info()] answers. *)
Lemma on_domain_event_finally_status (event : Z) (st st' : VM) (d : virDomain)
    (i : dominfo) :
  event ≠ libvirt.VIR_DOMAIN_EVENT_UNDEFINED →
  event ≠ libvirt.VIR_DOMAIN_EVENT_DEFINED →
  domain st = Some d →
  drv_info drv (trace st) = Returns i →
  on_domain_event_finally drv event st = (Val tt, st') →
  libvirt_status st' = di_state i.
Proof.
  intros Hu Hd Hdom Hi Hrun.
  destruct (info_run st d i Hdom Hi) as (st1 & Hinfo & _ & _).
  unfold on_domain_event_finally in Hrun.
  apply Z.eqb_neq in Hu, Hd. rewrite Hu, Hd in Hrun. simpl in Hrun.
  destruct (unlock_run (set_libvirt_status (di_state i) st1)) as (st2 & Hun & _ & Hs).
  unfold try_except, mbind, M_bind, modify in Hrun.
  rewrite Hinfo in Hrun. simpl in Hrun.
  unfold mbind, M_bind, modify in Hun. rewrite Hun in Hrun.
  inversion Hrun; subst. exact Hs.
Qed.

(** A lifecycle event while the agent is not migrating: whether the [try]
    block ran to its end or raised, the callback returns, the lock is
    released, and what came after the [try] block shows neither on the bus
    nor in the attributes of [bus_view]. *)
Lemma on_domain_event_run (event detail : Z) (st st2 : VM) (r : res unit) :
  is_migrating st = false →
  on_domain_event_try drv event detail
    (entered st) = (r, st2) →
  ∃ st3 st', on_domain_event drv event detail st = (Val tt, st')
             ∧ on_domain_event_finally drv event st3 = (Val tt, st')
             ∧ bus_view st3 = bus_view st2
             ∧ bus_view st' = bus_view st2 ∧ locked st' = false.
Proof.
  intros Hmig Htry.
  set (st3 := match r with
              | Val _ => st2
              | Raise _ =>
                  set_trace (trace st2 ++
                             [Log "error" "%s: Unable to change state %d:%d : %s"]) st2
              end).
  assert (Hv3 : bus_view st3 = bus_view st2).
  { unfold st3. destruct r; [reflexivity |].
    unfold bus_view. simpl. rewrite published_snoc. simpl. now rewrite app_nil_r. }
  destruct (on_domain_event_finally_run event st3) as (st' & Hf & Hv & Hl).
  exists st3, st'. repeat split; [| assumption | assumption | congruence | assumption].
  unfold on_domain_event, log_info.
  erewrite bind_val by apply emit_eq.
  erewrite bind_val by reflexivity.
  simpl. rewrite Hmig. unfold try_finally, try_except.
  unfold entered in Htry. rewrite Htry. unfold st3 in Hf. destruct r as [[] | e].
  - now rewrite Hf.
  - unfold log_error. rewrite emit_eq. now rewrite Hf.
Qed.

(** A branch that starts with the four calls presence, change, trigger,
    hook, whatever it goes on with as long as that respects [row_view]. *)
Lemma on_domain_event_branch (event detail : Z) (st : VM)
    (show status channel label hook : string) (ts t0 : trigger_state)
    (rest : M unit) :
  is_migrating st = false →
  triggers st !! "libvirt_run" = Some t0 →
  (∀ s, on_domain_event_try drv event detail s
        = (change_presence show status;; push_change channel label;;
           trigger_set_state "libvirt_run" ts;; perform_hooks hook;; rest) s) →
  respects (same row_view) rest →
  ∃ st3 st', on_domain_event drv event detail st = (Val tt, st')
         ∧ on_domain_event_finally drv event st3 = (Val tt, st')
         ∧ bus_view st3
           = bus_view (snd (rest (hooked hook
                                    (announced show status channel label ts
                                               (entered st)))))
         ∧ bus_view st' = bus_view st3
         ∧ published (trace st')
           = published (trace st)
             ++ [ChangePresence show status; PushChange channel label;
                 PerformHooks hook]
         ∧ triggers st' !! "libvirt_run" = Some ts
         ∧ xmppstatusshow st' = show ∧ xmppstatus st' = status
         ∧ is_migrating st' = false
         ∧ locked st' = false.
Proof.
  intros Hmig Ht Hbranch Hrest.
  pose proof (on_domain_event_fixed_view event detail st) as Hfix.
  set (sta := hooked hook (announced show status channel label ts (entered st))).
  destruct (rest sta) as [r st2] eqn:Hr.
  assert (Htry : on_domain_event_try drv event detail (entered st) = (r, st2)).
  { rewrite Hbranch. erewrite announce_run by exact Ht.
    unfold perform_hooks. erewrite bind_val by apply emit_eq. exact Hr. }
  destruct (on_domain_event_run event detail st st2 r Hmig Htry)
    as (st3 & st' & Hrun & Hfin & Hv3 & Hv & Hl).
  specialize (Hrest sta). rewrite Hr in Hrest. unfold same in Hrest. simpl in Hrest.
  rewrite Hrun in Hfix. unfold same, fixed_view in Hfix. simpl in Hfix.
  exists st3, st'.
  split; [exact Hrun |]. split; [exact Hfin |]. split; [exact Hv3 |].
  split; [congruence |].
  unfold bus_view in Hv. unfold row_view in Hrest.
  injection Hv as _ _ _ _ _ _ _ _ _ Htr Hshow Hstatus Hpub.
  injection Hrest as Hpub2 Htr2 Hshow2 Hstatus2.
  injection Hfix as _ _ _ _ Hm _.
  repeat split.
  - rewrite Hpub, Hpub2. unfold sta, hooked, entered. simpl.
    rewrite !published_app. simpl. now rewrite app_nil_r, <- app_assoc.
  - rewrite Htr, Htr2. unfold sta. simpl. apply lookup_insert_eq.
  - now rewrite Hshow, Hshow2.
  - now rewrite Hstatus, Hstatus2.
  - congruence.
  - exact Hl.
Qed.

End EventIngress.

(** ** The presence mapper and the event ingress *)

Lemma bind_ext {A B : Type} (m : M A) (f g : A → M B) (st : VM) :
  (∀ a s, f a s = g a s) → (m ≫= f) st = (m ≫= g) st.
Proof. intros H. unfold mbind, M_bind. destruct (m st) as [[a | e] s]; auto. Qed.

Lemma bind_ret_r (m : M unit) (st : VM) : (m ≫= λ _, mret tt) st = m st.
Proof. unfold mbind, M_bind. now destruct (m st) as [[[] | e] s]. Qed.

Lemma four_calls_ext (show status channel label hook : string) (ts : trigger_state)
    (st : VM) :
  (change_presence show status;; push_change channel label;;
   trigger_set_state "libvirt_run" ts;; perform_hooks hook) st
  = (change_presence show status;; push_change channel label;;
     trigger_set_state "libvirt_run" ts;; perform_hooks hook;; mret tt) st.
Proof.
  apply bind_ext; intros _ s1. apply bind_ext; intros _ s2.
  apply bind_ext; intros _ s3. symmetry. apply bind_ret_r.
Qed.

Section PresenceAndEvents.

Variable drv : Driver.

Lemma refresh_run (st : VM) (d : virDomain) (t0 : trigger_state) (o : outcome dominfo) :
  domain st = Some d →
  triggers st !! "libvirt_run" = Some t0 →
  drv_info drv (trace st) = o →
  (∀ e, o = Throws e → e = libvirtError libvirt.VIR_ERR_NO_DOMAIN) →
  ∃ st', set_presence_according_to_libvirt_info drv st = (Val tt, st')
         ∧ published (trace st') = published (trace st) ++ refresh_presence o
         ∧ triggers st' !! "libvirt_run" = Some (refresh_trigger o t0)
         ∧ (∀ i, o = Returns i → libvirt_status st' = di_state i)
         ∧ (∀ e, o = Throws e → domain st' = None).
Proof.
  intros Hd Ht Ho Herr.
  unfold set_presence_according_to_libvirt_info, try_except, domain_info_call,
    oracle_call, change_presence, perform_hooks, trigger_set_state, log_info,
    log_error, emit, modify, get, mbind, M_bind.
  simpl. rewrite Hd, Ho. destruct o as [i | e].
  - unfold refresh_presence, refresh_trigger. simpl.
    destruct ((di_state i =? libvirt.VIR_DOMAIN_RUNNING)
              || (di_state i =? libvirt.VIR_DOMAIN_BLOCKED)) eqn:C1; simpl.
    { rewrite Ht. simpl. eexists. split; [reflexivity |]. simpl.
      rewrite !published_snoc. simpl. rewrite !app_nil_r, <- app_assoc. simpl.
      repeat split; [apply lookup_insert_eq | congruence | discriminate]. }
    destruct (di_state i =? libvirt.VIR_DOMAIN_PAUSED) eqn:C2; simpl.
    { rewrite Ht. simpl. eexists. split; [reflexivity |]. simpl.
      rewrite !published_snoc. simpl. rewrite !app_nil_r, <- app_assoc. simpl.
      repeat split; [apply lookup_insert_eq | congruence | discriminate]. }
    destruct (di_state i =? libvirt.VIR_DOMAIN_SHUTOFF) eqn:C3; simpl.
    { eexists. split; [reflexivity |]. simpl.
      rewrite !published_snoc. simpl. rewrite !app_nil_r, <- app_assoc. simpl.
      repeat split; [assumption | congruence | discriminate]. }
    destruct (di_state i =? libvirt.VIR_DOMAIN_SHUTDOWN) eqn:C4; simpl.
    { eexists. split; [reflexivity |]. simpl.
      rewrite !published_snoc. simpl. rewrite !app_nil_r, <- app_assoc. simpl.
      repeat split; [assumption | congruence | discriminate]. }
    eexists. split; [reflexivity |]. simpl.
    rewrite !published_snoc. simpl. rewrite !app_nil_r.
    repeat split; [assumption | congruence | discriminate].
  - rewrite (Herr e eq_refl). simpl. rewrite Ht. simpl.
    eexists. split; [reflexivity |]. simpl.
    rewrite !published_snoc. simpl. rewrite !app_nil_r.
    repeat split; [apply lookup_insert_eq | discriminate].
Qed.

Lemma undefined_rest_row_view :
  respects (same row_view)
    (modify (set_domain None);; modify (set_description None);;
     remove_libvirt_handler drv).
Proof. unfold remove_libvirt_handler. frame. Qed.

Lemma ret_row_view : respects (same row_view) (mret tt).
Proof. frame. Qed.

(** C2, as amended.  On an agent connected to its domain, with the
    [libvirt_run] trigger registered, the presence refresh publishes for
    the status the driver reports the show and the text of the table of
    the specification, with the text "Off" for shut-off: ("", "Running")
    for running and blocked, ("away", "Paused") for paused, ("xa", "Off")
    for shut-off, ("", "Shutdowning...") for shutdown-in-progress and
    ("xa", "Not defined") on the no-domain error; and the state it sets
    the trigger to is that of the table: on for running and blocked, off
    for paused and on the no-domain error. *)
Theorem presence_mapper_table (st : VM) (d : virDomain) (t0 : trigger_state)
    (o : outcome dominfo) (show text : string) (ts : option trigger_state) :
  domain st = Some d →
  triggers st !! "libvirt_run" = Some t0 →
  drv_info drv (trace st) = o →
  refresh_row o = Some (show, text, ts) →
  (∃ st', set_presence_according_to_libvirt_info drv st = (Val tt, st')
          ∧ published (trace st')
            = published (trace st)
              ++ ChangePresence show text
                 :: match o with
                    | Returns _ => [PerformHooks "HOOK_VM_INITIALIZE"]
                    | Throws _ => []
                    end
          ∧ xmppstatusshow st' = show ∧ xmppstatus st' = text
          ∧ (∀ t, ts = Some t → triggers st' !! "libvirt_run" = Some t))
  ∧ ∃ text0 t, presence_table_spec (reported_status o) = Some (show, text0, t)
               ∧ (text0 = text ∨ (text0 = "Shutted off" ∧ text = "Off"))
               ∧ (∀ t', ts = Some t' → t' = t).
Proof.
  intros Hd Ht Ho Hrow.
  unfold set_presence_according_to_libvirt_info, try_except, domain_info_call,
    oracle_call, change_presence, perform_hooks, trigger_set_state, log_info,
    log_error, emit, modify, get, mbind, M_bind.
  simpl. rewrite Hd, Ho. unfold refresh_row in Hrow. destruct o as [i | e].
  - unfold presence_table_spec, reported_status. simpl in Hrow |- *.
    destruct ((di_state i =? libvirt.VIR_DOMAIN_RUNNING)
              || (di_state i =? libvirt.VIR_DOMAIN_BLOCKED)) eqn:C1; simpl.
    { inversion Hrow; subst. rewrite Ht. simpl. split.
      - eexists. split; [reflexivity |]. simpl.
        rewrite !published_snoc. simpl. rewrite !app_nil_r, <- app_assoc. simpl.
        repeat split. intros t [= <-]. apply lookup_insert_eq.
      - eexists _, _. split; [reflexivity |]. split; [now left |]. now intros t' [= <-]. }
    destruct (di_state i =? libvirt.VIR_DOMAIN_PAUSED) eqn:C2; simpl.
    { inversion Hrow; subst. rewrite Ht. simpl. split.
      - eexists. split; [reflexivity |]. simpl.
        rewrite !published_snoc. simpl. rewrite !app_nil_r, <- app_assoc. simpl.
        repeat split. intros t [= <-]. apply lookup_insert_eq.
      - eexists _, _. split; [reflexivity |]. split; [now left |]. now intros t' [= <-]. }
    destruct (di_state i =? libvirt.VIR_DOMAIN_SHUTOFF) eqn:C3; simpl.
    { inversion Hrow; subst. split.
      - eexists. split; [reflexivity |]. simpl.
        rewrite !published_snoc. simpl. rewrite !app_nil_r, <- app_assoc. simpl.
        repeat split. discriminate.
      - eexists _, _. split; [reflexivity |]. split; [now right |]. discriminate. }
    destruct (di_state i =? libvirt.VIR_DOMAIN_SHUTDOWN) eqn:C4; simpl; [| discriminate].
    inversion Hrow; subst. split.
    + eexists. split; [reflexivity |]. simpl.
      rewrite !published_snoc. simpl. rewrite !app_nil_r, <- app_assoc. simpl.
      repeat split. discriminate.
    + eexists _, _. split; [reflexivity |]. split; [now left |]. discriminate.
  - destruct e as [code | | | | | |]; try discriminate.
    destruct (code =? libvirt.VIR_ERR_NO_DOMAIN) eqn:C; [| discriminate].
    apply Z.eqb_eq in C. subst code. inversion Hrow; subst.
    simpl. rewrite Ht. simpl. split.
    + eexists. split; [reflexivity |]. simpl.
      rewrite !published_snoc. simpl. rewrite !app_nil_r.
      repeat split. intros t [= <-]. apply lookup_insert_eq.
    + eexists _, _. split; [reflexivity |]. split; [now left |]. now intros t' [= <-].
Qed.

(** C3.  A resumed event (not by migration) delivered while the agent is not
    migrating publishes the presence "Running" and the change "resumed",
    fires HOOK_VM_RESUME, and sets the [libvirt_run] trigger to off; with a
    driver that reports the domain running, the agent ends with the cached
    status running, not migrating, and the trigger off. *)
Theorem resumed_event_sets_trigger_off (st : VM) (d : virDomain)
    (t0 : trigger_state) (detail : Z) (i : dominfo) :
  is_migrating st = false →
  domain st = Some d →
  triggers st !! "libvirt_run" = Some t0 →
  detail ≠ libvirt.VIR_DOMAIN_EVENT_RESUMED_MIGRATED →
  (∀ tr, drv_info drv tr = Returns i) →
  di_state i = libvirt.VIR_DOMAIN_RUNNING →
  ∃ st', on_domain_event drv libvirt.VIR_DOMAIN_EVENT_RESUMED detail st = (Val tt, st')
         ∧ published (trace st')
           = published (trace st)
             ++ [ChangePresence "" "Running";
                 PushChange "virtualmachine:control" "resumed";
                 PerformHooks "HOOK_VM_RESUME"]
         ∧ libvirt_status st' = libvirt.VIR_DOMAIN_RUNNING
         ∧ is_migrating st' = false
         ∧ triggers st' !! "libvirt_run" = Some ARCHIPEL_TRIGGER_STATE_OFF.
Proof.
  intros Hmig Hd Ht Hdet Hinfo Hrun.
  assert (Hbranch : ∀ s, on_domain_event_try drv libvirt.VIR_DOMAIN_EVENT_RESUMED detail s
            = (change_presence "" ARCHIPEL_XMPP_SHOW_RUNNING;;
               push_change "virtualmachine:control" "resumed";;
               trigger_set_state "libvirt_run" ARCHIPEL_TRIGGER_STATE_OFF;;
               perform_hooks "HOOK_VM_RESUME";; mret tt) s).
  { intros s. unfold on_domain_event_try. apply Z.eqb_neq in Hdet.
    simpl. rewrite Hdet. simpl. apply four_calls_ext. }
  destruct (on_domain_event_branch drv _ detail st _ _ _ _ _ _ t0 (mret tt)
              Hmig Ht Hbranch ret_row_view)
    as (st3 & st' & Hev & Hfin & Hv3 & _ & Hp & Htr & _ & _ & Hm & _).
  exists st'. repeat split; try assumption.
  apply (f_equal (λ v, v.1.1.1.1.1.1.1.1.2)) in Hv3. simpl in Hv3.
  rewrite <- Hrun.
  eapply (on_domain_event_finally_status drv libvirt.VIR_DOMAIN_EVENT_RESUMED
            st3 st' d i); [discriminate | discriminate | congruence | apply Hinfo | exact Hfin].
Qed.

Lemma remove_libvirt_handler_run (s : VM) :
  (∀ id, libvirt_event_callback_id s = Some id →
         libvirt_connection s = true
         ∧ ∀ tr, ∃ z, drv_int drv tr (conn_domainEventDeregisterAny id) = Returns z) →
  ∃ s', remove_libvirt_handler drv s = (Val tt, s')
        ∧ libvirt_event_callback_id s' = None
        ∧ domain s' = domain s ∧ description s' = description s.
Proof.
  intros Hcb.
  unfold remove_libvirt_handler, conn_call, driver_call, oracle_call, log_info,
    emit, modify, get, mbind, M_bind.
  destruct (libvirt_event_callback_id s) as [id |] eqn:Eid.
  - destruct (Hcb id eq_refl) as [Hc Hz].
    cbn. rewrite Hc.
    match goal with
    | |- context [drv_int drv ?tr _] => destruct (Hz tr) as [z Hret]
    end.
    rewrite Hret. eexists. split; [reflexivity |]. now repeat split.
  - eexists. split; [reflexivity |]. now repeat split.
Qed.

Lemma undefined_rest_run (s : VM) :
  (∀ id, libvirt_event_callback_id s = Some id →
         libvirt_connection s = true
         ∧ ∀ tr, ∃ z, drv_int drv tr (conn_domainEventDeregisterAny id) = Returns z) →
  let s' := snd ((modify (set_domain None);; modify (set_description None);;
                  remove_libvirt_handler drv) s) in
  domain s' = None ∧ libvirt_event_callback_id s' = None ∧ description s' = None.
Proof.
  intros Hcb.
  destruct (remove_libvirt_handler_run (set_description None (set_domain None s)))
    as (s1 & Hrun & Hid & Hd & Hdesc); [exact Hcb |].
  unfold modify, mbind, M_bind. cbv zeta. rewrite Hrun. now repeat split.
Qed.

(** C5.  An undefined event delivered while the agent is not migrating
    clears the domain handle and the [description] attribute and
    deregisters the lifecycle callback; the [definition] attribute keeps the
    value it had. *)
Theorem undefined_event_keeps_definition (st : VM) (t0 : trigger_state) (detail : Z) :
  is_migrating st = false →
  triggers st !! "libvirt_run" = Some t0 →
  (∀ id, libvirt_event_callback_id st = Some id →
         libvirt_connection st = true
         ∧ ∀ tr, ∃ z, drv_int drv tr (conn_domainEventDeregisterAny id) = Returns z) →
  ∃ st', on_domain_event drv libvirt.VIR_DOMAIN_EVENT_UNDEFINED detail st = (Val tt, st')
         ∧ domain st' = None
         ∧ libvirt_event_callback_id st' = None
         ∧ description st' = None
         ∧ definition st' = definition st.
Proof.
  intros Hmig Ht Hcb.
  pose proof (on_domain_event_fixed_view drv libvirt.VIR_DOMAIN_EVENT_UNDEFINED
                detail st) as Hfix.
  destruct (on_domain_event_branch drv libvirt.VIR_DOMAIN_EVENT_UNDEFINED detail st
              "xa" ARCHIPEL_XMPP_SHOW_NOT_DEFINED "virtualmachine:definition"
              "undefined" "HOOK_VM_UNDEFINE" ARCHIPEL_TRIGGER_STATE_OFF t0
              (modify (set_domain None);; modify (set_description None);;
               remove_libvirt_handler drv)
              Hmig Ht (λ s, eq_refl) undefined_rest_row_view)
    as (st3 & st' & Hev & _ & Hv3 & Hv & _).
  exists st'. rewrite Hev in Hfix. unfold same, fixed_view in Hfix. simpl in Hfix.
  split; [exact Hev |].
  rewrite Hv3 in Hv. clear Hv3.
  set (sta := hooked "HOOK_VM_UNDEFINE"
                (announced "xa" ARCHIPEL_XMPP_SHOW_NOT_DEFINED
                   "virtualmachine:definition" "undefined"
                   ARCHIPEL_TRIGGER_STATE_OFF (entered st))) in *.
  destruct (undefined_rest_run sta) as (H1 & H2 & H3).
  { intros id Hid. apply Hcb. exact Hid. }
  unfold bus_view in Hv.
  injection Hv as _ _ _ _ Hd _ Hdesc _ Hid _ _ _ _.
  injection Hfix as _ _ _ _ _ Hdef.
  repeat split; congruence.
Qed.

End PresenceAndEvents.

(** ** The request handlers *)

Section Handlers.

Variable drv : Driver.

(** C4.  A lifecycle event delivered while [is_migrating] is true is logged
    and dropped: the callback returns normally, the only difference between
    the state before and after is two log lines at the end of the trace, so
    no presence is published, no change notification is pushed, no hook is
    fired, and every attribute keeps its value. *)
Theorem on_domain_event_while_migrating (st : VM) (event detail : Z) :
  is_migrating st = true →
  on_domain_event drv event detail st =
    (Val tt,
     set_trace (trace st ++
                [Log "info" "libvirt event received: %d with detail %s";
                 Log "info" "event received but virtual machine is migrating. ignoring"])
               st)
  ∧ published (trace (snd (on_domain_event drv event detail st))) = published (trace st)
  ∧ xmppstatusshow (snd (on_domain_event drv event detail st)) = xmppstatusshow st
  ∧ xmppstatus (snd (on_domain_event drv event detail st)) = xmppstatus st.
Proof.
  intros Hmig.
  assert (Heq : on_domain_event drv event detail st =
    (Val tt,
     set_trace (trace st ++
                [Log "info" "libvirt event received: %d with detail %s";
                 Log "info" "event received but virtual machine is migrating. ignoring"])
               st)).
  { unfold on_domain_event, log_info.
    erewrite bind_val by apply emit_eq.
    erewrite bind_val by reflexivity.
    simpl. rewrite Hmig. rewrite emit_eq. simpl.
    unfold set_trace. simpl. now rewrite <- app_assoc. }
  rewrite Heq. simpl. repeat split; try reflexivity.
  rewrite published_app. simpl. apply app_nil_r.
Qed.

(** C1, as amended.  A create, shutdown, destroy, reboot, suspend or resume
    request handled while the lock is held is answered with the error code
    VM_LOCKED = -1012; the agent logs one error line and does nothing else,
    so no driver call is made. *)
Theorem lifecycle_request_rejected_when_locked (st : VM) (iq : Iq)
    (handler : Iq → M reply) :
  locked st = true →
  In handler [iq_create drv; iq_shutdown drv; iq_destroy drv;
              iq_reboot drv; iq_suspend drv; iq_resume drv] →
  handler iq st =
    (Val (Error (Exception [locked_message]) (-1012) None),
     set_trace (trace st ++ [Log "error" locked_message]) st)
  ∧ ARCHIPEL_ERROR_CODE_VM_LOCKED = -1012
  ∧ driver_calls (trace (snd (handler iq st))) = driver_calls (trace st).
Proof.
  intros Hl Hin.
  assert (Heq : handler iq st =
    (Val (Error (Exception [locked_message]) (-1012) None),
     set_trace (trace st ++ [Log "error" locked_message]) st)).
  { simpl in Hin.
    destruct Hin as [<- | [<- | [<- | [<- | [<- | [<- | []]]]]]];
      [unfold iq_create | unfold iq_shutdown | unfold iq_destroy
       | unfold iq_reboot | unfold iq_suspend | unfold iq_resume];
      (erewrite bind_val by reflexivity); rewrite Hl;
      unfold log_error; (erewrite bind_val by apply emit_eq); reflexivity. }
  rewrite Heq. repeat split. simpl.
  rewrite driver_calls_app. simpl. apply app_nil_r.
Qed.

(** C7.  A define request whose domain XML carries a uuid other than the
    agent's is answered with the IncorrectUUID error under code
    VM_DEFINE = -1007, and the agent's state after the request is the state
    before it: nothing was added to the trace, so no driver call was made,
    and the stored definition is the one it had. *)
Theorem iq_define_incorrect_uuid (st : VM) (iq : Iq) (domain_node u : Node) :
  iq_domain iq = Some domain_node →
  getTag "uuid" domain_node = Some u →
  getData u ≠ getNode (jid st) →
  iq_define drv iq st =
    (Val (Error (Exception ["IncorrectUUID";
                            "given UUID " +:+ getData u
                            +:+ " doesn't match JID " +:+ getNode (jid st)])
                (-1007) None),
     st)
  ∧ ARCHIPEL_ERROR_CODE_VM_DEFINE = -1007
  ∧ driver_calls (trace (snd (iq_define drv iq st))) = driver_calls (trace st)
  ∧ definition (snd (iq_define drv iq st)) = definition st.
Proof.
  intros Hdom Huuid Hne.
  assert (Heq : iq_define drv iq st =
    (Val (Error (Exception ["IncorrectUUID";
                            "given UUID " +:+ getData u
                            +:+ " doesn't match JID " +:+ getNode (jid st)])
                (-1007) None), st)).
  { unfold iq_define, try_except.
    erewrite bind_val by reflexivity.
    rewrite Hdom, Huuid.
    destruct (String.eqb_spec (getData u) (getNode (jid st))) as [Heq | _];
      [contradiction | reflexivity]. }
  rewrite Heq. repeat split; reflexivity.
Qed.

Lemma lock_run (st : VM) :
  lock st = (Val tt,
             set_trace (trace st ++ [Log "info" "acquiring lock";
                                     TimerStart lock_timer_unlock])
               (set_lock_timer (Some timer_pending) (set_locked true st))).
Proof.
  unfold lock, log_info, emit, modify, mbind, M_bind. cbn.
  unfold set_trace, set_lock_timer, set_locked. cbn. now rewrite <- app_assoc.
Qed.

(** C8.  A setvcpus request for more virtual CPUs than the driver's
    [maxVcpus] is answered with an error after the lock was acquired, and
    the lock is still held, its safety timer pending, when the reply is
    returned. *)
Theorem setvcpus_rejection_keeps_lock (st : VM) (d : virDomain) (iq : Iq)
    (value maxVcpus : Z) :
  domain st = Some d →
  iq_value iq = number value →
  (∀ tr, drv_int drv tr domain_maxVcpus = Returns maxVcpus) →
  maxVcpus < value →
  ∃ st', iq_setvcpus drv iq st =
           (Val (Error (Exception ["Maximum vCPU is " +:+ pretty maxVcpus])
                       ARCHIPEL_ERROR_CODE_VM_MEMORY None), st')
         ∧ locked st' = true
         ∧ lock_timer st' = Some timer_pending.
Proof.
  intros Hd Hv Hmax Hlt.
  assert (Hset : ∃ st1, setVCPUs drv value st
                        = (Raise (Exception ["Maximum vCPU is " +:+ pretty maxVcpus]), st1)
                        ∧ locked st1 = true ∧ lock_timer st1 = Some timer_pending).
  { unfold setVCPUs. erewrite bind_val by apply lock_run.
    unfold domain_call, driver_call, oracle_call, get, raise, mbind, M_bind.
    cbn. rewrite Hd, !Hmax. apply Z.ltb_lt in Hlt. rewrite Hlt.
    cbn. rewrite Hd, !Hmax. eexists. split; [reflexivity |]. split; reflexivity. }
  destruct Hset as (st1 & Hset & Hl & Ht).
  exists st1. split; [| split; assumption].
  unfold iq_setvcpus, try_except, value_of. rewrite Hv.
  erewrite bind_val by reflexivity.
  erewrite bind_raise by exact Hset. reflexivity.
Qed.

(** C9.  An undefine request on which [domain.undefine()] raises something
    other than a libvirt error is answered with the error code
    VM_DESTROY = -1004, which is not VM_UNDEFINE = -1008. *)
Theorem iq_undefine_non_driver_error_code (st : VM) (d : virDomain) (iq : Iq)
    (ex : exn) :
  domain st = Some d →
  drv_int drv (trace st) domain_undefine = Throws ex →
  (∀ code, ex ≠ libvirtError code) →
  fst (iq_undefine drv iq st) = Val (Error ex (-1004) None)
  ∧ ARCHIPEL_ERROR_CODE_VM_UNDEFINE = -1008.
Proof.
  intros Hd Hthrow Hex. split; [| reflexivity].
  unfold iq_undefine, try_except, undefine, domain_call, driver_call,
    oracle_call, get, mbind, M_bind.
  cbn. rewrite Hd. cbn. rewrite Hd, Hthrow.
  destruct ex; try reflexivity. now destruct (Hex code).
Qed.

End Handlers.

(** ** Define: the rewritten domain XML *)

Lemma getName_setData (d : string) (c : Node) : getName (setData d c) = getName c.
Proof. now destruct c. Qed.

Lemma getData_setData (d : string) (c : Node) : getData (setData d c) = d.
Proof. now destruct c. Qed.

Lemma find_snoc (t : string) (k : list Node) (c : Node) :
  List.find (has_name t) (k ++ [c])
  = match List.find (has_name t) k with
    | Some x => Some x
    | None => if has_name t c then Some c else None
    end.
Proof.
  induction k as [| x k IH]; simpl; [now destruct (has_name t c) |].
  now destruct (has_name t x).
Qed.

Lemma find_update_first (t d : string) (k : list Node) :
  List.find (has_name t) (update_first t (setData d) k)
  = setData d <$> List.find (has_name t) k.
Proof.
  induction k as [| x k IH]; simpl; [reflexivity |].
  destruct (has_name t x) eqn:E; simpl.
  - unfold has_name in *. now rewrite getName_setData, E.
  - now rewrite E.
Qed.

Lemma find_update_first_other (t t' d : string) (k : list Node) :
  t ≠ t' →
  getData <$> List.find (has_name t') (update_first t (setData d) k)
  = getData <$> List.find (has_name t') k.
Proof.
  intros Hne. induction k as [| x k IH]; simpl; [reflexivity |].
  destruct (has_name t x) eqn:E; simpl.
  - unfold has_name in *. rewrite getName_setData.
    apply String.eqb_eq in E.
    destruct (String.eqb_spec (getName x) t') as [E' | _]; [congruence | reflexivity].
  - destruct (has_name t' x); [reflexivity | exact IH].
Qed.

Lemma has_name_other (t t' : string) (c : Node) :
  t ≠ t' → has_name t c = true → has_name t' c = false.
Proof.
  unfold has_name. intros Hne H. apply String.eqb_eq in H.
  apply String.eqb_neq. congruence.
Qed.

Lemma filter_remove_first (p : Node → bool) (t : string) (k : list Node) :
  (∀ c, has_name t c = true → p c = false) →
  List.filter p (remove_first t k) = List.filter p k.
Proof.
  intros Hp. induction k as [| c k IH]; simpl; [reflexivity |].
  destruct (has_name t c) eqn:E.
  - now rewrite (Hp c E).
  - simpl. now rewrite IH.
Qed.

Lemma filter_update_first (p : Node → bool) (t d : string) (k : list Node) :
  (∀ c, has_name t c = true → p c = false) →
  List.filter p (update_first t (setData d) k) = List.filter p k.
Proof.
  intros Hp. induction k as [| c k IH]; simpl; [reflexivity |].
  destruct (has_name t c) eqn:E; simpl.
  - rewrite (Hp c E). rewrite (Hp (setData d c)); [reflexivity |].
    unfold has_name in *. now rewrite getName_setData.
  - now rewrite IH.
Qed.

Lemma count_remove_first (t : string) (k : list Node) :
  length (List.filter (has_name t) (remove_first t k))
  = Nat.pred (length (List.filter (has_name t) k)).
Proof.
  induction k as [| c k IH]; simpl; [reflexivity |].
  destruct (has_name t c) eqn:E; simpl; [reflexivity |].
  now rewrite E.
Qed.

Lemma count_update_first (t d : string) (k : list Node) :
  length (List.filter (has_name t) (update_first t (setData d) k))
  = length (List.filter (has_name t) k).
Proof.
  induction k as [| c k IH]; simpl; [reflexivity |].
  destruct (has_name t c) eqn:E; simpl.
  - unfold has_name in *. rewrite getName_setData, E. reflexivity.
  - now rewrite E.
Qed.

Lemma find_none_count (t : string) (k : list Node) :
  List.find (has_name t) k = None ↔ length (List.filter (has_name t) k) = 0%nat.
Proof.
  induction k as [| c k IH]; simpl; [tauto |].
  destruct (has_name t c); simpl; [split; discriminate | exact IH].
Qed.

Lemma find_remove_first_other (t t' : string) (k : list Node) :
  t ≠ t' →
  List.find (has_name t') (remove_first t k) = List.find (has_name t') k.
Proof.
  intros Hne. induction k as [| c k IH]; simpl; [reflexivity |].
  destruct (has_name t c) eqn:E.
  - now rewrite (has_name_other t t' c Hne E).
  - simpl. now rewrite IH.
Qed.

Lemma but_hides (ts : list string) (t : string) (c : Node) :
  In t ts → has_name t c = true →
  negb (existsb (λ t0, has_name t0 c) ts) = false.
Proof.
  intros Hin H. apply negb_false_iff, existsb_exists. now exists t.
Qed.

Lemma set_automatic_libvirt_description_children (st : VM) (xmldesc : Node) :
  ∃ xml, set_automatic_libvirt_description xmldesc st
         = (Val xml, set_trace (trace st ++ [Log "debug" "generated XML desc is : %s"]) st)
         ∧ getChildren xml
           = rewritten_children (getStripped (jid st) +:+ "::::" +:+ password st)
               (name st) (getChildren xmldesc).
Proof.
  unfold set_automatic_libvirt_description.
  erewrite bind_val by reflexivity.
  unfold log_debug. erewrite bind_val by apply emit_eq.
  eexists. split; [reflexivity |].
  destruct xmldesc as [t0 a c k]. unfold rewritten_children, getTag. simpl.
  destruct (List.find (has_name "description") k); simpl;
    match goal with
    | |- context [List.find (has_name "name") ?l] =>
        destruct (List.find (has_name "name") l)
    end; reflexivity.
Qed.

Lemma rewritten_children_others (p : Node → bool) (creds display : string)
    (k : list Node) :
  (∀ c, has_name "description" c = true → p c = false) →
  (∀ c, has_name "name" c = true → p c = false) →
  List.filter p (rewritten_children creds display k) = List.filter p k.
Proof.
  intros Hd Hn. unfold rewritten_children. cbv zeta.
  rewrite filter_update_first by exact Hn.
  assert (Hnew : ∀ (l : list Node) (t : string),
            p (mkNode t [] "" []) = false →
            List.filter p (l ++ [mkNode t [] "" []]) = List.filter p l).
  { intros l t Ht. rewrite List.filter_app. simpl. rewrite Ht. apply app_nil_r. }
  match goal with
  | |- context [match List.find (has_name "name") ?l with _ => _ end] =>
      destruct (List.find (has_name "name") l)
  end.
  2: rewrite Hnew by (apply Hn; reflexivity).
  all: rewrite filter_update_first by exact Hd;
    rewrite Hnew by (apply Hd; reflexivity);
    destruct (List.find (has_name "description") k); [| reflexivity];
    now apply filter_remove_first.
Qed.

Lemma rewritten_children_counts (creds display : string) (k : list Node) :
  length (List.filter (has_name "description") (rewritten_children creds display k))
  = Nat.max 1 (length (List.filter (has_name "description") k))
  ∧ length (List.filter (has_name "name") (rewritten_children creds display k))
    = Nat.max 1 (length (List.filter (has_name "name") k))
  ∧ List.filter (λ c, negb (existsb (λ t, has_name t c) ["description"; "name"]))
      (rewritten_children creds display k)
    = List.filter (λ c, negb (existsb (λ t, has_name t c) ["description"; "name"])) k.
Proof.
  unfold rewritten_children.
  set (k0 := match List.find (has_name "description") k with
             | None => k
             | Some _ => remove_first "description" k
             end).
  set (k1 := k0 ++ [mkNode "description" [] "" []]).
  set (k2 := update_first "description" (setData creds) k1).
  set (k3 := match List.find (has_name "name") k2 with
             | None => k2 ++ [mkNode "name" [] "" []]
             | Some _ => k2
             end).
  cbv zeta.
  assert (Hdn : ∀ c, has_name "description" c = true → has_name "name" c = false)
    by (intros c; apply has_name_other; discriminate).
  assert (Hnd : ∀ c, has_name "name" c = true → has_name "description" c = false)
    by (intros c; apply has_name_other; discriminate).
  assert (Hd0 : S (length (List.filter (has_name "description") k0))
                = Nat.max 1 (length (List.filter (has_name "description") k))).
  { unfold k0. destruct (List.find (has_name "description") k) eqn:E.
    - rewrite count_remove_first.
      assert (length (List.filter (has_name "description") k) ≠ 0%nat).
      { intros H0. apply find_none_count in H0. congruence. }
      lia.
    - apply find_none_count in E. rewrite E. reflexivity. }
  assert (Hn0 : List.filter (has_name "name") k0 = List.filter (has_name "name") k).
  { unfold k0. destruct (List.find (has_name "description") k); [| reflexivity].
    now apply filter_remove_first. }
  assert (Hn2 : List.filter (has_name "name") k2 = List.filter (has_name "name") k).
  { unfold k2. rewrite filter_update_first by exact Hdn.
    unfold k1. rewrite List.filter_app. simpl. now rewrite app_nil_r. }
  assert (Hd2 : length (List.filter (has_name "description") k2)
                = Nat.max 1 (length (List.filter (has_name "description") k))).
  { unfold k2. rewrite count_update_first. unfold k1.
    rewrite List.filter_app, length_app. simpl. lia. }
  split; [| split].
  - rewrite filter_update_first by exact Hnd.
    unfold k3. destruct (List.find (has_name "name") k2); [exact Hd2 |].
    rewrite List.filter_app. simpl. now rewrite app_nil_r.
  - rewrite count_update_first. unfold k3.
    destruct (List.find (has_name "name") k2) eqn:E.
    + rewrite Hn2.
      assert (length (List.filter (has_name "name") k2) ≠ 0%nat).
      { intros H0. apply find_none_count in H0. congruence. }
      rewrite Hn2 in H. lia.
    + apply find_none_count in E. rewrite Hn2 in E.
      rewrite List.filter_app, length_app, Hn2, E. reflexivity.
  - apply rewritten_children_others; intros c Hc;
      [apply (but_hides _ "description") | apply (but_hides _ "name")];
      simpl; auto.
Qed.

Lemma remove_first_split (t : string) (pre post : list Node) (x : Node) :
  Forall (λ c, has_name t c = false) pre →
  has_name t x = true →
  remove_first t (pre ++ x :: post) = pre ++ post.
Proof.
  intros Hpre Hx.
  induction Hpre as [| c pre Hc _ IH]; simpl; [now rewrite Hx | now rewrite Hc, IH].
Qed.

Lemma find_none_forall (t : string) (k : list Node) :
  Forall (λ c, has_name t c = false) k → List.find (has_name t) k = None.
Proof.
  induction 1 as [| c k Hc _ IH]; simpl; [reflexivity | now rewrite Hc].
Qed.

Lemma find_app_none (t : string) (k k' : list Node) :
  List.find (has_name t) k = None →
  List.find (has_name t) (k ++ k') = List.find (has_name t) k'.
Proof.
  induction k as [| c k IH]; simpl; [reflexivity |].
  destruct (has_name t c); [discriminate | exact IH].
Qed.

Lemma find_update_first_neq (t t' d : string) (k : list Node) :
  t ≠ t' →
  List.find (has_name t') (update_first t (setData d) k) = List.find (has_name t') k.
Proof.
  intros Hne. induction k as [| x k IH]; simpl; [reflexivity |].
  destruct (has_name t x) eqn:E; simpl.
  - pose proof (has_name_other t t' x Hne E) as E'.
    assert (E'' : has_name t' (setData d x) = false)
      by (unfold has_name in *; now rewrite getName_setData).
    now rewrite E', E''.
  - destruct (has_name t' x); [reflexivity | exact IH].
Qed.

(** For a request with at most one description, the description that
    carries the credentials is the fresh element. *)
Lemma rewritten_description_fresh (creds display : string) (k : list Node) :
  (length (List.filter (has_name "description") k) ≤ 1)%nat →
  List.find (has_name "description") (rewritten_children creds display k)
  = Some (mkNode "description" [] creds []).
Proof.
  intros Hle. unfold rewritten_children. cbv zeta.
  rewrite find_update_first_neq by discriminate.
  set (k0 := match List.find (has_name "description") k with
             | None => k
             | Some _ => remove_first "description" k
             end).
  assert (H0 : List.find (has_name "description") k0 = None).
  { unfold k0. destruct (List.find (has_name "description") k) eqn:E; [| exact E].
    apply find_none_count. rewrite count_remove_first. lia. }
  set (k2 := update_first "description" (setData creds)
               (k0 ++ [mkNode "description" [] "" []])).
  assert (H2 : List.find (has_name "description") k2
               = Some (mkNode "description" [] creds [])).
  { unfold k2. now rewrite find_update_first, find_snoc, H0. }
  destruct (List.find (has_name "name") k2); [exact H2 |].
  now rewrite find_snoc, H2.
Qed.

(** The name element that carries the display name is the request's first
    name element, or a fresh one; it holds nothing else when the
    request's had no attributes and no children. *)
Lemma rewritten_name_plain (creds display : string) (k : list Node) :
  (∀ n, List.find (has_name "name") k = Some n → ∃ d, n = mkNode "name" [] d []) →
  List.find (has_name "name") (rewritten_children creds display k)
  = Some (mkNode "name" [] display []).
Proof.
  intros Hplain. unfold rewritten_children. cbv zeta.
  rewrite find_update_first.
  set (k0 := match List.find (has_name "description") k with
             | None => k
             | Some _ => remove_first "description" k
             end).
  set (k2 := update_first "description" (setData creds)
               (k0 ++ [mkNode "description" [] "" []])).
  assert (Hn2 : List.find (has_name "name") k2 = List.find (has_name "name") k).
  { unfold k2. rewrite find_update_first_neq by discriminate.
    rewrite find_snoc. unfold k0.
    destruct (List.find (has_name "description") k);
      [rewrite find_remove_first_other by discriminate |];
      now destruct (List.find (has_name "name") k). }
  destruct (List.find (has_name "name") k2) as [n |] eqn:E.
  - rewrite E. symmetry in Hn2. destruct (Hplain n Hn2) as [d ->]. reflexivity.
  - now rewrite find_snoc, E.
Qed.

Section Define.

Variable drv : Driver.

(** The node [set_automatic_libvirt_description] returns carries the
    credentials and the display name, whatever it was given. *)
Lemma set_automatic_libvirt_description_run (st : VM) (xmldesc : Node) :
  ∃ xml, set_automatic_libvirt_description xmldesc st
         = (Val xml, set_trace (trace st ++ [Log "debug" "generated XML desc is : %s"]) st)
         ∧ carries_credentials st xml.
Proof.
  unfold set_automatic_libvirt_description.
  erewrite bind_val by reflexivity.
  unfold log_debug. erewrite bind_val by apply emit_eq.
  eexists. split; [reflexivity |].
  destruct xmldesc as [t0 a c k]. unfold carries_credentials.
  set (creds := getStripped (jid st) +:+ "::::" +:+ password st).
  set (k1 := match List.find (has_name "description") k with
             | None => k ++ [mkNode "description" [] "" []]
             | Some _ => remove_first "description" k ++ [mkNode "description" [] "" []]
             end).
  assert (Hx1 : match getTag "description" (mkNode t0 a c k) with
                | None => addChild "description" (mkNode t0 a c k)
                | Some _ => addChild "description" (delChild "description" (mkNode t0 a c k))
                end = mkNode t0 a c k1).
  { unfold getTag, k1. simpl. now destruct (List.find (has_name "description") k). }
  rewrite Hx1. clear Hx1.
  assert (Hd1 : ∃ dn, List.find (has_name "description") k1 = Some dn).
  { unfold k1. destruct (List.find (has_name "description") k);
      rewrite find_snoc; simpl;
      match goal with |- context [List.find ?f ?l] => destruct (List.find f l) end;
      eauto. }
  destruct Hd1 as [dn Hd1].
  set (k2 := update_first "description" (setData creds) k1).
  assert (Hd2 : getData <$> List.find (has_name "description") k2 = Some creds).
  { unfold k2. rewrite find_update_first, Hd1. simpl. now rewrite getData_setData. }
  change (setTagData "description" creds (mkNode t0 a c k1)) with (mkNode t0 a c k2).
  set (k3 := match List.find (has_name "name") k2 with
             | None => k2 ++ [mkNode "name" [] "" []]
             | Some _ => k2
             end).
  assert (Hx3 : match getTag "name" (mkNode t0 a c k2) with
                | None => addChild "name" (mkNode t0 a c k2)
                | Some _ => mkNode t0 a c k2
                end = mkNode t0 a c k3).
  { unfold getTag, k3. simpl. now destruct (List.find (has_name "name") k2). }
  rewrite Hx3. clear Hx3.
  assert (Hd3 : getData <$> List.find (has_name "description") k3 = Some creds).
  { unfold k3. destruct (List.find (has_name "name") k2); [exact Hd2 |].
    rewrite find_snoc.
    destruct (List.find (has_name "description") k2); [exact Hd2 | discriminate]. }
  assert (Hn3 : ∃ nn, List.find (has_name "name") k3 = Some nn).
  { unfold k3. destruct (List.find (has_name "name") k2) eqn:E; [eauto |].
    rewrite find_snoc, E. simpl. eauto. }
  destruct Hn3 as [nn Hn3].
  unfold getTag. simpl. split.
  - rewrite find_update_first_other by discriminate. exact Hd3.
  - rewrite find_update_first, Hn3. simpl. now rewrite getData_setData.
Qed.

Lemma driver_call_state (c : call) (s s' : VM) (r : res Z) :
  driver_call drv c s = (r, s') →
  s' = set_trace (trace s ++ [DriverCall c]) s.
Proof.
  unfold driver_call, oracle_call.
  destruct (drv_int drv (trace s) c); intros H; now inversion H.
Qed.

Lemma connect_domain_extends : respects extends (connect_domain drv).
Proof.
  unfold connect_domain, set_presence_according_to_libvirt_info. frame.
Qed.

(** [define] hands the rewritten node to [defineXML] before anything else
    reaches the driver, and when it returns, that node is the stored
    definition. *)
Lemma define_run_node (st st' : VM) (xmldesc xml : Node) (r : res Node) :
  libvirt_connection st = true →
  set_automatic_libvirt_description xmldesc st
  = (Val xml, set_trace (trace st ++ [Log "debug" "generated XML desc is : %s"]) st) →
  define drv xmldesc st = (r, st') →
  ∃ tr,
    trace st' = trace st ++ [Log "debug" "generated XML desc is : %s";
                             DriverCall (conn_defineXML xml)] ++ tr
    ∧ (∀ x, r = Val x → x = xml ∧ definition st' = Some xml).
Proof.
  intros Hconn Hset Hrun.
  unfold define in Hrun.
  erewrite bind_val in Hrun by reflexivity. rewrite Hconn in Hrun.
  erewrite bind_val in Hrun by exact Hset.
  set (s0 := set_trace (trace st ++ [Log "debug" "generated XML desc is : %s"]) st) in *.
  set (s1 := set_trace (trace s0 ++ [DriverCall (conn_defineXML xml)]) s0).
  assert (Htr1 : trace s1 = trace st ++ [Log "debug" "generated XML desc is : %s";
                                         DriverCall (conn_defineXML xml)]).
  { unfold s1, s0. simpl. now rewrite <- app_assoc. }
  destruct (driver_call drv (conn_defineXML xml) s0) as [r1 s1'] eqn:Hcall.
  assert (s1' = s1) by exact (driver_call_state _ _ _ _ Hcall).
  destruct r1 as [z | e].
  2:{ erewrite bind_raise in Hrun by exact Hcall. inversion Hrun; subst.
      exists []. split; [| discriminate].
      now rewrite Htr1, app_nil_r. }
  subst s1'. erewrite bind_val in Hrun by exact Hcall.
  erewrite bind_val in Hrun by reflexivity.
  set (connect := match domain s1 with
                  | None => connect_domain drv
                  | Some _ => mret tt
                  end) in Hrun.
  assert (Hconnect : extends s1 (snd (connect s1))).
  { unfold connect. destruct (domain s1);
      [apply (respects_ret extends) | apply connect_domain_extends]. }
  destruct (connect s1) as [[[] | e] s2] eqn:Hc; simpl in Hconnect.
  2:{ erewrite bind_raise in Hrun by exact Hc. inversion Hrun; subst.
      destruct Hconnect as [tr Htr]. exists tr.
      split; [| discriminate].
      now rewrite Htr, Htr1, <- app_assoc. }
  erewrite bind_val in Hrun by exact Hc.
  erewrite bind_val in Hrun by reflexivity.
  set (s3 := set_definition (Some xml) s2) in Hrun.
  set (event := if negb (is_hypervisor drv [QEMU; XEN])
                then on_domain_event drv libvirt.VIR_DOMAIN_EVENT_DEFINED 0
                else mret tt) in Hrun.
  assert (Hev1 : extends s3 (snd (event s3))).
  { unfold event. destruct (negb (is_hypervisor drv [QEMU; XEN]));
      [apply on_domain_event_extends | apply (respects_ret extends)]. }
  assert (Hev2 : same fixed_view s3 (snd (event s3))).
  { unfold event. destruct (negb (is_hypervisor drv [QEMU; XEN]));
      [apply on_domain_event_fixed_view | apply (respects_ret (same fixed_view))]. }
  destruct (event s3) as [[[] | e] s4] eqn:He; simpl in Hev1, Hev2.
  2:{ erewrite bind_raise in Hrun by exact He. inversion Hrun; subst.
      destruct Hconnect as [tr Htr]. destruct Hev1 as [tr' Htr'].
      exists (tr ++ tr'). split; [| discriminate].
      rewrite Htr'. unfold s3. simpl. rewrite Htr, Htr1.
      now rewrite <- !app_assoc. }
  erewrite bind_val in Hrun by exact He.
  inversion Hrun; subst.
  destruct Hconnect as [tr Htr]. destruct Hev1 as [tr' Htr'].
  exists (tr ++ tr'). split.
  - rewrite Htr'. unfold s3. simpl. rewrite Htr, Htr1. now rewrite <- !app_assoc.
  - intros x Hx. inversion Hx; subst. split; [reflexivity |].
    unfold same, fixed_view in Hev2. injection Hev2 as _ _ _ _ _ Hdef.
    rewrite Hdef. reflexivity.
Qed.


(** C6, as amended.  When a define request succeeds, the first thing that
    reached the driver is [defineXML] with a node whose description element
    has the text "<jid>::::<password>" (the bare address, four colons, the
    password) and whose name element has the agent's display name as text,
    whatever text the request carried there; that node is the definition
    the agent stores.  The description element is a fresh one, holding the
    text alone, when the request had at most one description; the name
    element holds the display name alone when the request had no name, or
    a name without attributes and child elements. *)
Theorem iq_define_hands_over_credentials (st st' : VM) (iq : Iq) (p : payload) :
  iq_define drv iq st = (Val (Result p), st') →
  ∃ request xml tr,
    iq_domain iq = Some request
    ∧ trace st' = trace st ++ [Log "debug" "generated XML desc is : %s";
                               DriverCall (conn_defineXML xml)] ++ tr
    ∧ getData <$> getTag "description" xml
      = Some (getStripped (jid st) +:+ "::::" +:+ password st)
    ∧ getData <$> getTag "name" xml = Some (name st)
    ∧ ((count_tag "description" request ≤ 1)%nat →
       getTag "description" xml
       = Some (mkNode "description" []
                 (getStripped (jid st) +:+ "::::" +:+ password st) []))
    ∧ ((∀ n, getTag "name" request = Some n → ∃ d, n = mkNode "name" [] d []) →
       getTag "name" xml = Some (mkNode "name" [] (name st) []))
    ∧ definition st' = Some xml.
Proof.
  intros Hrun.
  unfold iq_define, try_except in Hrun.
  erewrite bind_val in Hrun by reflexivity.
  destruct (iq_domain iq) as [domain_node |] eqn:Hdom; [| discriminate].
  destruct (getTag "uuid" domain_node) as [u |]; [| discriminate].
  destruct (negb (String.eqb (getData u) (getNode (jid st)))); [discriminate |].
  destruct (define drv domain_node st) as [[x | e] s1] eqn:Hdef.
  2:{ erewrite bind_raise in Hrun by exact Hdef. now destruct e. }
  erewrite bind_val in Hrun by exact Hdef.
  unfold log_info in Hrun. erewrite bind_val in Hrun by apply emit_eq.
  inversion Hrun; subst. clear Hrun.
  assert (Hconn : libvirt_connection st = true).
  { unfold define in Hdef. erewrite bind_val in Hdef by reflexivity.
    destruct (libvirt_connection st); [reflexivity | discriminate]. }
  destruct (set_automatic_libvirt_description_run st domain_node)
    as (xml & Hset & Hc1 & Hc2).
  destruct (set_automatic_libvirt_description_children st domain_node)
    as (xml' & Hset' & Hk).
  rewrite Hset in Hset'. inversion Hset'; subst xml'. clear Hset'.
  destruct (define_run_node st s1 domain_node xml (Val x) Hconn Hset Hdef)
    as (tr & Htr & Hval).
  destruct (Hval x eq_refl) as [-> Hd].
  exists domain_node, xml, (tr ++ [Log "info" "virtual machine XML is defined"]).
  split; [reflexivity |].
  split; [simpl; rewrite Htr; now rewrite <- !app_assoc |].
  split; [exact Hc1 |]. split; [exact Hc2 |].
  split; [| split; [| exact Hd]].
  - intros Hle. unfold getTag. rewrite Hk.
    now apply rewritten_description_fresh.
  - intros Hplain. unfold getTag. rewrite Hk.
    now apply rewritten_name_plain.
Qed.

End Define.

(** ** The memory poll *)

Section MemoryPoll.

Variable drv : Driver.

Lemma memoryTimer_run (st : VM) (d : virDomain) (i : dominfo)
    (requestedMemory retry : Z) :
  domain st = Some d →
  drv_info drv (trace st) = Returns i →
  ∃ st1, domain st1 = Some d
         ∧ published (trace st1) = published (trace st)
         ∧ memoryTimer drv requestedMemory retry st
           = if di_memory i =? 0 then (Raise ZeroDivisionError, st1)
             else (Val tt,
                   set_trace (trace st1 ++
                              [memoryTimer_outcome requestedMemory retry (di_memory i)])
                             st1).
Proof.
  intros Hd Hi.
  destruct (info_run drv st d i Hd Hi) as (st1 & Hinfo & _ & Hv).
  exists st1.
  unfold bus_view in Hv. injection Hv as _ _ _ _ Hd1 _ _ _ _ _ _ _ Hp.
  split; [congruence |]. split; [exact Hp |].
  unfold memoryTimer. erewrite bind_val by exact Hinfo.
  destruct (di_memory i =? 0); [reflexivity |].
  erewrite bind_val by reflexivity.
  unfold memoryTimer_outcome, push_change.
  destruct ((requestedMemory / di_memory i =? 0) || (requestedMemory / di_memory i =? 1));
    [reflexivity |].
  destruct (0 <? retry); reflexivity.
Qed.

Lemma fire_memory_timers_run (k : nat) :
  (∀ tr, ∃ i, drv_info drv tr = Returns i ∧ di_memory i ≠ 0) →
  ∀ (fuel : nat) (st : VM) (d : virDomain) (requestedMemory : Z),
    domain st = Some d →
    (k < fuel)%nat →
    ∃ n st', fire_memory_timers drv fuel requestedMemory (Z.of_nat k) st = (Val n, st')
             ∧ (1 ≤ n ≤ S k)%nat
             ∧ last (trace st') = Some (PushChange "virtualmachine:control" "memory").
Proof.
  intros Hinfo. induction k as [| k IH]; intros fuel st d req Hd Hfuel.
  - destruct fuel as [| fuel]; [lia |].
    destruct (Hinfo (trace st)) as (i & Hi & Hm).
    destruct (memoryTimer_run st d i req 0 Hd Hi) as (st1 & Hd1 & _ & Hrun).
    apply Z.eqb_neq in Hm. rewrite Hm in Hrun.
    simpl. erewrite bind_val by exact Hrun.
    erewrite bind_val by reflexivity.
    simpl. rewrite last_snoc.
    assert (He : memoryTimer_outcome req 0 (di_memory i)
                 = PushChange "virtualmachine:control" "memory").
    { unfold memoryTimer_outcome.
      now destruct ((req / di_memory i =? 0) || (req / di_memory i =? 1)). }
    rewrite He. eexists _, _. split; [reflexivity |].
    simpl. rewrite last_snoc. split; [lia | reflexivity].
  - destruct fuel as [| fuel]; [lia |].
    destruct (Hinfo (trace st)) as (i & Hi & Hm).
    destruct (memoryTimer_run st d i req (Z.of_nat (S k)) Hd Hi)
      as (st1 & Hd1 & _ & Hrun).
    apply Z.eqb_neq in Hm. rewrite Hm in Hrun.
    cbn [fire_memory_timers]. erewrite bind_val by exact Hrun.
    erewrite bind_val by reflexivity.
    cbn [trace set_trace]. rewrite last_snoc.
    unfold memoryTimer_outcome.
    destruct ((req / di_memory i =? 0) || (req / di_memory i =? 1)).
    + eexists _, _. split; [reflexivity |].
      cbn [trace set_trace]. rewrite last_snoc. split; [lia | reflexivity].
    + assert (H0 : (0 <? Z.of_nat (S k)) = true) by (apply Z.ltb_lt; lia).
      rewrite H0.
      replace (Z.of_nat (S k) - 1) with (Z.of_nat k) by lia.
      destruct (IH fuel
                  (set_trace (trace st1 ++ [TimerStart (memory_timer req (Z.of_nat k))]) st1)
                  d req Hd1 ltac:(lia))
        as (n & st' & Hfire & Hn & Hlast).
      erewrite bind_val by exact Hfire.
      eexists _, _. split; [reflexivity |]. split; [lia | exact Hlast].
Qed.

(** C10.  [memoryTimer] divides by the memory the driver reports without
    testing it for zero.  When every report is nonzero, the timer chain
    started with three retries returns after at most four runs of the
    callback, the last of which pushes the "memory" change.  When the report
    is zero, the run of the callback raises [ZeroDivisionError] and publishes
    nothing, and so does the timer chain. *)
Theorem memoryTimer_total_unless_zero (st : VM) (d : virDomain)
    (requestedMemory : Z) (fuel : nat) :
  domain st = Some d →
  (4 ≤ fuel)%nat →
  ((∀ tr, ∃ i, drv_info drv tr = Returns i ∧ di_memory i ≠ 0) →
   ∃ n st', fire_memory_timers drv fuel requestedMemory 3 st = (Val n, st')
            ∧ (1 ≤ n ≤ 4)%nat
            ∧ last (trace st') = Some (PushChange "virtualmachine:control" "memory"))
  ∧ (∀ i retry, drv_info drv (trace st) = Returns i → di_memory i = 0 →
     ∃ st', memoryTimer drv requestedMemory retry st = (Raise ZeroDivisionError, st')
            ∧ fire_memory_timers drv fuel requestedMemory retry st
              = (Raise ZeroDivisionError, st')
            ∧ published (trace st') = published (trace st)).
Proof.
  intros Hd Hfuel. split.
  - intros Hinfo.
    exact (fire_memory_timers_run 3 Hinfo fuel st d requestedMemory Hd ltac:(lia)).
  - intros i retry Hi Hz.
    destruct (memoryTimer_run st d i requestedMemory retry Hd Hi)
      as (st1 & _ & Hp & Hrun).
    rewrite Hz in Hrun. simpl in Hrun.
    exists st1. split; [exact Hrun |]. split; [| exact Hp].
    destruct fuel as [| fuel]; [lia |].
    cbn [fire_memory_timers]. now erewrite bind_raise by exact Hrun.
Qed.

End MemoryPoll.

(** ** The lock on the failure paths of the lifecycle handlers *)

Section LockRelease.

Variable drv : Driver.

Lemma unlock_then_reply (rep : reply) (st : VM) :
  ∃ st', (unlock;; mret rep) st = (Val rep, st') ∧ locked st' = false.
Proof.
  destruct (unlock_run st) as (st' & Hu & Hl & _).
  exists st'. split; [| exact Hl]. now erewrite bind_val by exact Hu.
Qed.

Ltac error_reply_unlocks Hl Hrun :=
  erewrite bind_val in Hrun by reflexivity; rewrite Hl in Hrun;
  unfold try_except in Hrun;
  match type of Hrun with
  | context [(?body ≫= ?k) ?st] =>
      let r := fresh "r" in
      let s := fresh "s" in
      let Hb := fresh "Hb" in
      destruct (body st) as [r s] eqn:Hb;
      destruct r as [? | e];
      [ erewrite bind_val in Hrun by exact Hb; discriminate
      | erewrite bind_raise in Hrun by exact Hb;
        destruct e;
        match type of Hrun with
        | (unlock;; mret ?rep) ?s1 = _ =>
            let st2 := fresh "st2" in
            let H1 := fresh "H1" in
            let H2 := fresh "H2" in
            destruct (unlock_then_reply rep s1) as (st2 & H1 & H2);
            rewrite H1 in Hrun; inversion Hrun; subst; exact H2
        end ]
  end.

(** X23.  The six lifecycle handlers release the lock before they return
    an error for a request they had accepted: when the lock was free at
    the request, it is free again at an error reply. *)
Lemma lifecycle_error_releases_lock (st st' : VM) (iq : Iq)
    (handler : Iq → M reply) (ex : exn) (code : Z) (ns : option string) :
  locked st = false →
  In handler [iq_create drv; iq_shutdown drv; iq_destroy drv;
              iq_reboot drv; iq_suspend drv; iq_resume drv] →
  handler iq st = (Val (Error ex code ns), st') →
  locked st' = false.
Proof.
  intros Hl Hin Hrun. simpl in Hin.
  destruct Hin as [<- | [<- | [<- | [<- | [<- | [<- | []]]]]]].
  - unfold iq_create in Hrun. error_reply_unlocks Hl Hrun.
  - unfold iq_shutdown in Hrun. error_reply_unlocks Hl Hrun.
  - unfold iq_destroy in Hrun. error_reply_unlocks Hl Hrun.
  - unfold iq_reboot in Hrun. error_reply_unlocks Hl Hrun.
  - unfold iq_suspend in Hrun. error_reply_unlocks Hl Hrun.
  - unfold iq_resume in Hrun. error_reply_unlocks Hl Hrun.
Qed.

End LockRelease.

(** ** Examples on concrete agents *)

(** A memory request while the lock is held is not rejected: it is answered
    with a result, and [setMemory] reached the driver. *)
Lemma iq_memory_while_locked :
  locked locked_vm = true
  ∧ fst (iq_memory running_driver (sample_iq 4096) locked_vm) = Val (Result no_payload)
  ∧ driver_calls (trace (snd (iq_memory running_driver (sample_iq 4096) locked_vm)))
    = [DriverCall (domain_setMemory 4096)]
  ∧ ¬ (∃ ex ns, fst (iq_memory running_driver (sample_iq 4096) locked_vm)
                = Val (Error ex ARCHIPEL_ERROR_CODE_VM_LOCKED ns)
                ∧ driver_calls (trace (snd (iq_memory running_driver (sample_iq 4096)
                                              locked_vm)))
                  = driver_calls (trace locked_vm)).
Proof.
  assert (H : fst (iq_memory running_driver (sample_iq 4096) locked_vm)
              = Val (Result no_payload)) by (vm_compute; reflexivity).
  split; [reflexivity |]. split; [exact H |].
  split; [vm_compute; reflexivity |].
  intros (ex & ns & Hrep & _). rewrite H in Hrep. discriminate.
Qed.

Lemma lifecycle_request_rejected_when_locked_witness :
  locked locked_vm = true
  ∧ iq_shutdown running_driver (sample_iq 0) locked_vm
    = (Val (Error (Exception [locked_message]) (-1012) None),
       set_trace (trace locked_vm ++ [Log "error" locked_message]) locked_vm).
Proof.
  split; [reflexivity |].
  apply (lifecycle_request_rejected_when_locked running_driver locked_vm
           (sample_iq 0) (iq_shutdown running_driver)).
  - reflexivity.
  - simpl. auto.
Defined.

(** On a shut-off domain the refresh publishes ("xa", "Off") and leaves the
    trigger on, where the table of the specification has
    ("xa", "Shutted off") and the trigger off. *)
Lemma refresh_shutoff_differs_from_table :
  presence_table_spec (Some (di_state shutoff_info))
  = Some ("xa", "Shutted off", ARCHIPEL_TRIGGER_STATE_OFF)
  ∧ fst (set_presence_according_to_libvirt_info
           (driver_with (Returns shutoff_info)) sample_vm) = Val tt
  ∧ shown (snd (set_presence_according_to_libvirt_info
                  (driver_with (Returns shutoff_info)) sample_vm))
    = ("xa", "Off", Some ARCHIPEL_TRIGGER_STATE_ON)
  ∧ (λ row, (row.1.1, row.1.2, Some row.2))
      <$> presence_table_spec (Some (di_state shutoff_info))
    ≠ Some (shown (snd (set_presence_according_to_libvirt_info
                          (driver_with (Returns shutoff_info)) sample_vm))).
Proof.
  split; [reflexivity |]. split; [reflexivity |].
  split; [vm_compute; reflexivity |].
  vm_compute. discriminate.
Qed.

Lemma presence_mapper_table_witness :
  domain sample_vm = Some (VirDomain "aaaa")
  ∧ refresh_row (Returns shutoff_info) = Some ("xa", "Off", None)
  ∧ ∃ st', set_presence_according_to_libvirt_info
             (driver_with (Returns shutoff_info)) sample_vm = (Val tt, st')
           ∧ published (trace st') = [ChangePresence "xa" "Off";
                                      PerformHooks "HOOK_VM_INITIALIZE"]
           ∧ xmppstatusshow st' = "xa" ∧ xmppstatus st' = "Off".
Proof.
  split; [reflexivity |]. split; [reflexivity |].
  destruct (presence_mapper_table (driver_with (Returns shutoff_info)) sample_vm
              (VirDomain "aaaa") ARCHIPEL_TRIGGER_STATE_ON (Returns shutoff_info)
              "xa" "Off" None)
    as [(st' & Hrun & Hp & Hs & Hx & _) _].
  - reflexivity.
  - reflexivity.
  - reflexivity.
  - reflexivity.
  - exists st'. split; [exact Hrun |]. split; [exact Hp |]. split; [exact Hs | exact Hx].
Defined.

Lemma resumed_event_sets_trigger_off_witness :
  triggers sample_vm !! "libvirt_run" = Some ARCHIPEL_TRIGGER_STATE_ON
  ∧ ∃ st', on_domain_event running_driver libvirt.VIR_DOMAIN_EVENT_RESUMED
             libvirt.VIR_DOMAIN_EVENT_RESUMED_UNPAUSED sample_vm = (Val tt, st')
           ∧ libvirt_status st' = libvirt.VIR_DOMAIN_RUNNING
           ∧ is_migrating st' = false
           ∧ triggers st' !! "libvirt_run" = Some ARCHIPEL_TRIGGER_STATE_OFF.
Proof.
  split; [reflexivity |].
  destruct (resumed_event_sets_trigger_off running_driver sample_vm
              (VirDomain "aaaa") ARCHIPEL_TRIGGER_STATE_ON
              libvirt.VIR_DOMAIN_EVENT_RESUMED_UNPAUSED running_info)
    as (st' & Hrun & _ & Hs & Hm & Ht).
  - reflexivity.
  - reflexivity.
  - reflexivity.
  - discriminate.
  - intros tr. reflexivity.
  - reflexivity.
  - exists st'. now repeat split.
Defined.

Lemma on_domain_event_while_migrating_witness :
  is_migrating migrating_vm = true
  ∧ published (trace (snd (on_domain_event running_driver
                             libvirt.VIR_DOMAIN_EVENT_STOPPED
                             libvirt.VIR_DOMAIN_EVENT_STOPPED_SHUTDOWN migrating_vm)))
    = published (trace migrating_vm).
Proof.
  split; [reflexivity |].
  apply (on_domain_event_while_migrating running_driver migrating_vm
           libvirt.VIR_DOMAIN_EVENT_STOPPED libvirt.VIR_DOMAIN_EVENT_STOPPED_SHUTDOWN).
  reflexivity.
Defined.

Lemma undefined_event_keeps_definition_witness :
  definition sample_vm = Some sample_xml
  ∧ ∃ st', on_domain_event running_driver libvirt.VIR_DOMAIN_EVENT_UNDEFINED 0
             sample_vm = (Val tt, st')
           ∧ domain st' = None
           ∧ libvirt_event_callback_id st' = None
           ∧ definition st' = Some sample_xml.
Proof.
  split; [reflexivity |].
  destruct (undefined_event_keeps_definition running_driver sample_vm
              ARCHIPEL_TRIGGER_STATE_ON 0)
    as (st' & Hrun & Hd & Hc & _ & Hdef).
  - reflexivity.
  - reflexivity.
  - intros id _. split; [reflexivity |]. intros tr. exists 0. reflexivity.
  - exists st'. now repeat split.
Defined.

(** A define request whose name element has an attribute and a child
    element, and which has two descriptions, is answered with a result; in
    the node handed to [defineXML] the name element still has that
    attribute and that child, and the description element that carries the
    credentials is the second one of the request, with its attribute and
    its child: neither is the element that holds the value alone. *)
Lemma iq_define_keeps_caller_markup :
  fst (iq_define running_driver marked_up_define_iq sample_vm) = Val (Result no_payload)
  ∧ ∃ xml,
      head (driver_calls (trace (snd (iq_define running_driver marked_up_define_iq
                                        sample_vm))))
      = Some (DriverCall (conn_defineXML xml))
      ∧ getTag "name" xml
        = Some (mkNode "name" [("lang", "en")] "vm-one" [mkNode "b" [] "bold" []])
      ∧ getTag "name" xml ≠ Some (mkNode "name" [] "vm-one" [])
      ∧ getTag "description" xml
        = Some (mkNode "description" [("kind", "note")]
                  "aaaa@hypervisor.example::::secret" [mkNode "i" [] "more" []])
      ∧ getTag "description" xml
        ≠ Some (mkNode "description" [] "aaaa@hypervisor.example::::secret" []).
Proof.
  split; [vm_compute; reflexivity |].
  eexists. split; [vm_compute; reflexivity |].
  split; [vm_compute; reflexivity |].
  split; [vm_compute; discriminate |].
  split; [vm_compute; reflexivity |].
  vm_compute. discriminate.
Qed.

Lemma iq_define_hands_over_credentials_witness :
  fst (iq_define running_driver define_iq sample_vm) = Val (Result no_payload)
  ∧ ∃ xml, definition (snd (iq_define running_driver define_iq sample_vm)) = Some xml
           ∧ getTag "description" xml
             = Some (mkNode "description" [] "aaaa@hypervisor.example::::secret" [])
           ∧ getTag "name" xml = Some (mkNode "name" [] "vm-one" []).
Proof.
  split; [vm_compute; reflexivity |].
  destruct (iq_define_hands_over_credentials running_driver sample_vm
              (snd (iq_define running_driver define_iq sample_vm))
              define_iq no_payload)
    as (request & xml & tr & Hreq & _ & _ & _ & Hd & Hn & Hdef).
  - vm_compute. reflexivity.
  - injection Hreq as <-.
    exists xml. split; [exact Hdef |]. split.
    + apply Hd. vm_compute. lia.
    + apply Hn. intros n Hfind. injection Hfind as <-. now exists "somebody-else".
Defined.

Lemma iq_define_incorrect_uuid_witness :
  getTag "uuid" foreign_xml = Some (mkNode "uuid" [] "bbbb" [])
  ∧ iq_define running_driver foreign_define_iq sample_vm
    = (Val (Error (Exception ["IncorrectUUID";
                              "given UUID bbbb doesn't match JID aaaa"])
                  (-1007) None),
       sample_vm).
Proof.
  split; [reflexivity |].
  apply (iq_define_incorrect_uuid running_driver sample_vm foreign_define_iq
           foreign_xml (mkNode "uuid" [] "bbbb" [])).
  - reflexivity.
  - reflexivity.
  - discriminate.
Defined.

Lemma setvcpus_rejection_keeps_lock_witness :
  locked sample_vm = false
  ∧ ∃ st', iq_setvcpus running_driver (sample_iq 9) sample_vm
           = (Val (Error (Exception ["Maximum vCPU is 8"])
                         ARCHIPEL_ERROR_CODE_VM_MEMORY None), st')
           ∧ locked st' = true
           ∧ lock_timer st' = Some timer_pending.
Proof.
  split; [reflexivity |].
  apply (setvcpus_rejection_keeps_lock running_driver sample_vm (VirDomain "aaaa")
           (sample_iq 9) 9 8).
  - reflexivity.
  - reflexivity.
  - intros tr. reflexivity.
  - lia.
Defined.

Lemma iq_undefine_non_driver_error_code_witness :
  fst (iq_undefine broken_binding_driver (sample_iq 0) sample_vm)
  = Val (Error (Exception ["wrong argument"]) ARCHIPEL_ERROR_CODE_VM_DESTROY None).
Proof.
  apply (iq_undefine_non_driver_error_code broken_binding_driver sample_vm
           (VirDomain "aaaa") (sample_iq 0) (Exception ["wrong argument"])).
  - reflexivity.
  - reflexivity.
  - intros code. discriminate.
Defined.

Lemma memoryTimer_total_unless_zero_witness :
  (∃ n st', fire_memory_timers running_driver 4 4096 3 sample_vm = (Val n, st')
            ∧ (1 ≤ n ≤ 4)%nat
            ∧ last (trace st') = Some (PushChange "virtualmachine:control" "memory"))
  ∧ ∃ st', memoryTimer (driver_with (Returns no_memory_info)) 4096 3 sample_vm
           = (Raise ZeroDivisionError, st')
           ∧ published (trace st') = published (trace sample_vm).
Proof.
  split.
  - apply (memoryTimer_total_unless_zero running_driver sample_vm (VirDomain "aaaa")
             4096 4).
    + reflexivity.
    + lia.
    + intros tr. exists running_info. split; [reflexivity | discriminate].
  - destruct (memoryTimer_total_unless_zero (driver_with (Returns no_memory_info))
                sample_vm (VirDomain "aaaa") 4096 4 eq_refl ltac:(lia))
      as [_ Hzero].
    destruct (Hzero no_memory_info 3 eq_refl eq_refl) as (st' & Hrun & _ & Hp).
    exists st'. split; [exact Hrun | exact Hp].
Defined.

(** The timer chain on the sample agent: the driver reports 1024 for a
    request of 4096, so the callback runs four times before it gives up and
    pushes the change. *)
Example fire_memory_timers_sample :
  fst (fire_memory_timers running_driver 10 4096 3 sample_vm) = Val 4%nat.
Proof. vm_compute. reflexivity. Qed.

(** A start request on a free agent: the reply carries the domain id, and
    with a QEMU driver the lock stays held until the started event comes. *)
Example iq_create_sample :
  fst (iq_create running_driver (sample_iq 0) sample_vm)
  = Val (Result (domain_payload 0))
  ∧ locked (snd (iq_create running_driver (sample_iq 0) sample_vm)) = true
  ∧ driver_calls (trace (snd (iq_create running_driver (sample_iq 0) sample_vm)))
    = [DriverCall domain_create; DriverCall domain_ID].
Proof. repeat split; vm_compute; reflexivity. Qed.

(** ** The routers and the handlers of read requests *)

Lemma fmap_val {A B : Type} (f : A → B) (m : M A) (st st' : VM) (a : A) :
  m st = (Val a, st') → (f <$> m) st = (Val (f a), st').
Proof. intros H. unfold fmap, M_fmap. now erewrite bind_val by exact H. Qed.

Lemma fmap_raise {A B : Type} (f : A → B) (m : M A) (st st' : VM) (e : exn) :
  m st = (Raise e, st') → (f <$> m) st = (Raise e, st').
Proof. intros H. unfold fmap, M_fmap. now erewrite bind_raise by exact H. Qed.

Section Routers.

Variable drv : Driver.
Variable hypervisor_jid : JID.
Variable hypervisor_capabilities : outcome Node.
Variable send_uri_request : JID → outcome unit.
Variable iq_networkinfo : Iq → M response.
Variable iq_free : Iq → M response.

(** [info_dict] is [info] with the two entries [info] leaves out: they do
    the same to the agent and agree on the entries of [domain.info()]. *)
Lemma info_dict_info (st : VM) :
  info drv st = ((λ infos, infos.1.1) <$> info_dict drv hypervisor_jid) st.
Proof.
  unfold info, info_dict, fmap, M_fmap, mbind, M_bind.
  destruct (domain_info_call drv st) as [[i | e] s1]; [| reflexivity].
  now destruct (try_except (domain_call drv domain_autostart) (λ _, mret 0) s1)
    as [[z | e] s2].
Qed.

(** X1.  While the agent is migrating, a control request whose action is not
    info, xmldesc or networkinfo is answered with the error code
    VM_MIGRATING = -43 and reaches no handler: the agent's state is
    untouched, whether the lock is held or not. *)
Theorem control_router_while_migrating (env : Envelope) (st : VM) :
  libvirt_connection st = true →
  is_migrating st = true →
  member_of (env_action env) ["info"; "xmldesc"; "networkinfo"] = false →
  process_iq_archipel_control drv hypervisor_jid send_uri_request
    iq_networkinfo iq_free env st
  = (Val (NodeProcessed (Some (error_text migrating_message (-43)))), st).
Proof.
  intros Hc Hm Ha. unfold process_iq_archipel_control.
  erewrite bind_val by reflexivity. cbv zeta. rewrite Hc, Hm, Ha. reflexivity.
Qed.

(** X2.  A control request whose action is none of the fourteen the router
    knows gets no reply and no error: the router returns, and the agent's
    state is untouched. *)
Theorem control_router_unknown_action (env : Envelope) (st : VM) :
  libvirt_connection st = true →
  is_migrating st = false →
  member_of (env_action env)
    ["info"; "create"; "shutdown"; "destroy"; "reboot"; "suspend"; "resume";
     "xmldesc"; "migrate"; "autostart"; "memory"; "setvcpus"; "networkinfo";
     "free"] = false →
  process_iq_archipel_control drv hypervisor_jid send_uri_request
    iq_networkinfo iq_free env st
  = (Val returned, st).
Proof.
  intros Hc Hm Ha. unfold process_iq_archipel_control.
  erewrite bind_val by reflexivity. cbv zeta. rewrite Hc, Hm.
  unfold member_of in Ha. cbn [existsb] in Ha.
  repeat (apply orb_false_iff in Ha; destruct Ha as [?E Ha]).
  cbn [negb andb].
  rewrite E, E0, E1, E2, E3, E4, E5, E6, E7, E8, E9, E10, E11, E12.
  reflexivity.
Qed.

(** X3.  The migration guard of the definition router tests whether the
    action occurs in the string "capabilities".  While the agent is
    migrating, an action that does not occur in it (define and undefine
    among them) is answered with VM_MIGRATING = -43 and reaches no handler;
    an action that occurs in it but is not "capabilities" itself passes the
    guard and then gets no reply at all.  In both cases the state is
    untouched. *)
Theorem definition_router_while_migrating (env : Envelope) (st : VM) :
  is_migrating st = true →
  env_action env ≠ "capabilities" →
  process_iq_archipel_definition drv hypervisor_capabilities env st
  = (Val (if occurs_in (env_action env) "capabilities"
          then returned
          else NodeProcessed (Some (error_text migrating_message (-43)))),
     st).
Proof.
  intros Hm Hne. unfold process_iq_archipel_definition.
  erewrite bind_val by reflexivity. cbv zeta. rewrite Hm.
  destruct (occurs_in (env_action env) "capabilities") eqn:Ho; [| reflexivity].
  cbn [negb andb].
  destruct (String.eqb_spec (env_action env) "define") as [E | _].
  { rewrite E in Ho. vm_compute in Ho. discriminate. }
  destruct (String.eqb_spec (env_action env) "undefine") as [E | _].
  { rewrite E in Ho. vm_compute in Ho. discriminate. }
  destruct (String.eqb_spec (env_action env) "capabilities") as [E | _];
    [contradiction | reflexivity].
Qed.

(** X4.  On an agent whose domain is not defined, an info request is
    answered with an "ignore" reply and an xmldesc request with the error
    "not-defined" under code VM_XMLDESC = -1011; neither makes a driver
    call nor changes the agent's state. *)
Theorem read_requests_on_undefined_domain (iq : Iq) (st : VM) :
  domain st = None →
  iq_info drv hypervisor_jid iq st = (Val (reply_of Ignore), st)
  ∧ iq_xmldesc drv iq st
    = (Val (reply_of (Error (Exception ["not-defined"]) (-1011) None)), st).
Proof.
  intros Hd. split.
  - unfold iq_info, try_except. erewrite bind_val by reflexivity. now rewrite Hd.
  - unfold iq_xmldesc, try_except. erewrite bind_val by reflexivity. now rewrite Hd.
Qed.

End Routers.

Section SmallRequests.

Variable drv : Driver.

(** X5.  An undefine request on an agent whose domain is already undefined
    succeeds as a no-op: the reply is a result, no driver call is made, and
    the agent only logs two lines. *)
Theorem iq_undefine_on_undefined_domain (iq : Iq) (st : VM) :
  domain st = None →
  iq_undefine drv iq st
  = (Val (Result no_payload),
     set_trace (trace st ++ [Log "warning" "virtual machine is already undefined";
                             Log "info" "virtual machine is undefined"]) st).
Proof.
  intros Hd. unfold iq_undefine, try_except, undefine.
  unfold log_warning, log_info, emit, modify, get, mbind, M_bind.
  cbn. rewrite Hd. cbn. unfold set_trace. cbn. now rewrite <- app_assoc.
Qed.

(** X6.  An autostart, memory or setvcpus request whose value attribute is
    missing or is not a number is answered with an error and changes
    nothing: no driver call is made and the lock is not taken.  The error
    is built from the [TypeError] of [int(None)] when the attribute is
    missing and from the [ValueError] of [int()] when its text is not a
    number; its code is VM_AUTOSTART = -1015 for autostart and
    VM_MEMORY = -1016 for both memory and setvcpus. *)
Theorem value_requests_without_value (iq : Iq) (st : VM) (ex : exn) :
  (iq_value iq = no_value ∧ ex = TypeError)
  ∨ (iq_value iq = not_a_number ∧ ex = ValueError) →
  iq_autostart drv iq st = (Val (Error ex (-1015) None), st)
  ∧ iq_memory drv iq st = (Val (Error ex (-1016) None), st)
  ∧ iq_setvcpus drv iq st = (Val (Error ex (-1016) None), st).
Proof.
  intros [[Hv ->] | [Hv ->]];
    unfold iq_autostart, iq_memory, iq_setvcpus, try_except, value_of;
    rewrite Hv; repeat split.
Qed.

(** X7.  A memory request never asks the driver for less than 10: the
    driver is called with the larger of the value and 10.  When the driver
    accepts, the poll timer is started for that same amount with three
    retries and the reply is a result; when the driver refuses with a
    libvirt error, the reply carries the driver's code and no timer is
    started. *)
Theorem iq_memory_clamps (iq : Iq) (st : VM) (d : virDomain) (value : Z) :
  domain st = Some d →
  iq_value iq = number value →
  iq_memory drv iq st
  = match drv_int drv (trace st) (domain_setMemory (Z.max value 10)) with
    | Returns _ =>
        (Val (Result no_payload),
         set_trace (trace st ++
                    [DriverCall (domain_setMemory (Z.max value 10));
                     TimerStart (memory_timer (Z.max value 10) 3);
                     Log "info" "virtual machine memory is set to %d"]) st)
    | Throws ex =>
        (Val (match ex with
              | libvirtError code =>
                  Error ex code (Some ARCHIPEL_NS_LIBVIRT_GENERIC_ERROR)
              | _ => Error ex ARCHIPEL_ERROR_CODE_VM_MEMORY None
              end),
         set_trace (trace st ++ [DriverCall (domain_setMemory (Z.max value 10))]) st)
    end.
Proof.
  intros Hd Hv.
  assert (Hmax : (if value <? 10 then 10 else value) = Z.max value 10).
  { destruct (Z.ltb_spec value 10); lia. }
  unfold iq_memory, try_except, value_of. rewrite Hv.
  erewrite bind_val by reflexivity.
  unfold setMemory. cbv zeta. rewrite Hmax.
  unfold domain_call, driver_call, oracle_call, log_info, emit, modify, get,
    mbind, M_bind.
  cbn. rewrite Hd.
  destruct (drv_int drv (trace st) (domain_setMemory (Z.max value 10))) as [z | ex].
  - cbn. unfold set_trace. cbn. now rewrite <- !app_assoc.
  - now destruct ex.
Qed.

End SmallRequests.

(** ** Lifecycle orders, by request and by chat *)

Section LifecycleOrders.

Variable drv : Driver.

Lemma domain_call_returns (st : VM) (d : virDomain) (c : call) (z : Z) :
  domain st = Some d →
  drv_int drv (trace st) c = Returns z →
  domain_call drv c st = (Val z, set_trace (trace st ++ [DriverCall c]) st).
Proof.
  intros Hd Hr. unfold domain_call, driver_call, oracle_call.
  erewrite bind_val by reflexivity. now rewrite Hd, Hr.
Qed.

Lemma domain_call_throws (st : VM) (d : virDomain) (c : call) (e : exn) :
  domain st = Some d →
  drv_int drv (trace st) c = Throws e →
  domain_call drv c st = (Raise e, set_trace (trace st ++ [DriverCall c]) st).
Proof.
  intros Hd Hr. unfold domain_call, driver_call, oracle_call.
  erewrite bind_val by reflexivity. now rewrite Hd, Hr.
Qed.

Lemma on_domain_event_migrating_run (st : VM) (event detail : Z) :
  is_migrating st = true →
  on_domain_event drv event detail st
  = (Val tt,
     set_trace (trace (entered st) ++
                [Log "info" "event received but virtual machine is migrating. ignoring"])
               (entered st)).
Proof.
  intros Hmig. unfold on_domain_event, log_info.
  erewrite bind_val by apply emit_eq.
  erewrite bind_val by reflexivity.
  cbn [is_migrating set_trace]. rewrite Hmig. now rewrite emit_eq.
Qed.

(** X8.  The lifecycle callback never raises into the driver's thread:
    whatever the event, whatever the driver answers and whether or not the
    [libvirt_run] trigger exists, it returns.  When the agent is not
    migrating, the lock is released when it returns. *)
Theorem on_domain_event_returns_and_unlocks (st : VM) (event detail : Z) :
  ∃ st', on_domain_event drv event detail st = (Val tt, st')
         ∧ (is_migrating st = false → locked st' = false).
Proof.
  destruct (is_migrating st) eqn:Hm.
  - eexists. split; [now apply on_domain_event_migrating_run | discriminate].
  - destruct (on_domain_event_try drv event detail (entered st)) as [r st2] eqn:Htry.
    destruct (on_domain_event_run drv event detail st st2 r Hm Htry)
      as (st3 & st' & Hrun & _ & _ & _ & Hl).
    exists st'. split; [exact Hrun | intros _; exact Hl].
Qed.

(** X9.  No lifecycle event changes the agent's address, password or name,
    its libvirt connection, its migration flag or its stored definition. *)
Theorem on_domain_event_leaves_fixed (st : VM) (event detail : Z) :
  let st' := snd (on_domain_event drv event detail st) in
  jid st' = jid st ∧ password st' = password st ∧ name st' = name st
  ∧ libvirt_connection st' = libvirt_connection st
  ∧ is_migrating st' = is_migrating st
  ∧ definition st' = definition st.
Proof.
  pose proof (on_domain_event_fixed_view drv event detail st) as H.
  unfold same, fixed_view in H. injection H as H1 H2 H3 H4 H5 H6.
  cbv zeta. now repeat split.
Qed.

(** X10.  A chat order (start, shutdown, destroy, reboot, suspend, resume)
    does not look at the lock before it calls the driver, and when the
    driver call fails it answers with the error message and leaves the lock
    held: nothing but the safety timer will release it. *)
Theorem chat_order_failure_keeps_lock (st : VM) (d : virDomain) (msg : string)
    (handler : string → M message_reply) (c : call) (e : exn) :
  domain st = Some d →
  In (handler, c) (chat_orders drv) →
  (∀ tr, drv_int drv tr c = Throws e) →
  ∃ st', handler msg st = (Val (error_message e), st')
         ∧ locked st' = true
         ∧ lock_timer st' = Some timer_pending
         ∧ driver_calls (trace st') = driver_calls (trace st) ++ [DriverCall c].
Proof.
  intros Hd Hin Hthrow.
  set (st1 := set_trace (trace st ++ [Log "info" "acquiring lock";
                                      TimerStart lock_timer_unlock])
                (set_lock_timer (Some timer_pending) (set_locked true st))).
  assert (Hcall : domain_call drv c st1
                  = (Raise e, set_trace (trace st1 ++ [DriverCall c]) st1)).
  { apply (domain_call_throws st1 d); [exact Hd | apply Hthrow]. }
  exists (set_trace (trace st1 ++ [DriverCall c]) st1).
  split.
  - unfold chat_orders in Hin. simpl in Hin.
    destruct Hin as [E | [E | [E | [E | [E | [E | []]]]]]];
      injection E as <- <-;
      [unfold message_create, create | unfold message_shutdown, shutdown
       | unfold message_destroy, destroy | unfold message_reboot, reboot
       | unfold message_suspend, suspend | unfold message_resume, resume];
      unfold try_except;
      (erewrite bind_raise;
       [reflexivity
       | erewrite bind_val by apply lock_run; fold st1;
         erewrite bind_raise by exact Hcall; reflexivity]).
  - split; [reflexivity |]. split; [reflexivity |].
    unfold st1. simpl. rewrite !driver_calls_app. simpl.
    now rewrite app_nil_r.
Qed.

(** X11.  On a driver of the QEMU or Xen class a start request that the
    driver accepts is answered with the domain id and leaves the lock held,
    its timer pending: nothing is published until the driver delivers the
    started event. *)
Theorem iq_create_waits_for_event (st : VM) (d : virDomain) (iq : Iq) (ret id : Z) :
  locked st = false →
  domain st = Some d →
  is_hypervisor drv [QEMU; XEN] = true →
  (∀ tr, drv_int drv tr domain_create = Returns ret) →
  (∀ tr, drv_int drv tr domain_ID = Returns id) →
  ∃ st', iq_create drv iq st = (Val (Result (domain_payload id)), st')
         ∧ locked st' = true
         ∧ lock_timer st' = Some timer_pending
         ∧ published (trace st') = published (trace st)
         ∧ driver_calls (trace st')
           = driver_calls (trace st) ++ [DriverCall domain_create; DriverCall domain_ID].
Proof.
  intros Hl Hd Hq Hcreate Hid.
  set (st1 := set_trace (trace st ++ [Log "info" "acquiring lock";
                                      TimerStart lock_timer_unlock])
                (set_lock_timer (Some timer_pending) (set_locked true st))).
  set (st2 := set_trace (trace st1 ++ [DriverCall domain_create]) st1).
  set (st3 := set_trace (trace st2 ++ [Log "info" "virtual machine created"]) st2).
  set (st4 := set_trace (trace st3 ++ [DriverCall domain_ID]) st3).
  assert (Hrun : create drv st = (Val id, st4)).
  { unfold create. erewrite bind_val by apply lock_run. fold st1.
    erewrite bind_val by (apply (domain_call_returns st1 d); [exact Hd | apply Hcreate]).
    fold st2. unfold log_info. erewrite bind_val by apply emit_eq. fold st3.
    rewrite Hq. rewrite andb_false_r.
    erewrite bind_val by reflexivity.
    apply (domain_call_returns st3 d); [exact Hd | apply Hid]. }
  exists st4. split.
  - unfold iq_create. erewrite bind_val by reflexivity. rewrite Hl.
    unfold try_except. now erewrite bind_val by exact Hrun.
  - split; [reflexivity |]. split; [reflexivity |].
    unfold st4, st3, st2, st1. simpl.
    rewrite !published_app, !driver_calls_app. simpl.
    rewrite !app_nil_r, <- !app_assoc. split; reflexivity.
Qed.

Lemma started_branch (s : VM) :
  on_domain_event_try drv libvirt.VIR_DOMAIN_EVENT_STARTED
    libvirt.VIR_DOMAIN_EVENT_STARTED_BOOTED s
  = (change_presence "" ARCHIPEL_XMPP_SHOW_RUNNING;;
     push_change "virtualmachine:control" "created";;
     trigger_set_state "libvirt_run" ARCHIPEL_TRIGGER_STATE_ON;;
     perform_hooks "HOOK_VM_CREATE";; mret tt) s.
Proof. unfold on_domain_event_try. cbn [Z.eqb Pos.eqb negb andb libvirt.VIR_DOMAIN_EVENT_STARTED
  libvirt.VIR_DOMAIN_EVENT_STARTED_BOOTED libvirt.VIR_DOMAIN_EVENT_STARTED_MIGRATED].
  apply four_calls_ext.
Qed.

(** X12.  On a driver of a class that delivers no lifecycle events, a start
    request that the driver accepts with 0 runs the started event itself:
    when the reply (the domain id) is returned, the presence "Running" and
    the change "created" are published, HOOK_VM_CREATE is fired, the
    [libvirt_run] trigger is on and the lock is released. *)
Theorem iq_create_synthesizes_started (st : VM) (d : virDomain) (iq : Iq)
    (t0 : trigger_state) (id : Z) :
  locked st = false →
  is_migrating st = false →
  domain st = Some d →
  triggers st !! "libvirt_run" = Some t0 →
  is_hypervisor drv [QEMU; XEN] = false →
  (∀ tr, drv_int drv tr domain_create = Returns 0) →
  (∀ tr, drv_int drv tr domain_ID = Returns id) →
  ∃ st', iq_create drv iq st = (Val (Result (domain_payload id)), st')
         ∧ locked st' = false
         ∧ published (trace st')
           = published (trace st)
             ++ [ChangePresence "" "Running";
                 PushChange "virtualmachine:control" "created";
                 PerformHooks "HOOK_VM_CREATE"]
         ∧ triggers st' !! "libvirt_run" = Some ARCHIPEL_TRIGGER_STATE_ON.
Proof.
  intros Hl Hm Hd Ht Hq Hcreate Hid.
  set (st1 := set_trace (trace st ++ [Log "info" "acquiring lock";
                                      TimerStart lock_timer_unlock])
                (set_lock_timer (Some timer_pending) (set_locked true st))).
  set (st2 := set_trace (trace st1 ++ [DriverCall domain_create]) st1).
  set (st3 := set_trace (trace st2 ++ [Log "info" "virtual machine created"]) st2).
  destruct (on_domain_event_branch drv libvirt.VIR_DOMAIN_EVENT_STARTED
              libvirt.VIR_DOMAIN_EVENT_STARTED_BOOTED st3
              "" ARCHIPEL_XMPP_SHOW_RUNNING "virtualmachine:control" "created"
              "HOOK_VM_CREATE" ARCHIPEL_TRIGGER_STATE_ON t0 (mret tt)
              Hm Ht started_branch ret_row_view)
    as (st4 & st5 & Hev & _ & Hv4 & Hv5 & Hp & Htr & _ & _ & _ & Hl5).
  assert (Hd5 : domain st5 = Some d).
  { rewrite Hv4 in Hv5. unfold bus_view in Hv5.
    injection Hv5 as _ _ _ _ Hd5 _ _ _ _ _ _ _ _. rewrite Hd5. exact Hd. }
  set (st6 := set_trace (trace st5 ++ [DriverCall domain_ID]) st5).
  assert (Hrun : create drv st = (Val id, st6)).
  { unfold create. erewrite bind_val by apply lock_run. fold st1.
    erewrite bind_val by (apply (domain_call_returns st1 d); [exact Hd | apply Hcreate]).
    fold st2. unfold log_info. erewrite bind_val by apply emit_eq. fold st3.
    rewrite Hq. cbn [Z.eqb negb andb].
    erewrite bind_val by exact Hev.
    apply (domain_call_returns st5 d); [exact Hd5 | apply Hid]. }
  exists st6. split.
  - unfold iq_create. erewrite bind_val by reflexivity. rewrite Hl.
    unfold try_except. now erewrite bind_val by exact Hrun.
  - split; [exact Hl5 |]. split; [| exact Htr].
    unfold st6. simpl. rewrite published_app. simpl. rewrite app_nil_r.
    rewrite Hp. unfold st3, st2, st1. simpl. rewrite !published_app. simpl.
    now rewrite !app_nil_r.
Qed.

(** X13.  A setvcpus request for no more virtual CPUs than [maxVcpus] that
    the driver accepts takes the lock and releases it again: the reply is a
    result, the driver was asked for [maxVcpus] and then [setVcpus] with the
    value, the change "nvcpu" is pushed on the control and on the definition
    channel, and the lock is free with its timer cancelled. *)
Theorem iq_setvcpus_accepted (st : VM) (d : virDomain) (iq : Iq)
    (value maxVcpus z : Z) :
  domain st = Some d →
  iq_value iq = number value →
  (∀ tr, drv_int drv tr domain_maxVcpus = Returns maxVcpus) →
  (∀ tr, drv_int drv tr (domain_setVcpus value) = Returns z) →
  value ≤ maxVcpus →
  ∃ st', iq_setvcpus drv iq st = (Val (Result no_payload), st')
         ∧ locked st' = false
         ∧ lock_timer st' = Some timer_cancelled
         ∧ driver_calls (trace st')
           = driver_calls (trace st)
             ++ [DriverCall domain_maxVcpus; DriverCall (domain_setVcpus value)]
         ∧ published (trace st')
           = published (trace st)
             ++ [PushChange "virtualmachine:control" "nvcpu";
                 PushChange "virtualmachine:definition" "nvcpu"].
Proof.
  intros Hd Hv Hmax Hset Hle.
  set (st1 := set_trace (trace st ++ [Log "info" "acquiring lock";
                                      TimerStart lock_timer_unlock])
                (set_lock_timer (Some timer_pending) (set_locked true st))).
  set (st2 := set_trace (trace st1 ++ [DriverCall domain_maxVcpus]) st1).
  set (st3 := set_trace (trace st2 ++ [DriverCall (domain_setVcpus value)]) st2).
  assert (Hun : ∃ st4, unlock st3 = (Val tt, st4)
                       ∧ st4 = set_trace (trace st3 ++ [Log "info" "releasing lock";
                                                        TimerCancel lock_timer_unlock])
                                 (set_lock_timer (Some timer_cancelled)
                                                 (set_locked false st3))).
  { eexists. split; [| reflexivity].
    unfold unlock, log_info, emit, modify, get, mbind, M_bind. cbn.
    unfold set_trace. cbn. now rewrite <- app_assoc. }
  destruct Hun as (st4 & Hun & Hst4).
  assert (Hrun : setVCPUs drv value st = (Val tt, st4)).
  { unfold setVCPUs. erewrite bind_val by apply lock_run. fold st1.
    erewrite bind_val by (apply (domain_call_returns st1 d); [exact Hd | apply Hmax]).
    fold st2. assert (Hlt : (maxVcpus <? value) = false) by (apply Z.ltb_ge; lia).
    rewrite Hlt. erewrite bind_val by reflexivity.
    erewrite bind_val by (apply (domain_call_returns st2 d); [exact Hd | apply Hset]).
    exact Hun. }
  eexists. split.
  - unfold iq_setvcpus, try_except, value_of. rewrite Hv.
    erewrite bind_val by reflexivity.
    erewrite bind_val by exact Hrun.
    unfold log_info, push_change.
    erewrite bind_val by apply emit_eq.
    erewrite bind_val by apply emit_eq.
    erewrite bind_val by apply emit_eq.
    reflexivity.
  - subst st4. unfold st3, st2, st1. simpl.
    rewrite !published_app, !driver_calls_app. simpl.
    rewrite !app_nil_r, <- !app_assoc. simpl. now repeat split.
Qed.

End LifecycleOrders.

(** ** Migration, step one *)

Section Migration.

Variable drv : Driver.
Variable hypervisor_jid : JID.
Variable send_uri_request : JID → outcome unit.
Variable iq_networkinfo : Iq → M response.
Variable iq_free : Iq → M response.

Lemma domain_info_call_inv (st s1 : VM) (r : res dominfo) :
  domain_info_call drv st = (r, s1) →
  is_migrating s1 = is_migrating st
  ∧ ∀ i, r = Val i →
         domain st ≠ None
         ∧ drv_info drv (trace st) = Returns i
         ∧ s1 = set_trace (trace st ++ [DriverCall domain_info]) st.
Proof.
  unfold domain_info_call, oracle_call. erewrite bind_val by reflexivity.
  destruct (domain st) as [d |].
  - destruct (drv_info drv (trace st)) as [i | e]; intros H; inversion H; subst;
      (split; [reflexivity |]); intros i' Hi; inversion Hi; subst.
    repeat split. discriminate.
  - intros H. inversion H; subst. split; [reflexivity |]. discriminate.
Qed.

Lemma migrate_step1_inv (st st' : VM) (destination : JID) (r : res unit) :
  migrate_step1 drv hypervisor_jid send_uri_request destination st = (r, st') →
  is_migrating st' ≠ is_migrating st →
  ∃ i tr,
    is_hypervisor drv [QEMU] = true
    ∧ is_migrating st = false
    ∧ definition st ≠ None
    ∧ domain st ≠ None
    ∧ drv_info drv tr = Returns i
    ∧ (di_state i = libvirt.VIR_DOMAIN_RUNNING ∨ di_state i = libvirt.VIR_DOMAIN_BLOCKED)
    ∧ getStripped hypervisor_jid ≠ getStripped destination
    ∧ is_migrating st' = true.
Proof.
  intros Hrun Hchg. unfold migrate_step1 in Hrun.
  destruct (is_hypervisor drv [QEMU]) eqn:Hq; cbn [negb] in Hrun.
  2:{ exfalso. apply Hchg. now inversion Hrun. }
  erewrite bind_val in Hrun by reflexivity.
  destruct (is_migrating st) eqn:Hm.
  { exfalso. apply Hchg. inversion Hrun; subst. exact Hm. }
  destruct (definition st) as [def |] eqn:Hdef.
  2:{ exfalso. apply Hchg. inversion Hrun; subst. exact Hm. }
  destruct (domain_info_call drv st) as [[i | e] s1] eqn:Hi1.
  2:{ exfalso. apply Hchg.
      destruct (domain_info_call_inv _ _ _ Hi1) as [Hk _].
      erewrite bind_raise in Hrun by exact Hi1.
      inversion Hrun; subst. congruence. }
  erewrite bind_val in Hrun by exact Hi1.
  destruct (domain_info_call_inv _ _ _ Hi1) as [Hk1 Hv1].
  destruct (Hv1 i eq_refl) as (Hdom & Hret1 & Hs1).
  set (second := if negb (di_state i =? libvirt.VIR_DOMAIN_RUNNING) then
                   j ← domain_info_call drv;
                   mret (negb (di_state j =? libvirt.VIR_DOMAIN_BLOCKED))
                 else mret false) in Hrun.
  assert (Hsecond : ∃ r2 s2, second s1 = (r2, s2)
            ∧ is_migrating s2 = is_migrating s1
            ∧ (r2 = Val false →
               ∃ i' tr, drv_info drv tr = Returns i'
                        ∧ (di_state i' = libvirt.VIR_DOMAIN_RUNNING
                           ∨ di_state i' = libvirt.VIR_DOMAIN_BLOCKED))).
  { unfold second.
    destruct (di_state i =? libvirt.VIR_DOMAIN_RUNNING) eqn:E1; cbn [negb].
    - eexists _, _. split; [reflexivity |]. split; [reflexivity |].
      intros _. exists i, (trace st). split; [exact Hret1 |].
      left. now apply Z.eqb_eq.
    - destruct (domain_info_call drv s1) as [[j | e] s2] eqn:Hi2.
      + destruct (domain_info_call_inv _ _ _ Hi2) as [Hk2 Hv2].
        destruct (Hv2 j eq_refl) as (_ & Hret2 & _).
        eexists _, _. split; [now erewrite bind_val by exact Hi2 |].
        split; [exact Hk2 |]. intros Hf. inversion Hf as [Hb].
        exists j, (trace s1). split; [exact Hret2 |].
        right. apply Z.eqb_eq. now destruct (di_state j =? libvirt.VIR_DOMAIN_BLOCKED).
      + destruct (domain_info_call_inv _ _ _ Hi2) as [Hk2 _].
        eexists _, _. split; [now erewrite bind_raise by exact Hi2 |].
        split; [exact Hk2 | discriminate]. }
  destruct Hsecond as (r2 & s2 & Hsec & Hk2 & Hok).
  destruct r2 as [[|] | e2].
  - exfalso. apply Hchg. erewrite bind_val in Hrun by exact Hsec.
    inversion Hrun; subst. congruence.
  - erewrite bind_val in Hrun by exact Hsec.
    destruct (String.eqb_spec (getStripped hypervisor_jid) (getStripped destination))
      as [E | Hne].
    { exfalso. apply Hchg. inversion Hrun; subst. congruence. }
    destruct (Hok eq_refl) as (i' & tr & Hret & Hstate).
    exists i', tr.
    assert (Hflag : is_migrating st' = true).
    { erewrite bind_val in Hrun by reflexivity. unfold external in Hrun.
      destruct (send_uri_request destination); inversion Hrun; subst; reflexivity. }
    repeat split; try assumption; try congruence; discriminate.
  - exfalso. apply Hchg. erewrite bind_raise in Hrun by exact Hsec.
    inversion Hrun; subst. congruence.
Qed.

(** X14.  A migrate request changes the migration flag only when every
    precondition of step one held: the request names a hypervisor, the
    driver is QEMU, the agent was not migrating, a definition is stored, the
    domain handle is set, the driver reported the domain running or
    blocked, and the target is not the agent's own hypervisor.  The flag is
    then true. *)
Theorem iq_migrate_flag_only_when_allowed (st st' : VM) (hypervisorjid : option JID)
    (r : res response) :
  iq_migrate drv hypervisor_jid send_uri_request hypervisorjid st = (r, st') →
  is_migrating st' ≠ is_migrating st →
  ∃ destination i tr,
    hypervisorjid = Some destination
    ∧ is_hypervisor drv [QEMU] = true
    ∧ is_migrating st = false
    ∧ definition st ≠ None
    ∧ domain st ≠ None
    ∧ drv_info drv tr = Returns i
    ∧ (di_state i = libvirt.VIR_DOMAIN_RUNNING ∨ di_state i = libvirt.VIR_DOMAIN_BLOCKED)
    ∧ getStripped hypervisor_jid ≠ getStripped destination
    ∧ is_migrating st' = true.
Proof.
  intros Hrun Hchg.
  unfold iq_migrate, try_except in Hrun.
  destruct hypervisorjid as [dest |].
  2:{ exfalso. apply Hchg. simpl in Hrun. now inversion Hrun. }
  erewrite bind_val in Hrun by reflexivity.
  destruct (migrate_step1 drv hypervisor_jid send_uri_request dest st)
    as [r1 s1] eqn:Hstep.
  assert (Hs : st' = s1).
  { destruct r1 as [[] | e].
    - erewrite bind_val in Hrun by exact Hstep. now inversion Hrun.
    - erewrite bind_raise in Hrun by exact Hstep. now inversion Hrun. }
  subst s1.
  destruct (migrate_step1_inv st st' dest r1 Hstep Hchg)
    as (i & tr & H1 & H2 & H3 & H4 & H5 & H6 & H7 & H8).
  exists dest, i, tr. now repeat split.
Qed.

(** X15.  A migrate request on a defined, running agent of a QEMU driver,
    towards another hypervisor, is accepted: the reply is a result, the
    migration flag is set, nothing is published yet and the driver was only
    asked for [info].  From then on the control router answers every
    request whose action is not info, xmldesc or networkinfo with
    VM_MIGRATING = -43, without a handler being run. *)
Theorem migrate_accepted_then_guarded (st : VM) (d : virDomain) (def : Node)
    (destination : JID) (i : dominfo) (env : Envelope) :
  is_hypervisor drv [QEMU] = true →
  is_migrating st = false →
  libvirt_connection st = true →
  definition st = Some def →
  domain st = Some d →
  drv_info drv (trace st) = Returns i →
  di_state i = libvirt.VIR_DOMAIN_RUNNING →
  getStripped hypervisor_jid ≠ getStripped destination →
  send_uri_request destination = Returns tt →
  member_of (env_action env) ["info"; "xmldesc"; "networkinfo"] = false →
  let st' := set_is_migrating true
               (set_trace (trace st ++ [DriverCall domain_info]) st) in
  iq_migrate drv hypervisor_jid send_uri_request (Some destination) st
  = (Val (reply_of (Result no_payload)), st')
  ∧ process_iq_archipel_control drv hypervisor_jid send_uri_request
      iq_networkinfo iq_free env st'
    = (Val (NodeProcessed (Some (error_text migrating_message (-43)))), st').
Proof.
  intros Hq Hm Hc Hdef Hd Hi Hrun Hne Hsend Ha. cbv zeta. split.
  - unfold iq_migrate, try_except, migrate_step1.
    rewrite Hq. cbn [negb].
    unfold domain_info_call, oracle_call, external, modify, get, mbind, M_bind.
    cbn. rewrite Hm, Hdef, Hd, Hi. apply Z.eqb_eq in Hrun. rewrite Hrun. cbn.
    destruct (String.eqb_spec (getStripped hypervisor_jid) (getStripped destination));
      [contradiction |].
    now rewrite Hsend.
  - unfold process_iq_archipel_control.
    erewrite bind_val by reflexivity. cbv zeta.
    cbn [libvirt_connection is_migrating set_is_migrating set_trace].
    now rewrite Hc, Ha.
Qed.

End Migration.

(** ** Connecting to the domain *)

Section Connect.

Variable drv : Driver.

(** X16.  When the domain cannot be looked up, because the libvirt
    connection is gone or because the driver refuses the uuid, the agent
    stays without a domain handle, publishes the presence
    ("xa", "Not defined") and fires HOOK_VM_INITIALIZE; no lifecycle callback
    is registered and the stored definition is left alone. *)
Theorem connect_domain_lookup_fails (st : VM) :
  domain st = None →
  (libvirt_connection st = false
   ∨ ∃ e, drv_int drv (trace st) (conn_lookupByUUIDString (uuid st)) = Throws e) →
  ∃ st', connect_domain drv st = (Val tt, st')
         ∧ domain st' = None
         ∧ published (trace st')
           = published (trace st)
             ++ [ChangePresence "xa" "Not defined"; PerformHooks "HOOK_VM_INITIALIZE"]
         ∧ libvirt_event_callback_id st' = libvirt_event_callback_id st
         ∧ definition st' = definition st.
Proof.
  intros Hd Hfail.
  unfold connect_domain, try_except, conn_call, driver_call, oracle_call,
    log_warning, change_presence, perform_hooks, emit, modify, get, raise,
    mbind, M_bind.
  cbn. rewrite Hd.
  destruct Hfail as [Hc | [e He]].
  - rewrite Hc. cbn. eexists. split; [reflexivity |]. cbn.
    rewrite !published_snoc. cbn. rewrite !app_nil_r, <- !app_assoc.
    now repeat split.
  - destruct (libvirt_connection st); cbn; [rewrite He; cbn |];
      (eexists; split; [reflexivity |]); cbn;
      rewrite !published_snoc; cbn; rewrite ?app_nil_r, <- ?app_assoc;
      now repeat split.
Qed.

Lemma refresh_keeps_handle (st : VM) (d : virDomain) (t0 : trigger_state) (i : dominfo) :
  domain st = Some d →
  triggers st !! "libvirt_run" = Some t0 →
  drv_info drv (trace st) = Returns i →
  let st' := snd (set_presence_according_to_libvirt_info drv st) in
  domain st' = domain st ∧ definition st' = definition st
  ∧ libvirt_event_callback_id st' = libvirt_event_callback_id st.
Proof.
  intros Hd Ht Hi.
  unfold set_presence_according_to_libvirt_info, try_except, domain_info_call,
    oracle_call, change_presence, perform_hooks, trigger_set_state, log_info,
    log_error, emit, modify, get, mbind, M_bind.
  cbn. rewrite Hd, Hi. cbn.
  destruct ((di_state i =? libvirt.VIR_DOMAIN_RUNNING)
            || (di_state i =? libvirt.VIR_DOMAIN_BLOCKED)); cbn.
  { rewrite Ht. cbn. now repeat split. }
  destruct (di_state i =? libvirt.VIR_DOMAIN_PAUSED); cbn.
  { rewrite Ht. cbn. now repeat split. }
  destruct (di_state i =? libvirt.VIR_DOMAIN_SHUTOFF); cbn; [now repeat split |].
  destruct (di_state i =? libvirt.VIR_DOMAIN_SHUTDOWN); cbn; now repeat split.
Qed.

(** X24.  On an agent without a domain handle, when the driver knows the
    uuid, gives the domain XML, registers the callback and reports a
    status, [connect_domain] stores the handle, the XML as definition and
    the callback id, caches the status, and publishes the presence of the
    refresh table for it followed by HOOK_VM_INITIALIZE. *)
Theorem connect_domain_connects (st : VM) (t0 : trigger_state) (desc : Node)
    (z id : Z) (i : dominfo) :
  domain st = None →
  libvirt_connection st = true →
  triggers st !! "libvirt_run" = Some t0 →
  (∀ tr, drv_int drv tr (conn_lookupByUUIDString (uuid st)) = Returns z) →
  (∀ tr, drv_xmldesc drv tr = Returns desc) →
  (∀ tr, drv_int drv tr
           (conn_domainEventRegisterAny libvirt.VIR_DOMAIN_EVENT_ID_LIFECYCLE)
         = Returns id) →
  (∀ tr, drv_info drv tr = Returns i) →
  ∃ st', connect_domain drv st = (Val tt, st')
         ∧ domain st' = Some (VirDomain (uuid st))
         ∧ definition st' = Some desc
         ∧ libvirt_event_callback_id st' = Some id
         ∧ libvirt_status st' = di_state i
         ∧ published (trace st') = published (trace st) ++ refresh_presence (Returns i)
         ∧ triggers st' !! "libvirt_run" = Some (refresh_trigger (Returns i) t0).
Proof.
  intros Hd Hc Ht Hlook Hxml Hreg Hinfo.
  set (s1 := set_domain (Some (VirDomain (uuid st)))
               (set_trace (trace st ++ [DriverCall (conn_lookupByUUIDString (uuid st))])
                          st)).
  set (s2 := set_trace (trace s1 ++ [DriverCall (domain_XMLDesc 0)]) s1).
  set (s3 := set_trace (trace s2 ++ [Log "info" "sucessfully connect to domain uuid %s"])
               (set_definition (Some desc) s2)).
  set (s4 := set_libvirt_event_callback_id (Some id)
               (set_trace (trace s3 ++
                           [DriverCall (conn_domainEventRegisterAny
                                          libvirt.VIR_DOMAIN_EVENT_ID_LIFECYCLE)])
                          s3)).
  destruct (refresh_run drv s4 (VirDomain (uuid st)) t0 (Returns i))
    as (st' & Hrun & Hp & Htr & Hs & _);
    [reflexivity | exact Ht | apply Hinfo | discriminate |].
  destruct (refresh_keeps_handle s4 (VirDomain (uuid st)) t0 i eq_refl Ht (Hinfo _))
    as (Hk1 & Hk2 & Hk3).
  rewrite Hrun in Hk1, Hk2, Hk3. cbn [snd] in Hk1, Hk2, Hk3.
  exists st'. split.
  - unfold connect_domain. erewrite bind_val by reflexivity. rewrite Hd.
    assert (H1 : try_except
                   (_ ← conn_call drv (conn_lookupByUUIDString (uuid st));
                    modify (set_domain (Some (VirDomain (uuid st))));;
                    mret true)
                   (λ _,
                      log_warning "Can't connect to domain with UUID %s";;
                      change_presence "xa" ARCHIPEL_XMPP_SHOW_NOT_DEFINED;;
                      perform_hooks "HOOK_VM_INITIALIZE";;
                      mret false) st
                 = (Val true, s1)).
    { unfold try_except, conn_call, driver_call, oracle_call, modify, get,
        mbind, M_bind.
      cbn. now rewrite Hc, Hlook. }
    erewrite bind_val by exact H1.
    unfold try_except.
    assert (H2 : domain_XMLDesc_call drv 0 s1 = (Val desc, s2)).
    { unfold domain_XMLDesc_call, oracle_call. erewrite bind_val by reflexivity.
      cbn [domain s1 set_domain]. now rewrite Hxml. }
    erewrite bind_val by exact H2.
    erewrite bind_val by reflexivity.
    unfold log_info. erewrite bind_val by apply emit_eq.
    assert (H3 : conn_call drv
                   (conn_domainEventRegisterAny libvirt.VIR_DOMAIN_EVENT_ID_LIFECYCLE) s3
                 = (Val id,
                    set_trace (trace s3 ++
                               [DriverCall (conn_domainEventRegisterAny
                                              libvirt.VIR_DOMAIN_EVENT_ID_LIFECYCLE)])
                              s3)).
    { unfold conn_call, driver_call, oracle_call. erewrite bind_val by reflexivity.
      replace (libvirt_connection s3) with true by (symmetry; exact Hc).
      now rewrite Hreg. }
    erewrite bind_val by exact H3.
    erewrite bind_val by reflexivity.
    fold s4. now rewrite Hrun.
  - split; [now rewrite Hk1 |]. split; [now rewrite Hk2 |].
    split; [now rewrite Hk3 |]. split; [now apply Hs |].
    split; [| exact Htr].
    rewrite Hp. unfold s4, s3, s2, s1. simpl.
    rewrite !published_app. simpl. now rewrite !app_nil_r.
Qed.

End Connect.

(** ** Invariants over any sequence of operations *)

#[global] Instance keeps_preorder (P : VM → Prop) : PreOrder (keeps P).
Proof.
  split.
  - intros st H. exact H.
  - intros s1 s2 s3 H12 H23 H. apply H23, H12, H.
Qed.

Lemma respects_external (R : relation VM) `{!PreOrder R} {A : Type} (o : outcome A) :
  respects R (external o).
Proof. intros st. unfold external. destruct o; simpl; reflexivity. Qed.

Lemma keeps_elim (P : VM → Prop) {A : Type} (m : M A) :
  respects (keeps P) m → ∀ st, P st → P (snd (m st)).
Proof. intros H st. apply H. Qed.

Lemma same_elim {X : Type} (view : VM → X) {A : Type} (m : M A) :
  respects (same view) m → ∀ st, view (snd (m st)) = view st.
Proof. intros H st. apply H. Qed.

Create HintDb methods discriminated.

#[global] Hint Unfold
  iq_info info_dict iq_create create iq_shutdown shutdown
  state_is_running_or_blocked iq_destroy destroy iq_reboot reboot
  iq_suspend suspend iq_resume resume iq_xmldesc xmldesc iq_migrate
  migrate_step1 iq_autostart setAutostart iq_memory setMemory iq_setvcpus
  setVCPUs iq_define define iq_undefine undefine iq_capabilities
  message_create message_shutdown message_destroy message_reboot
  message_suspend message_resume on_domain_event on_domain_event_try
  on_domain_event_finally remove_libvirt_handler info memoryTimer
  connect_domain set_presence_according_to_libvirt_info
  set_automatic_libvirt_description value_of fmap M_fmap
  : methods.

Ltac frame_step_with leaf :=
  lazymatch goal with
  | |- respects _ (_ ≫= _) => frame_rule @respects_bind; [| intros ?]
  | |- respects _ (try_except _ _) => frame_rule @respects_try_except; [| intros ?]
  | |- respects _ (try_finally _ _) => frame_rule @respects_try_finally
  | |- respects _ (mret _) => frame_rule @respects_ret
  | |- respects _ (raise _) => frame_rule @respects_raise
  | |- respects _ get => frame_rule @respects_get
  | |- respects _ (modify _) => frame_rule @respects_modify; leaf
  | |- respects _ (oracle_call _ _) => frame_rule @respects_oracle_call; leaf
  | |- respects _ (external _) => frame_rule @respects_external
  | |- respects _ (match ?x with _ => _ end) => destruct x
  end.

Ltac frame_all known leaf :=
  repeat first
    [ known
    | frame_step_with leaf
    | progress cbv zeta
    | progress autounfold with agent methods ].

Ltac lock_leaf :=
  let st := fresh "st" in
  intros st; unfold keeps, lock_invariant; simpl; exact (λ H, H).

Ltac view_leaf :=
  intros; unfold same, identity_view; simpl; reflexivity.

Lemma lock_keeps_invariant : respects (keeps lock_invariant) lock.
Proof. intros st _. rewrite lock_run. intros _. reflexivity. Qed.

Section OperationInvariants.

Variable drv : Driver.
Variable hypervisor_jid : JID.
Variable hypervisor_capabilities : outcome Node.
Variable send_uri_request : JID → outcome unit.

Lemma unlock_keeps_invariant : respects (keeps lock_invariant) unlock.
Proof.
  intros st _. destruct (unlock_run st) as (st' & Hu & Hl & _).
  rewrite Hu. simpl. intros H. congruence.
Qed.

Ltac lock_known :=
  first [ apply lock_keeps_invariant | apply unlock_keeps_invariant ].

Lemma run_operation_lock_invariant (op : operation) (st : VM) :
  lock_invariant st →
  lock_invariant
    (run_operation drv hypervisor_jid hypervisor_capabilities send_uri_request op st).
Proof.
  revert st.
  destruct op; cbn [run_operation]; apply keeps_elim;
    frame_all lock_known lock_leaf.
Qed.

(** X17.  Whatever requests, chat orders, lifecycle events and timer runs
    reach the agent, in whatever order and whatever the driver answers,
    the lock keeps its invariant: while it is held, its safety timer is
    pending. *)
Theorem lock_invariant_kept (ops : list operation) (st : VM) :
  lock_invariant st →
  lock_invariant
    (run_operations drv hypervisor_jid hypervisor_capabilities send_uri_request
       ops st).
Proof.
  revert st. induction ops as [| op ops IH]; intros st H; [exact H |].
  simpl. apply IH. now apply run_operation_lock_invariant.
Qed.

Ltac unfold_locks := progress unfold lock, unlock.

Lemma run_operation_identity (op : operation) (st : VM) :
  identity_view
    (run_operation drv hypervisor_jid hypervisor_capabilities send_uri_request op st)
  = identity_view st.
Proof.
  revert st.
  destruct op; cbn [run_operation]; apply same_elim;
    frame_all unfold_locks view_leaf.
Qed.

Ltac flag_leaf := intros; unfold same; simpl; reflexivity.

Lemma run_operation_flag (op : operation) (st : VM) :
  is_migrate op = false →
  is_migrating
    (run_operation drv hypervisor_jid hypervisor_capabilities send_uri_request op st)
  = is_migrating st.
Proof.
  intros Hop. revert st.
  destruct op; try discriminate Hop; cbn [run_operation]; apply same_elim;
    frame_all unfold_locks flag_leaf.
Qed.

(** X18.  No sequence of operations changes the agent's address, password
    or name; and as long as none of them is a migrate request, none changes
    the migration flag either: nothing of what is embedded here clears it,
    and only step one of a migration sets it. *)
Theorem identity_and_flag_kept (ops : list operation) (st : VM) :
  let st' := run_operations drv hypervisor_jid hypervisor_capabilities
               send_uri_request ops st in
  jid st' = jid st ∧ password st' = password st ∧ name st' = name st
  ∧ (forallb (λ op, negb (is_migrate op)) ops = true →
     is_migrating st' = is_migrating st).
Proof.
  cbv zeta. revert st. induction ops as [| op ops IH]; intros st.
  - now repeat split.
  - simpl. destruct (IH (run_operation drv hypervisor_jid hypervisor_capabilities
                           send_uri_request op st)) as (H1 & H2 & H3 & H4).
    pose proof (run_operation_identity op st) as Hid.
    unfold identity_view in Hid. injection Hid as Hj Hp Hn.
    repeat split; try congruence.
    intros Hall. apply andb_true_iff in Hall as [Hop Hall].
    rewrite (H4 Hall). apply run_operation_flag.
    now destruct (is_migrate op).
Qed.

End OperationInvariants.

(** ** The description element: written by define, stripped by xmldesc *)

Section Description.

Variable drv : Driver.

(** X19.  The node that define rewrites keeps every child of the request
    that is neither a description nor a name, in order; it has as many
    description children as the request had, and one if it had none, and
    likewise for name.  A request with at most one description thus leaves
    exactly one, the one that carries the credentials. *)
Theorem set_automatic_libvirt_description_shape (st : VM) (xmldesc : Node) :
  ∃ xml st', set_automatic_libvirt_description xmldesc st = (Val xml, st')
    ∧ count_tag "description" xml = Nat.max 1 (count_tag "description" xmldesc)
    ∧ count_tag "name" xml = Nat.max 1 (count_tag "name" xmldesc)
    ∧ children_but ["description"; "name"] xml
      = children_but ["description"; "name"] xmldesc.
Proof.
  destruct (set_automatic_libvirt_description_children st xmldesc) as (xml & Hrun & Hk).
  exists xml. eexists. split; [exact Hrun |].
  unfold count_tag, children_but. rewrite Hk.
  apply rewritten_children_counts.
Qed.

(** X20.  [xmldesc] asks the driver for the XML with the secure flag and
    removes the first description child from it, and only that one: when
    the children of the driver's document are [pre], then a description
    [x], then [post], with no description in [pre], the children of the
    node returned are [pre] then [post]; a document without a description
    is returned as it is.  So the node returned has one description fewer,
    every other child is kept in order, and when the document has at most
    one description the node returned has none. *)
Theorem xmldesc_strips_description (st : VM) (d : virDomain) (doc : Node) :
  domain st = Some d →
  drv_xmldesc drv (trace st) = Returns doc →
  ∃ out, xmldesc drv st
         = (Val out,
            set_trace (trace st ++
                       [DriverCall (domain_XMLDesc libvirt.VIR_DOMAIN_XML_SECURE)]) st)
         ∧ (∀ pre x post,
              getChildren doc = pre ++ x :: post →
              Forall (λ c, has_name "description" c = false) pre →
              has_name "description" x = true →
              out = mkNode (getName doc) (getAttrs doc) (getData doc) (pre ++ post))
         ∧ (getTag "description" doc = None → out = doc)
         ∧ count_tag "description" out = Nat.pred (count_tag "description" doc)
         ∧ children_but ["description"] out = children_but ["description"] doc
         ∧ ((count_tag "description" doc ≤ 1)%nat → getTag "description" out = None).
Proof.
  intros Hd Hdoc.
  assert (Hcall : domain_XMLDesc_call drv libvirt.VIR_DOMAIN_XML_SECURE st
                  = (Val doc,
                     set_trace (trace st ++
                                [DriverCall (domain_XMLDesc libvirt.VIR_DOMAIN_XML_SECURE)])
                               st)).
  { unfold domain_XMLDesc_call, oracle_call. erewrite bind_val by reflexivity.
    now rewrite Hd, Hdoc. }
  unfold xmldesc. erewrite bind_val by exact Hcall.
  destruct doc as [t0 a c k]. unfold getTag, count_tag, children_but. simpl.
  destruct (List.find (has_name "description") k) eqn:E.
  - eexists. split; [reflexivity |]. simpl.
    split.
    { intros pre x post -> Hpre Hx. now rewrite (remove_first_split _ pre post x). }
    split; [discriminate |].
    split; [apply count_remove_first |].
    split.
    + apply filter_remove_first. intros c0 Hc. now rewrite Hc.
    + intros Hle. apply find_none_count. rewrite count_remove_first. lia.
  - eexists. split; [reflexivity |]. simpl.
    split.
    { intros pre x post -> Hpre Hx. exfalso.
      rewrite find_app_none in E by (apply find_none_forall; exact Hpre).
      simpl in E. now rewrite Hx in E. }
    apply find_none_count in E as E'. rewrite E'. now repeat split.
Qed.

(** X21.  The credentials define writes do not come back through xmldesc:
    when the driver's XML is the node define handed over for a request with
    at most one description, the node xmldesc returns has no description
    child, and its name is still the agent's display name. *)
Theorem xmldesc_hides_credentials (st0 st1 st : VM) (d : virDomain)
    (request xml : Node) :
  (count_tag "description" request ≤ 1)%nat →
  set_automatic_libvirt_description request st0 = (Val xml, st1) →
  domain st = Some d →
  drv_xmldesc drv (trace st) = Returns xml →
  ∃ out st', xmldesc drv st = (Val out, st')
             ∧ getTag "description" out = None
             ∧ getData <$> getTag "name" out = Some (name st0).
Proof.
  intros Hle Hset Hd Hdoc.
  destruct (set_automatic_libvirt_description_children st0 request) as (x & Hrun & Hk).
  rewrite Hrun in Hset. inversion Hset; subst x st1. clear Hset.
  destruct (set_automatic_libvirt_description_run st0 request) as (x & Hrun' & _ & Hname).
  rewrite Hrun in Hrun'. inversion Hrun'; subst x. clear Hrun'.
  destruct (rewritten_children_counts (getStripped (jid st0) +:+ "::::" +:+ password st0)
              (name st0) (getChildren request)) as (Hc & _ & _).
  rewrite <- Hk in Hc. fold (count_tag "description" xml) in Hc.
  fold (count_tag "description" request) in Hc.
  assert (Hcall : domain_XMLDesc_call drv libvirt.VIR_DOMAIN_XML_SECURE st
                  = (Val xml,
                     set_trace (trace st ++
                                [DriverCall (domain_XMLDesc libvirt.VIR_DOMAIN_XML_SECURE)])
                               st)).
  { unfold domain_XMLDesc_call, oracle_call. erewrite bind_val by reflexivity.
    now rewrite Hd, Hdoc. }
  unfold xmldesc. erewrite bind_val by exact Hcall.
  destruct xml as [t0 a c k]. unfold getTag, count_tag in *. simpl in *.
  destruct (List.find (has_name "description") k) eqn:E.
  - eexists _, _. split; [reflexivity |]. simpl. split.
    + apply find_none_count. rewrite count_remove_first. lia.
    + rewrite find_remove_first_other by discriminate. exact Hname.
  - exfalso. apply find_none_count in E. lia.
Qed.

End Description.

(** ** The memory poll, by the amounts *)


Section MemoryAmounts.

Variable drv : Driver.


End MemoryAmounts.

(** ** More examples on concrete agents *)

Lemma control_router_while_migrating_witness :
  is_migrating migrating_vm = true
  ∧ process_iq_archipel_control running_driver own_hypervisor send_succeeds
      unembedded_handler unembedded_handler (sample_envelope "shutdown") migrating_vm
    = (Val (NodeProcessed (Some (error_text migrating_message (-43)))), migrating_vm).
Proof.
  split; [reflexivity |].
  apply (control_router_while_migrating running_driver own_hypervisor send_succeeds
           unembedded_handler unembedded_handler (sample_envelope "shutdown")
           migrating_vm); reflexivity.
Defined.

Lemma control_router_unknown_action_witness :
  process_iq_archipel_control running_driver own_hypervisor send_succeeds
    unembedded_handler unembedded_handler (sample_envelope "setpincpus") sample_vm
  = (Val returned, sample_vm).
Proof.
  apply (control_router_unknown_action running_driver own_hypervisor send_succeeds
           unembedded_handler unembedded_handler (sample_envelope "setpincpus")
           sample_vm); reflexivity.
Defined.

Lemma definition_router_while_migrating_witness :
  process_iq_archipel_definition running_driver (Returns sample_xml)
    (sample_envelope "undefine") migrating_vm
  = (Val (NodeProcessed (Some (error_text migrating_message (-43)))), migrating_vm)
  ∧ process_iq_archipel_definition running_driver (Returns sample_xml)
      (sample_envelope "cap") migrating_vm
    = (Val returned, migrating_vm).
Proof.
  split.
  - apply (definition_router_while_migrating running_driver (Returns sample_xml)
             (sample_envelope "undefine") migrating_vm); [reflexivity | discriminate].
  - apply (definition_router_while_migrating running_driver (Returns sample_xml)
             (sample_envelope "cap") migrating_vm); [reflexivity | discriminate].
Defined.

Lemma read_requests_on_undefined_domain_witness :
  domain undefined_vm = None
  ∧ iq_info running_driver own_hypervisor (sample_iq 0) undefined_vm
    = (Val (reply_of Ignore), undefined_vm).
Proof.
  split; [reflexivity |].
  apply (read_requests_on_undefined_domain running_driver own_hypervisor
           (sample_iq 0) undefined_vm). reflexivity.
Defined.

Lemma iq_undefine_on_undefined_domain_witness :
  fst (iq_undefine running_driver (sample_iq 0) undefined_vm) = Val (Result no_payload)
  ∧ driver_calls (trace (snd (iq_undefine running_driver (sample_iq 0) undefined_vm)))
    = [].
Proof.
  rewrite (iq_undefine_on_undefined_domain running_driver (sample_iq 0) undefined_vm
             eq_refl).
  split; reflexivity.
Defined.

Lemma value_requests_without_value_witness :
  (iq_value no_value_iq = no_value
   ∧ iq_autostart running_driver no_value_iq sample_vm
     = (Val (Error TypeError (-1015) None), sample_vm)
   ∧ iq_memory running_driver no_value_iq sample_vm
     = (Val (Error TypeError (-1016) None), sample_vm)
   ∧ iq_setvcpus running_driver no_value_iq sample_vm
     = (Val (Error TypeError (-1016) None), sample_vm))
  ∧ (iq_value bad_value_iq = not_a_number
     ∧ iq_autostart running_driver bad_value_iq sample_vm
       = (Val (Error ValueError (-1015) None), sample_vm)
     ∧ iq_memory running_driver bad_value_iq sample_vm
       = (Val (Error ValueError (-1016) None), sample_vm)
     ∧ iq_setvcpus running_driver bad_value_iq sample_vm
       = (Val (Error ValueError (-1016) None), sample_vm)).
Proof.
  split; (split; [reflexivity |]).
  - apply (value_requests_without_value running_driver no_value_iq sample_vm TypeError).
    left. split; reflexivity.
  - apply (value_requests_without_value running_driver bad_value_iq sample_vm ValueError).
    right. split; reflexivity.
Defined.

Lemma iq_memory_clamps_witness :
  driver_calls (trace (snd (iq_memory running_driver (sample_iq 4) sample_vm)))
  = [DriverCall (domain_setMemory 10)].
Proof.
  rewrite (iq_memory_clamps running_driver (sample_iq 4) sample_vm (VirDomain "aaaa") 4
             eq_refl eq_refl).
  reflexivity.
Defined.

Lemma chat_order_failure_keeps_lock_witness :
  locked sample_vm = false
  ∧ ∃ st', message_create failing_create_driver "start" sample_vm
           = (Val (error_message (libvirtError 1)), st')
           ∧ locked st' = true.
Proof.
  split; [reflexivity |].
  destruct (chat_order_failure_keeps_lock failing_create_driver sample_vm
              (VirDomain "aaaa") "start" (message_create failing_create_driver)
              domain_create (libvirtError 1))
    as (st' & Hrun & Hl & _).
  - reflexivity.
  - simpl. auto.
  - intros tr. reflexivity.
  - exists st'. split; [exact Hrun | exact Hl].
Defined.

Lemma iq_create_waits_for_event_witness :
  ∃ st', iq_create running_driver (sample_iq 0) sample_vm
         = (Val (Result (domain_payload 0)), st')
         ∧ locked st' = true
         ∧ published (trace st') = published (trace sample_vm).
Proof.
  destruct (iq_create_waits_for_event running_driver sample_vm (VirDomain "aaaa")
              (sample_iq 0) 0 0)
    as (st' & Hrun & Hl & _ & Hp & _).
  - reflexivity.
  - reflexivity.
  - reflexivity.
  - intros tr. reflexivity.
  - intros tr. reflexivity.
  - exists st'. split; [exact Hrun |]. split; [exact Hl | exact Hp].
Defined.

Lemma iq_create_synthesizes_started_witness :
  ∃ st', iq_create eventless_driver (sample_iq 0) sample_vm
         = (Val (Result (domain_payload 0)), st')
         ∧ locked st' = false
         ∧ published (trace st')
           = [ChangePresence "" "Running";
              PushChange "virtualmachine:control" "created";
              PerformHooks "HOOK_VM_CREATE"].
Proof.
  destruct (iq_create_synthesizes_started eventless_driver sample_vm
              (VirDomain "aaaa") (sample_iq 0) ARCHIPEL_TRIGGER_STATE_ON 0)
    as (st' & Hrun & Hl & Hp & _).
  - reflexivity.
  - reflexivity.
  - reflexivity.
  - reflexivity.
  - reflexivity.
  - intros tr. reflexivity.
  - intros tr. reflexivity.
  - exists st'. split; [exact Hrun |]. split; [exact Hl | exact Hp].
Defined.

Lemma iq_setvcpus_accepted_witness :
  ∃ st', iq_setvcpus running_driver (sample_iq 4) sample_vm
         = (Val (Result no_payload), st')
         ∧ locked st' = false
         ∧ lock_timer st' = Some timer_cancelled.
Proof.
  destruct (iq_setvcpus_accepted running_driver sample_vm (VirDomain "aaaa")
              (sample_iq 4) 4 8 0)
    as (st' & Hrun & Hl & Ht & _).
  - reflexivity.
  - reflexivity.
  - intros tr. reflexivity.
  - intros tr. reflexivity.
  - lia.
  - exists st'. split; [exact Hrun |]. split; [exact Hl | exact Ht].
Defined.

Lemma iq_migrate_flag_only_when_allowed_witness :
  is_migrating (snd (iq_migrate running_driver own_hypervisor send_succeeds
                       (Some other_hypervisor) sample_vm)) = true
  ∧ ∃ destination, Some other_hypervisor = Some destination
                   ∧ getStripped own_hypervisor ≠ getStripped destination.
Proof.
  split; [reflexivity |].
  destruct (iq_migrate_flag_only_when_allowed running_driver own_hypervisor
              send_succeeds sample_vm
              (snd (iq_migrate running_driver own_hypervisor send_succeeds
                      (Some other_hypervisor) sample_vm))
              (Some other_hypervisor)
              (fst (iq_migrate running_driver own_hypervisor send_succeeds
                      (Some other_hypervisor) sample_vm)))
    as (destination & i & tr & H1 & _ & _ & _ & _ & _ & _ & H8 & _).
  - now destruct (iq_migrate running_driver own_hypervisor send_succeeds
                    (Some other_hypervisor) sample_vm).
  - discriminate.
  - exists destination. split; [exact H1 | exact H8].
Defined.

Lemma migrate_accepted_then_guarded_witness :
  fst (iq_migrate running_driver own_hypervisor send_succeeds
         (Some other_hypervisor) sample_vm)
  = Val (reply_of (Result no_payload))
  ∧ fst (process_iq_archipel_control running_driver own_hypervisor send_succeeds
           unembedded_handler unembedded_handler (sample_envelope "shutdown")
           (snd (iq_migrate running_driver own_hypervisor send_succeeds
                   (Some other_hypervisor) sample_vm)))
    = Val (NodeProcessed (Some (error_text migrating_message (-43)))).
Proof.
  destruct (migrate_accepted_then_guarded running_driver own_hypervisor
              send_succeeds unembedded_handler unembedded_handler sample_vm
              (VirDomain "aaaa") sample_xml other_hypervisor running_info
              (sample_envelope "shutdown"))
    as [Hm Hr]; try reflexivity; try discriminate.
  rewrite Hm. split; [reflexivity |]. cbn [snd]. rewrite Hr. reflexivity.
Defined.

Lemma connect_domain_lookup_fails_witness :
  domain undefined_vm = None
  ∧ ∃ st', connect_domain empty_driver undefined_vm = (Val tt, st')
           ∧ domain st' = None
           ∧ published (trace st')
             = [ChangePresence "xa" "Not defined"; PerformHooks "HOOK_VM_INITIALIZE"].
Proof.
  split; [reflexivity |].
  destruct (connect_domain_lookup_fails empty_driver undefined_vm)
    as (st' & Hrun & Hd & Hp & _).
  - reflexivity.
  - right. exists (libvirtError 42). reflexivity.
  - exists st'. split; [exact Hrun |]. split; [exact Hd | exact Hp].
Defined.

Lemma lock_invariant_kept_witness :
  lock_invariant sample_vm
  ∧ lock_invariant
      (run_operations failing_create_driver own_hypervisor (Returns sample_xml)
         send_succeeds
         [call_message_create "start"; call_iq_setvcpus (sample_iq 9);
          call_on_domain_event 5 0; call_iq_create (sample_iq 0); call_lock_timer]
         sample_vm).
Proof.
  assert (H : lock_invariant sample_vm) by (intros Hl; discriminate Hl).
  split; [exact H |].
  apply (lock_invariant_kept failing_create_driver own_hypervisor
           (Returns sample_xml) send_succeeds). exact H.
Defined.

Lemma xmldesc_strips_description_witness :
  count_tag "description" annotated_xml = 2%nat
  ∧ ∃ out, fst (xmldesc annotated_driver sample_vm) = Val out
           ∧ getChildren out
             = [mkNode "name" [] "vm-one" [];
                mkNode "uuid" [] "aaaa" [];
                mkNode "description" [] "second" []].
Proof.
  split; [reflexivity |].
  destruct (xmldesc_strips_description annotated_driver sample_vm (VirDomain "aaaa")
              annotated_xml eq_refl eq_refl)
    as (out & Hrun & Hfirst & _).
  exists out. rewrite Hrun. split; [reflexivity |].
  rewrite (Hfirst [mkNode "name" [] "vm-one" []]
             (mkNode "description" [] "first" [])
             [mkNode "uuid" [] "aaaa" []; mkNode "description" [] "second" []]).
  - reflexivity.
  - reflexivity.
  - repeat constructor.
  - reflexivity.
Defined.

Lemma xmldesc_hides_credentials_witness :
  getData <$> getTag "description" rewritten_sample_xml
  = Some "aaaa@hypervisor.example::::secret"
  ∧ ∃ out st', xmldesc defined_driver sample_vm = (Val out, st')
               ∧ getTag "description" out = None
               ∧ getData <$> getTag "name" out = Some "vm-one".
Proof.
  split; [vm_compute; reflexivity |].
  apply (xmldesc_hides_credentials defined_driver sample_vm
           (snd (set_automatic_libvirt_description sample_xml sample_vm))
           sample_vm (VirDomain "aaaa") sample_xml rewritten_sample_xml).
  - vm_compute. lia.
  - vm_compute. reflexivity.
  - reflexivity.
  - reflexivity.
Defined.


Lemma lifecycle_error_releases_lock_witness :
  locked sample_vm = false
  ∧ fst (iq_create failing_create_driver (sample_iq 0) sample_vm)
    = Val (Error (libvirtError 1) 1 (Some ARCHIPEL_NS_LIBVIRT_GENERIC_ERROR))
  ∧ locked (snd (iq_create failing_create_driver (sample_iq 0) sample_vm)) = false.
Proof.
  split; [reflexivity |]. split; [vm_compute; reflexivity |].
  apply (lifecycle_error_releases_lock failing_create_driver sample_vm
           (snd (iq_create failing_create_driver (sample_iq 0) sample_vm))
           (sample_iq 0) (iq_create failing_create_driver)
           (libvirtError 1) 1 (Some ARCHIPEL_NS_LIBVIRT_GENERIC_ERROR)).
  - reflexivity.
  - simpl. auto.
  - vm_compute. reflexivity.
Defined.

Lemma connect_domain_connects_witness :
  domain undefined_vm = None
  ∧ ∃ st', connect_domain running_driver undefined_vm = (Val tt, st')
           ∧ domain st' = Some (VirDomain "aaaa")
           ∧ definition st' = Some sample_xml
           ∧ libvirt_event_callback_id st' = Some 0
           ∧ published (trace st')
             = [ChangePresence "" "Running"; PerformHooks "HOOK_VM_INITIALIZE"].
Proof.
  split; [reflexivity |].
  destruct (connect_domain_connects running_driver undefined_vm
              ARCHIPEL_TRIGGER_STATE_OFF sample_xml 0 0 running_info)
    as (st' & Hrun & Hd & Hdef & Hcb & _ & Hp & _).
  - reflexivity.
  - reflexivity.
  - reflexivity.
  - intros tr. reflexivity.
  - intros tr. reflexivity.
  - intros tr. reflexivity.
  - intros tr. reflexivity.
  - exists st'. now repeat split.
Defined.
